(** * Guerilla: device registry and repository checkout task

    A shallow embedding of the device manager (the simctl listing parser,
    [createDevice], the line stream, [DeviceManager]) and of the
    `repo-checkout` task, together with the properties stated about them.

    JavaScript strings are modelled as [string], i.e. sequences of code
    units below 256; numbers that index strings are [Z], because the code
    compares them with [-1] and passes them, possibly negative, to [slice]. *)

From Stdlib Require Import ZArith Ascii Lia.
From Stdlib Require String.
From stdpp Require Import base option list gmap strings.

Local Open Scope Z_scope.

(** ** JavaScript string primitives used by the sources *)

Module Js.

(** [s.length] *)
Definition length (s : string) : Z := Z.of_nat (String.length s).

Fixpoint drop (n : nat) (s : string) : string :=
  match n, s with
  | O, _ => s
  | S n', String _ s' => drop n' s'
  | S _, EmptyString => EmptyString
  end.

(** Relative index resolution shared by [slice]'s two arguments:
    a negative index counts from the end, and the result is clamped
    to [0 .. len]. *)
Definition clampIndex (len k : Z) : Z :=
  if k <? 0 then Z.max (len + k) 0 else Z.min k len.

(** [s.slice(start, end)] *)
Definition slice (s : string) (start end_ : Z) : string :=
  let len := length s in
  let from := clampIndex len start in
  let to := clampIndex len end_ in
  if from <? to
  then String.substring (Z.to_nat from) (Z.to_nat (to - from)) s
  else "".

(** Scan for the first position at which [pat] is a prefix; [pos] is
    the absolute index of the head of [s]. *)
Fixpoint scan (pat s : string) (pos : Z) : Z :=
  if String.prefix pat s then pos
  else match s with
       | EmptyString => -1
       | String _ s' => scan pat s' (pos + 1)
       end.

(** [s.indexOf(pat, fromIndex)] *)
Definition indexOfFrom (s pat : string) (fromIndex : Z) : Z :=
  let k := Z.min (Z.max fromIndex 0) (length s) in
  scan pat (drop (Z.to_nat k) s) k.

(** [s.indexOf(pat)] *)
Definition indexOf (s pat : string) : Z := indexOfFrom s pat 0.

(** White space and line terminators among the code units below 256:
    TAB, LF, VT, FF, CR, SPACE and NBSP. *)
Definition isWhiteSpace (c : ascii) : bool :=
  let n := nat_of_ascii c in
  ((9 <=? n) && (n <=? 13) || (n =? 32) || (n =? 160))%nat.

Fixpoint trimStart (s : string) : string :=
  match s with
  | EmptyString => EmptyString
  | String c s' => if isWhiteSpace c then trimStart s' else s
  end.

Fixpoint trimEnd (s : string) : string :=
  match s with
  | EmptyString => EmptyString
  | String c s' =>
      match trimEnd s' with
      | EmptyString => if isWhiteSpace c then EmptyString else String c EmptyString
      | t => String c t
      end
  end.

(** [s.trim()] *)
Definition trim (s : string) : string := trimEnd (trimStart s).

(** [s.split(sep)] for a separator of one character, which is how both
    call sites use it ([' '] and ['\n']). *)
Fixpoint split (s : string) (sep : ascii) : list string :=
  match s with
  | EmptyString => [EmptyString]
  | String c s' =>
      if Ascii.eqb c sep then EmptyString :: split s' sep
      else match split s' sep with
           | h :: t => String c h :: t
           | [] => [String c EmptyString]
           end
  end.

(** String conversion of a possibly [undefined] array element, as done
    by [+] on strings. *)
Definition toString (v : option string) : string :=
  match v with
  | Some s => s
  | None => "undefined"
  end.

End Js.

(** ** Results of code that may throw *)

(** [Return] is normal completion, [Throw] an uncaught [Error] with its
    message, and [OutOfFuel] marks a loop model that ran out of fuel. *)
Inductive result (A : Type) : Type :=
| Return (a : A)
| Throw (message : string)
| OutOfFuel.
Arguments Return {A} a.
Arguments Throw {A} message.
Arguments OutOfFuel {A}.

(** ** Device descriptors *)

(** The object literal returned by [createDevice]. *)
Record DeviceJson : Type := {
  tag : string;
  platform : string;
  identifier : string;
  name : string;
  OS : string;
  simulator : bool;
  destination : string
}.

Definition newline : ascii := ascii_of_nat 10.
Definition space : ascii := ascii_of_nat 32.

Definition createDevice (oslevel line : string) : result DeviceJson :=
  if negb (Js.indexOf line "unavailable" =? -1) then
    Throw ("createDevice-fed an unavailable device:" +:+ oslevel +:+ ":" +:+ line)
  else
    let openParenIndex := Js.indexOf line "(" in
    let closeParenIndex := Js.indexOf line ")" in
    if openParenIndex =? -1 then
      Throw ("createDevice: could not find open paren in: " +:+ oslevel +:+ ":" +:+ line)
    else if closeParenIndex =? -1 then
      Throw ("createDevice: could not find close paren in: " +:+ oslevel +:+ ":" +:+ line)
    else
      let identifier := Js.slice line (openParenIndex + 1) closeParenIndex in
      if Js.length identifier <? 10 then
        Throw ("createDevice: could not find valid identifier in:" +:+ oslevel +:+ ":" +:+ line)
      else
        let name := Js.trim (Js.slice line 0 openParenIndex) in
        let osVersion := Js.toString (Js.split oslevel space !! 1%nat) in
        Return {|
          tag := "ios-simulator,OS=" +:+ osVersion +:+ ",name=" +:+ name;
          platform := "ios";
          identifier := identifier;
          name := "ios-simulator " +:+ name +:+ " (" +:+ osVersion +:+ ")";
          OS := oslevel;
          simulator := true;
          destination := "OS=" +:+ osVersion +:+ ",name=" +:+ name
        |}.

Definition isHeader (line : string) : bool :=
  let snippet := Js.slice line 0 2 in
  bool_decide (snippet = "--") || bool_decide (snippet = "==").

(** ** The line stream over the simctl listing

    [makeSimctlStream(lines)] closes over the array [lines] and the mutable
    cursor [nextIndex]; its methods are modelled as computations that read
    and update the cursor and may throw. *)

Definition M (A : Type) : Type := nat -> result (A * nat).

Definition ret {A} (a : A) : M A := fun nextIndex => Return (a, nextIndex).

Definition bind {A B} (m : M A) (k : A -> M B) : M B :=
  fun nextIndex =>
    match m nextIndex with
    | Return (a, nextIndex') => k a nextIndex'
    | Throw msg => Throw msg
    | OutOfFuel => OutOfFuel
    end.

Definition throw {A} (msg : string) : M A := fun _ => Throw msg.

Definition outOfFuel {A} : M A := fun _ => OutOfFuel.

(** Running a non-stream computation (such as [createDevice]) inside a
    stream computation. *)
Definition lift {A} (r : result A) : M A :=
  fun nextIndex =>
    match r with
    | Return a => Return (a, nextIndex)
    | Throw msg => Throw msg
    | OutOfFuel => OutOfFuel
    end.

Notation "'let*' x ':=' m 'in' k" := (bind m (fun x => k))
  (at level 10, x name, m at level 100, k at level 200, only parsing).

(** Using a possibly [undefined] value as a string receiver. *)
Definition deref {A} (v : option A) : M A :=
  match v with
  | Some a => ret a
  | None => throw "TypeError: Cannot read property of undefined"
  end.

(** The iterator record [{value: ..., done: ...}]. *)
Record IterResult : Type := { value : option string; done : bool }.

Definition dquote : string := String (ascii_of_nat 34) EmptyString.

Section SimctlStream.

Variable lines : list string.

Definition hasMore : M bool :=
  fun nextIndex => Return (bool_decide (nextIndex < length lines)%nat, nextIndex).

Definition next : M IterResult :=
  let* more := hasMore in
  if more then
    fun nextIndex => Return ({| value := lines !! nextIndex; done := false |}, S nextIndex)
  else ret {| value := None; done := true |}.

(** The body of the do-while loop of [advanceTillMatch]; it returns the
    last [result]. *)
Fixpoint advanceTillMatch_loop (fuel : nat) (line : string) : M IterResult :=
  match fuel with
  | O => outOfFuel
  | S fuel' =>
      let* result := next in
      if done result then ret result
      else
        let* v := deref (value result) in
        if negb (bool_decide (Js.slice v 0 (Js.length line) = line))
        then advanceTillMatch_loop fuel' line
        else ret result
  end.

Definition advanceTillMatch_fuel (fuel : nat) (line : string) : M unit :=
  let* result := advanceTillMatch_loop fuel line in
  if done result then throw ("unexpected end while advancingTillMatch:" +:+ line)
  else ret tt.

Definition nextValue : M (option string) :=
  let* result := next in
  if done result then throw "unexpected end during nextValue()"
  else ret (value result).

Definition nextValueAsOSLevel : M string :=
  let* v := nextValue in
  let* value := deref v in
  if negb (Js.indexOf value "--" =? 0) then
    throw ("expected oslevel prefix of " +:+ dquote +:+ "--" +:+ dquote +:+ " in:" +:+ value)
  else
    let sliceStart := 2 in
    let sliceEnd := Js.indexOfFrom value "--" 2 in
    ret (Js.trim (Js.slice value sliceStart sliceEnd)).

Definition peek : M (option string) :=
  fun nextIndex => Return (lines !! nextIndex, nextIndex).

Definition peekIsDoubleEquals : M bool :=
  let* v := peek in
  let* s := deref v in
  ret (Js.indexOf s "==" =? 0).

Definition peekIsHeader : M bool :=
  let* more := hasMore in
  if more then
    let* v := peek in
    let* s := deref v in
    ret (isHeader s)
  else ret false.

Definition peekHasNextLineEntry : M bool :=
  let* more := hasMore in
  if more then
    let* header := peekIsHeader in
    ret (negb header)
  else ret false.

(** The inner while loop of [getOSLevelEntries]. *)
Fixpoint entries_loop (fuel : nat) (oslevel : string) (results : list DeviceJson)
  : M (list DeviceJson) :=
  match fuel with
  | O => outOfFuel
  | S fuel' =>
      let* entry := peekHasNextLineEntry in
      if entry then
        let* v := nextValue in
        let* line := deref v in
        if Js.indexOf line "unavailable" =? -1 then
          let* device := lift (createDevice oslevel line) in
          entries_loop fuel' oslevel (results ++ [device])
        else entries_loop fuel' oslevel results
      else ret results
  end.

(** The outer while loop of [getOSLevelEntries]; each run of the inner
    loop gets fuel of its own. *)
Fixpoint oslevels_loop (fuel : nat) (results : list DeviceJson)
  : M (list DeviceJson) :=
  match fuel with
  | O => outOfFuel
  | S fuel' =>
      let* more := hasMore in
      let* continue :=
        if more then
          let* eq := peekIsDoubleEquals in ret (negb eq)
        else ret false in
      if continue then
        let* oslevel := nextValueAsOSLevel in
        let* results' := entries_loop (S (length lines)) oslevel results in
        oslevels_loop fuel' results'
      else ret results
  end.

(** Every iteration of every loop advances the cursor, so one more
    step than there are lines is enough fuel. *)
Definition advanceTillMatch (line : string) : M unit :=
  advanceTillMatch_fuel (S (length lines)) line.

Definition getOSLevelEntries : M (list DeviceJson) :=
  oslevels_loop (S (length lines)) [].

Definition getSimulatedDevicesFromLines_stream : M (list DeviceJson) :=
  let* _ := advanceTillMatch "== Device Types ==" in
  let* _ := advanceTillMatch "== Devices ==" in
  getOSLevelEntries.

End SimctlStream.

(** Dropping the final cursor of a stream computation started at index 0. *)
Definition run {A} (m : M A) : result A :=
  match m O with
  | Return (a, _) => Return a
  | Throw msg => Throw msg
  | OutOfFuel => OutOfFuel
  end.

Definition getSimulatedDevicesFromLines (lines : list string) : result (list DeviceJson) :=
  run (getSimulatedDevicesFromLines_stream lines).

Definition getSimulatedDevices (simctlString : string) : result (list DeviceJson) :=
  getSimulatedDevicesFromLines (Js.split simctlString newline).

Definition lf : string := String newline EmptyString.

Definition listing_example : string :=
  "== Device Types ==" +:+ lf +:+
  "== Devices ==" +:+ lf +:+
  "-- iOS 9.1 --" +:+ lf +:+
  "iPhone 4s (05686243-BA24-44CE-94D9-D6823BF96E46) (Shutdown)" +:+ lf.

(** ** The device registry *)

Module Device.

(** Modelled from the spec: the [Device] constructor of [./device], whose
    source is not part of the repository files at hand.  The spec lists
    the fields of a Device ([tag], [platform], [identifier], [name],
    [osVersion], [isSimulator], [destination]) and says a Device is
    created from a descriptor; each field is taken from the descriptor's
    field of the same meaning. *)
Record t : Type := {
  tag : string;
  platform : string;
  identifier : string;
  name : string;
  osVersion : string;
  isSimulator : bool;
  destination : string
}.

Definition new (json : DeviceJson) : t :=
  let '(Build_DeviceJson jtag jplatform jidentifier jname jOS jsimulator jdestination) := json in
  {| tag := jtag;
     platform := jplatform;
     identifier := jidentifier;
     name := jname;
     osVersion := jOS;
     isSimulator := jsimulator;
     destination := jdestination |}.

End Device.

Record DeviceManager : Type := {
  devicesByTag : gmap string Device.t;
  devices : list Device.t
}.

(** The body of the [forEach] callback of the constructor. *)
Definition register (self : DeviceManager) (json : DeviceJson) : DeviceManager :=
  let device := Device.new json in
  {| devicesByTag := <[Device.tag device := device]> (devicesByTag self);
     devices := devices self ++ [device] |}.

(** [new DeviceManager()].  [config_devices] is [config.devices] when it is
    an array and [None] otherwise; [simctl] is the outcome of
    [getSimctlData()], the text printed by `xcrun simctl list` or the
    error thrown by [execSync]. *)
Definition newDeviceManager (config_devices : option (list DeviceJson))
    (simctl : result string) : result DeviceManager :=
  let self := {| devicesByTag := ∅; devices := [] |} in
  let configDevices := match config_devices with Some l => l | None => [] end in
  match simctl with
  | Return simctlData =>
      match getSimulatedDevices simctlData with
      | Return simulatedDevices =>
          let allDevices := configDevices ++ simulatedDevices in
          Return (foldl register self allDevices)
      | Throw msg => Throw msg
      | OutOfFuel => OutOfFuel
      end
  | Throw msg => Throw msg
  | OutOfFuel => OutOfFuel
  end.

(** [findByTag]; [None] is the [null] returned for a missing tag (a
    stored Device is an object, hence truthy). *)
Definition findByTag (self : DeviceManager) (tag : string) : option Device.t :=
  let result := devicesByTag self !! tag in
  match result with
  | Some device => Some device
  | None => None
  end.

(** ** The repository checkout task ([tasks/javascript/repo-checkout.js]) *)

Module RepoCheckout.

Inductive requirement : Type := required | optional.

Definition validate : list (string * requirement) :=
  [("checkout_url", required); ("branch", optional);
   ("project_root", optional); ("manifest_file", optional)].

(** Task parameters; an absent parameter is [None]. *)
Record Params : Type := {
  checkout_url : string;
  branch : option string;
  project_root : option string;
  manifest_file : option string
}.

(** Truthiness of a possibly absent string: [undefined] and the empty
    string are falsy. *)
Definition truthy (v : option string) : bool :=
  match v with
  | Some s => negb (bool_decide (s = ""))
  | None => false
  end.

Record Context : Type := {
  working_dir : string;
  bin_dir : string;
  ctx_checkout_root : string;
  ctx_project_root : string
}.

(** One call of the command runner: [exec(cmd, args, options, cb)]
    without the callbacks. *)
Record Command : Type := {
  cmd : string;
  args : list string;
  cwd : option string
}.

(** An [Error] object handed to a callback; objects are truthy. *)
Inductive Error : Type := MkError (message : string).

(** What the command runner does with one call: the lines it hands to
    the [stdout] option, in order, and the error argument of its
    callback ([None] for a falsy one). *)
Record Outcome : Type := {
  stdout_lines : list string;
  error : option Error
}.

(** The mutable state visible while [execute] runs: the world the
    command runner acts on, the [output] object, and the commands
    issued so far. *)
Record State (World : Type) : Type := {
  world : World;
  output : gmap string string;
  issued : list Command
}.
Arguments world {World} _.
Arguments output {World} _.
Arguments issued {World} _.

Section Execute.

Variable World : Type.
(** The command runner handed to the task. *)
Variable exec : Command -> World -> Outcome * World.
(** [path.join] of Node.js. *)
Variable path_join : list string -> string.

(** A step of [async.series]: it ends by calling [cb] with an
    optional error. *)
Definition Step : Type := State World -> option Error * State World.

(** [exec(cmd, args, options, cb)]: the command is issued, every
    stdout line is handed to [options.stdout] when there is one,
    and then [cb] receives the error; [cb] maps the runner's error
    to the one given to the series. *)
Definition call (c : Command)
    (stdout : option (string -> gmap string string -> gmap string string))
    (cb : option Error -> option Error) : Step :=
  fun st =>
    let '(o, w) := exec c (world st) in
    let out :=
      match stdout with
      | Some f => foldl (fun out data => f data out) (output st) (stdout_lines o)
      | None => output st
      end in
    (cb (error o), {| world := w; output := out; issued := issued st ++ [c] |}).

(** [async.series(tasks, callback)]: the steps run in order, the
    first error ends the series and is the callback's argument. *)
Fixpoint series (tasks : list Step) (st : State World) : option Error * State World :=
  match tasks with
  | [] => (None, st)
  | task :: tasks' =>
      match task st with
      | (Some err, st') => (Some err, st')
      | (None, st') => series tasks' st'
      end
  end.

Definition mkdirCommand (checkout_root : string) : Command :=
  {| cmd := "mkdir"; args := ["-p"; checkout_root]; cwd := None |}.

Definition initCommand (params : Params) (repoCmd checkout_root : string) : Command :=
  {| cmd := repoCmd;
     args := ["init"; "-u"; checkout_url params]
             ++ (if truthy (branch params)
                 then ["-b"; Js.toString (branch params)] else [])
             ++ (if truthy (manifest_file params)
                 then ["-m"; Js.toString (manifest_file params)] else []);
     cwd := Some checkout_root |}.

Definition syncCommand (repoCmd checkout_root : string) : Command :=
  {| cmd := repoCmd; args := ["sync"; "-d"; "-c"; "--jobs=4"];
     cwd := Some checkout_root |}.

Definition revParseCommand (project_root : string) : Command :=
  {| cmd := "git"; args := ["rev-parse"; "HEAD"]; cwd := Some project_root |}.

(** The [stdout] function of the last step. *)
Definition stdout (data : string) (output : gmap string string) : gmap string string :=
  if Js.length data =? 41 then <["version" := Js.trim data]> output else output.

Definition setRoots (params : Params) (context : Context) : Context :=
  let checkout_root := path_join [working_dir context; "project"] in
  let project_root :=
    if truthy (project_root params)
    then path_join [checkout_root; Js.toString (project_root params)]
    else checkout_root in
  {| working_dir := working_dir context;
     bin_dir := bin_dir context;
     ctx_checkout_root := checkout_root;
     ctx_project_root := project_root |}.

Definition steps (params : Params) (context : Context) : list Step :=
  let repoCmd := path_join [bin_dir context; "repo"; "repo"] in
  [ call (mkdirCommand (ctx_checkout_root context)) None (fun err => err);
    call (initCommand params repoCmd (ctx_checkout_root context)) None (fun err => err);
    call (syncCommand repoCmd (ctx_checkout_root context)) None (fun err => err);
    call (revParseCommand (ctx_project_root context)) (Some stdout) (fun _ => None) ].

(** [execute(params, context, exec, callback)]: the result holds the
    arguments of [callback] (the error and [output]), the updated
    context, and the final state with the commands issued. *)
Definition execute (params : Params) (context : Context) (w : World)
  : option Error * State World * Context :=
  let context' := setRoots params context in
  let '(error, st) :=
    series (steps params context') {| world := w; output := ∅; issued := [] |} in
  (error, st, context').

End Execute.

End RepoCheckout.

(** ** Sample listings *)

Definition listing_no_trailing_newline : string :=
  "== Device Types ==" +:+ lf +:+
  "== Devices ==" +:+ lf +:+
  "-- iOS 9.1 --" +:+ lf +:+
  "iPhone 4s (05686243-BA24-44CE-94D9-D6823BF96E46) (Shutdown)".

(** The sample listing followed by the section that `xcrun simctl list`
    prints after the devices. *)
Definition listing_with_next_section : string :=
  listing_example +:+ "== Device Pairs ==" +:+ lf.

(** A listing whose OS-level header lacks the closing dashes. *)
Definition listing_unterminated_oslevel : string :=
  "== Device Types ==" +:+ lf +:+
  "== Devices ==" +:+ lf +:+
  "-- iOS 9.1" +:+ lf +:+
  "iPhone 4s (05686243-BA24-44CE-94D9-D6823BF96E46) (Shutdown)".

Definition iphone4s_line : string :=
  "iPhone 4s (05686243-BA24-44CE-94D9-D6823BF96E46) (Shutdown)".

(** ** The parser as a function of the lines that remain

    The stream code reads [lines] only at and after the cursor.  The
    functions below compute the same results from the list of remaining
    lines; they are used to reason about the stream code, to which
    [stream_view] and [getSimulatedDevicesFromLines_view] relate them. *)

(** The value computed by [nextValueAsOSLevel] from the line it read. *)
Definition osLevelOf (value : string) : result string :=
  if negb (Js.indexOf value "--" =? 0) then
    Throw ("expected oslevel prefix of " +:+ dquote +:+ "--" +:+ dquote +:+ " in:" +:+ value)
  else Return (Js.trim (Js.slice value 2 (Js.indexOfFrom value "--" 2))).

(** The lines left after [advanceTillMatch(line)], if a line matched. *)
Fixpoint advance_view (line : string) (ls : list string) : option (list string) :=
  match ls with
  | [] => None
  | v :: ls' =>
      if negb (bool_decide (Js.slice v 0 (Js.length line) = line))
      then advance_view line ls'
      else Some ls'
  end.

(** The inner loop of [getOSLevelEntries]: the results and the lines left. *)
Fixpoint entries_view (oslevel : string) (results : list DeviceJson) (ls : list string)
  : result (list DeviceJson * list string) :=
  match ls with
  | [] => Return (results, [])
  | line :: ls' =>
      if isHeader line then Return (results, ls)
      else if Js.indexOf line "unavailable" =? -1 then
        match createDevice oslevel line with
        | Return device => entries_view oslevel (results ++ [device]) ls'
        | Throw msg => Throw msg
        | OutOfFuel => OutOfFuel
        end
      else entries_view oslevel results ls'
  end.

(** Both loops of [getOSLevelEntries] as one pass over the lines: [cur]
    is the OS level of the group being read, [None] before the first
    OS-level line. *)
Fixpoint scan_view (cur : option string) (results : list DeviceJson) (ls : list string)
  : result (list DeviceJson * list string) :=
  match ls with
  | [] => Return (results, [])
  | line :: ls' =>
      let header :=
        if Js.indexOf line "==" =? 0 then Return (results, ls)
        else match osLevelOf line with
             | Return oslevel => scan_view (Some oslevel) results ls'
             | Throw msg => Throw msg
             | OutOfFuel => OutOfFuel
             end in
      match cur with
      | Some oslevel =>
          if isHeader line then header
          else if Js.indexOf line "unavailable" =? -1 then
            match createDevice oslevel line with
            | Return device => scan_view cur (results ++ [device]) ls'
            | Throw msg => Throw msg
            | OutOfFuel => OutOfFuel
            end
          else scan_view cur results ls'
      | None => header
      end
  end.

(** The cursor that leaves [rem] to be read. *)
Definition cursor_of (lines rem : list string) : nat := (length lines - length rem)%nat.

Definition at_cursor {A} (lines : list string) (r : result (A * list string))
  : result (A * nat) :=
  match r with
  | Return (a, rem) => Return (a, cursor_of lines rem)
  | Throw msg => Throw msg
  | OutOfFuel => OutOfFuel
  end.

(** The whole parser: the devices and the lines left unread. *)
Definition parse_view_rem (lines : list string) : result (list DeviceJson * list string) :=
  match advance_view "== Device Types ==" lines with
  | None => Throw "unexpected end while advancingTillMatch:== Device Types =="
  | Some rem1 =>
      match advance_view "== Devices ==" rem1 with
      | None => Throw "unexpected end while advancingTillMatch:== Devices =="
      | Some rem2 => scan_view None [] rem2
      end
  end.

Definition results_of {A B} (r : result (A * B)) : result A :=
  match r with
  | Return (a, _) => Return a
  | Throw msg => Throw msg
  | OutOfFuel => OutOfFuel
  end.

Definition parse_view (lines : list string) : result (list DeviceJson) :=
  results_of (parse_view_rem lines).

(** An entry line from which [createDevice] cannot take an identifier. *)
Definition malformed (line : string) : Prop :=
  Js.indexOf line "(" = -1 \/ Js.indexOf line ")" = -1 \/
  Js.length (Js.slice line (Js.indexOf line "(" + 1) (Js.indexOf line ")")) < 10.

(** ** Sample lines *)

Definition unavailable_line : string :=
  "iPhone 5 (1A2B3C4D-0000-1111-2222-333344445555) (Shutdown) (unavailable, runtime profile not found)".

Definition unclosed_line : string := "iPhone 5 (1A2B3C4D-0000-1111-2222-333344445555".

Definition iphone4s_json : DeviceJson := {|
  tag := "ios-simulator,OS=9.1,name=iPhone 4s";
  platform := "ios";
  identifier := "05686243-BA24-44CE-94D9-D6823BF96E46";
  name := "ios-simulator iPhone 4s (9.1)";
  OS := "iOS 9.1";
  simulator := true;
  destination := "OS=9.1,name=iPhone 4s"
|}.

(** ** Sample registry inputs *)

(** A configured descriptor with the tag of the simulated iPhone 4s. *)
Definition configured_json : DeviceJson := {|
  tag := "ios-simulator,OS=9.1,name=iPhone 4s";
  platform := "ios";
  identifier := "configured-device-0001";
  name := "bench iPhone 4s";
  OS := "iOS 9.1";
  simulator := false;
  destination := "id=configured-device-0001"
|}.

Definition sample_manager : DeviceManager :=
  foldl register {| devicesByTag := ∅; devices := [] |} [configured_json; iphone4s_json].

(** ** Sample runs of the checkout task *)

Module CheckoutSamples.
Import RepoCheckout.

(** A world that only counts the commands run so far. *)
Definition revision_line : string :=
  "0123456789abcdef0123456789abcdef01234567" +:+ lf.

(** A command runner whose call number [k] (from 0) fails; the fourth
    call prints a revision. *)
Definition exec_fails_at (k : nat) (c : Command) (n : nat) : Outcome * nat :=
  ({| stdout_lines := if (n =? 3)%nat then [revision_line] else [];
      error := if (n =? k)%nat then Some (MkError "exit status 1") else None |},
   S n).

Definition path_join (parts : list string) : string :=
  match parts with
  | [] => "."
  | p :: ps => foldl (fun acc q => acc +:+ "/" +:+ q) p ps
  end.

Definition params : Params := {|
  checkout_url := "https://example.org/manifest.git";
  branch := Some "master";
  project_root := None;
  manifest_file := None
|}.

Definition context : Context := {|
  working_dir := "/tmp/job";
  bin_dir := "/opt/guerilla/bin";
  ctx_checkout_root := "";
  ctx_project_root := ""
|}.

End CheckoutSamples.

(** ** Further sample inputs *)

(** An entry line that contains [unavailable] and lacks the closing
    parenthesis. *)
Definition unavailable_unclosed_line : string :=
  "iPhone 5 (unavailable, runtime profile not found".

Definition iphone5_line : string :=
  "iPhone 5 (1A2B3C4D-0000-1111-2222-333344445555) (Shutdown)".

Definition iphone5_json : DeviceJson := {|
  tag := "ios-simulator,OS=9.1,name=iPhone 5";
  platform := "ios";
  identifier := "1A2B3C4D-0000-1111-2222-333344445555";
  name := "ios-simulator iPhone 5 (9.1)";
  OS := "iOS 9.1";
  simulator := true;
  destination := "OS=9.1,name=iPhone 5"
|}.

(** A configured descriptor whose tag no simulated device carries. *)
Definition nexus_json : DeviceJson := {|
  tag := "android,name=Nexus 5";
  platform := "android";
  identifier := "0a1b2c3d4e5f";
  name := "Nexus 5";
  OS := "Android 6.0";
  simulator := false;
  destination := "id=0a1b2c3d4e5f"
|}.

(** The sample listing with a second entry in its group. *)
Definition listing_two_devices : string :=
  listing_no_trailing_newline +:+ lf +:+ iphone5_line.

Definition distinct_manager : DeviceManager :=
  foldl register {| devicesByTag := ∅; devices := [] |}
    [nexus_json; iphone4s_json; iphone5_json].

(** * Properties *)

(** ** Facts about the string primitives *)

Lemma length_nonneg (s : string) : 0 <= Js.length s.
Proof. unfold Js.length. lia. Qed.

Lemma indexOf_unfold (s pat : string) : Js.indexOf s pat = Js.scan pat s 0.
Proof.
  unfold Js.indexOf, Js.indexOfFrom.
  pose proof (length_nonneg s).
  replace (Z.min (Z.max 0 0) (Js.length s)) with 0 by lia.
  reflexivity.
Qed.

Lemma scan_nil (pat : string) (pos : Z) :
  Js.scan pat "" pos = if String.prefix pat "" then pos else -1.
Proof. reflexivity. Qed.

Lemma scan_cons (pat : string) (c : ascii) (s : string) (pos : Z) :
  Js.scan pat (String c s) pos =
  if String.prefix pat (String c s) then pos else Js.scan pat s (pos + 1).
Proof. reflexivity. Qed.

Lemma scan_range (pat s : string) (pos : Z) :
  Js.scan pat s pos = -1 \/ pos <= Js.scan pat s pos.
Proof.
  revert pos. induction s as [|c s IH]; intros pos.
  - rewrite scan_nil. destruct (String.prefix pat ""); [right; lia | left; reflexivity].
  - rewrite scan_cons. destruct (String.prefix pat (String c s)); [right; lia |].
    destruct (IH (pos + 1)) as [H | H]; [left; exact H | right; lia].
Qed.

Lemma scan_none_shift (pat s : string) (p q : Z) :
  0 <= p -> 0 <= q -> Js.scan pat s p = -1 -> Js.scan pat s q = -1.
Proof.
  revert p q. induction s as [|c s IH]; intros p q Hp Hq.
  - rewrite !scan_nil. destruct (String.prefix pat ""); [lia | reflexivity].
  - rewrite !scan_cons. destruct (String.prefix pat (String c s)); [lia |].
    apply IH; lia.
Qed.

(** [indexOf] is [0] exactly when the pattern is a prefix. *)
Lemma indexOf_zero_prefix (s pat : string) :
  (Js.indexOf s pat =? 0) = String.prefix pat s.
Proof.
  rewrite indexOf_unfold. destruct s as [|c s].
  - rewrite scan_nil. destruct (String.prefix pat ""); reflexivity.
  - rewrite scan_cons. destruct (String.prefix pat (String c s)); [reflexivity |].
    destruct (scan_range pat s (0 + 1)) as [H | H]; rewrite ?H; [reflexivity |].
    apply Z.eqb_neq. lia.
Qed.

Lemma prefix_char (c c' : ascii) (s : string) :
  String.prefix (String c "") (String c' s) = bool_decide (c = c').
Proof.
  simpl. destruct (ascii_dec c c') as [-> | Hne].
  - rewrite bool_decide_eq_true_2 by reflexivity. destruct s; reflexivity.
  - rewrite bool_decide_eq_false_2 by exact Hne. reflexivity.
Qed.

Lemma split_cons (c sep : ascii) (s : string) :
  Js.split (String c s) sep =
  if Ascii.eqb c sep then EmptyString :: Js.split s sep
  else match Js.split s sep with
       | h :: t => String c h :: t
       | [] => [String c EmptyString]
       end.
Proof. reflexivity. Qed.

Lemma split_no_sep (s : string) (c : ascii) :
  Js.indexOf s (String c "") = -1 -> Js.split s c = [s].
Proof.
  rewrite indexOf_unfold. induction s as [|c' s IH]; [reflexivity |].
  rewrite scan_cons, prefix_char, split_cons.
  case_bool_decide as Hc; [lia |].
  intros H. apply (scan_none_shift _ _ _ 0) in H; [| lia | lia].
  rewrite (IH H).
  destruct (Ascii.eqb_spec c' c) as [-> | _]; [contradiction | reflexivity].
Qed.

Lemma split_app_sep (a r : string) (c : ascii) :
  Js.indexOf a (String c "") = -1 ->
  Js.split (a +:+ String c r) c = a :: Js.split r c.
Proof.
  rewrite indexOf_unfold. induction a as [|c' a IH].
  - intros _. change ("" +:+ String c r) with (String c r).
    rewrite split_cons, Ascii.eqb_refl. reflexivity.
  - rewrite scan_cons, prefix_char.
    change (String c' a +:+ String c r) with (String c' (a +:+ String c r)).
    rewrite split_cons.
    case_bool_decide as Hc; [lia |].
    intros H. apply (scan_none_shift _ _ _ 0) in H; [| lia | lia].
    rewrite (IH H).
    destruct (Ascii.eqb_spec c' c) as [-> | _]; [contradiction | reflexivity].
Qed.

Lemma append_empty_r (s : string) : s +:+ "" = s.
Proof.
  induction s as [|c s IH]; [reflexivity |].
  change (String c s +:+ "") with (String c (s +:+ "")). rewrite IH. reflexivity.
Qed.

(** The second element of a label split at single spaces is the token
    between the first space and the next one. *)
Lemma split_second_token (a v rest : string) :
  Js.indexOf a " " = -1 -> Js.indexOf v " " = -1 ->
  rest = "" \/ (exists r, rest = " " +:+ r) ->
  Js.split (a +:+ " " +:+ v +:+ rest) space !! 1%nat = Some v.
Proof.
  intros Ha Hv Hrest.
  change (a +:+ " " +:+ v +:+ rest) with (a +:+ String space (v +:+ rest)).
  rewrite split_app_sep by exact Ha.
  destruct Hrest as [-> | [r ->]].
  - rewrite append_empty_r, split_no_sep by exact Hv. reflexivity.
  - change (v +:+ " " +:+ r) with (v +:+ String space r).
    rewrite split_app_sep by exact Hv. reflexivity.
Qed.

(** ** One step of each stream method, by what the cursor points at *)

Section StreamSteps.

Variable lines : list string.

Lemma hasMore_some (c : nat) (l : string) :
  lines !! c = Some l -> hasMore lines c = Return (true, c).
Proof.
  intros H. unfold hasMore. apply lookup_lt_Some in H.
  rewrite bool_decide_eq_true_2 by exact H. reflexivity.
Qed.

Lemma hasMore_none (c : nat) :
  lines !! c = None -> hasMore lines c = Return (false, c).
Proof.
  intros H. unfold hasMore. apply lookup_ge_None in H.
  rewrite bool_decide_eq_false_2 by lia. reflexivity.
Qed.

Lemma next_some (c : nat) (l : string) :
  lines !! c = Some l ->
  next lines c = Return ({| value := Some l; done := false |}, S c).
Proof.
  intros H. unfold next, bind. rewrite (hasMore_some c l H). cbv beta iota.
  rewrite H. reflexivity.
Qed.

Lemma next_none (c : nat) :
  lines !! c = None ->
  next lines c = Return ({| value := None; done := true |}, c).
Proof.
  intros H. unfold next, bind. rewrite (hasMore_none c H). reflexivity.
Qed.

Lemma nextValue_some (c : nat) (l : string) :
  lines !! c = Some l -> nextValue lines c = Return (Some l, S c).
Proof.
  intros H. unfold nextValue, bind. rewrite (next_some c l H). reflexivity.
Qed.

Lemma nextValue_none (c : nat) :
  lines !! c = None ->
  nextValue lines c = Throw "unexpected end during nextValue()".
Proof.
  intros H. unfold nextValue, bind. rewrite (next_none c H). reflexivity.
Qed.

Lemma nextValueAsOSLevel_some (c : nat) (l : string) :
  lines !! c = Some l ->
  nextValueAsOSLevel lines c = lift (osLevelOf l) (S c).
Proof.
  intros H. unfold nextValueAsOSLevel, bind. rewrite (nextValue_some c l H).
  unfold deref, ret, osLevelOf, lift.
  destruct (negb (Js.indexOf l "--" =? 0)); reflexivity.
Qed.

Lemma peekIsDoubleEquals_some (c : nat) (l : string) :
  lines !! c = Some l ->
  peekIsDoubleEquals lines c = Return (Js.indexOf l "==" =? 0, c).
Proof.
  intros H. unfold peekIsDoubleEquals, bind, peek. rewrite H. reflexivity.
Qed.

Lemma peekHasNextLineEntry_some (c : nat) (l : string) :
  lines !! c = Some l ->
  peekHasNextLineEntry lines c = Return (negb (isHeader l), c).
Proof.
  intros H. unfold peekHasNextLineEntry, peekIsHeader, bind, peek.
  rewrite (hasMore_some c l H). cbv beta iota.
  rewrite (hasMore_some c l H). cbv beta iota. rewrite H. reflexivity.
Qed.

Lemma peekHasNextLineEntry_none (c : nat) :
  lines !! c = None -> peekHasNextLineEntry lines c = Return (false, c).
Proof.
  intros H. unfold peekHasNextLineEntry, bind. rewrite (hasMore_none c H).
  reflexivity.
Qed.

(** *** The loops, one iteration at a time *)

Lemma advanceTillMatch_loop_some (fuel c : nat) (line l : string) :
  lines !! c = Some l ->
  advanceTillMatch_loop lines (S fuel) line c =
  if negb (bool_decide (Js.slice l 0 (Js.length line) = line))
  then advanceTillMatch_loop lines fuel line (S c)
  else Return ({| value := Some l; done := false |}, S c).
Proof.
  intros H. simpl. unfold bind at 1. rewrite (next_some c l H). simpl.
  unfold bind, ret.
  destruct (negb (bool_decide (Js.slice l 0 (Js.length line) = line))); reflexivity.
Qed.

Lemma advanceTillMatch_loop_none (fuel c : nat) (line : string) :
  lines !! c = None ->
  advanceTillMatch_loop lines (S fuel) line c
  = Return ({| value := None; done := true |}, c).
Proof.
  intros H. simpl. unfold bind at 1. rewrite (next_none c H). reflexivity.
Qed.

Lemma entries_loop_some (fuel c : nat) (oslevel l : string) (results : list DeviceJson) :
  lines !! c = Some l ->
  entries_loop lines (S fuel) oslevel results c =
  if isHeader l then Return (results, c)
  else if Js.indexOf l "unavailable" =? -1 then
    match createDevice oslevel l with
    | Return device => entries_loop lines fuel oslevel (results ++ [device]) (S c)
    | Throw msg => Throw msg
    | OutOfFuel => OutOfFuel
    end
  else entries_loop lines fuel oslevel results (S c).
Proof.
  intros H. simpl. unfold bind at 1. rewrite (peekHasNextLineEntry_some c l H).
  destruct (isHeader l); simpl; [reflexivity |].
  unfold bind at 1. rewrite (nextValue_some c l H).
  unfold bind at 1. simpl.
  destruct (Js.indexOf l "unavailable" =? -1); [| reflexivity].
  unfold bind, lift. destruct (createDevice oslevel l); reflexivity.
Qed.

Lemma entries_loop_none (fuel c : nat) (oslevel : string) (results : list DeviceJson) :
  lines !! c = None ->
  entries_loop lines (S fuel) oslevel results c = Return (results, c).
Proof.
  intros H. simpl. unfold bind at 1. rewrite (peekHasNextLineEntry_none c H).
  reflexivity.
Qed.

Lemma oslevels_loop_some (fuel c : nat) (l : string) (results : list DeviceJson) :
  lines !! c = Some l ->
  oslevels_loop lines (S fuel) results c =
  if Js.indexOf l "==" =? 0 then Return (results, c)
  else match osLevelOf l with
       | Return oslevel =>
           match entries_loop lines (S (length lines)) oslevel results (S c) with
           | Return (results', c') => oslevels_loop lines fuel results' c'
           | Throw msg => Throw msg
           | OutOfFuel => OutOfFuel
           end
       | Throw msg => Throw msg
       | OutOfFuel => OutOfFuel
       end.
Proof.
  intros H. cbn [oslevels_loop]. unfold bind at 1. rewrite (hasMore_some c l H).
  unfold bind at 1. unfold bind at 1. rewrite (peekIsDoubleEquals_some c l H).
  unfold ret at 1.
  destruct (Js.indexOf l "==" =? 0); cbn [negb]; [reflexivity |].
  unfold bind at 1. rewrite (nextValueAsOSLevel_some c l H). unfold lift.
  destruct (osLevelOf l) as [oslevel | msg |]; [| reflexivity | reflexivity].
  unfold bind.
  destruct (entries_loop lines (S (length lines)) oslevel results (S c)) as [[r' c'] | |];
    reflexivity.
Qed.

Lemma oslevels_loop_none (fuel c : nat) (results : list DeviceJson) :
  lines !! c = None ->
  oslevels_loop lines (S fuel) results c = Return (results, c).
Proof.
  intros H. cbn [oslevels_loop]. unfold bind at 1. rewrite (hasMore_none c H).
  reflexivity.
Qed.

End StreamSteps.

(** ** The stream code computes the list views *)

Lemma createDevice_terminates (oslevel line : string) :
  createDevice oslevel line <> OutOfFuel.
Proof.
  unfold createDevice.
  repeat match goal with |- context [if ?b then _ else _] => destruct b end;
    discriminate.
Qed.

Lemma osLevelOf_terminates (value : string) : osLevelOf value <> OutOfFuel.
Proof. unfold osLevelOf. destruct (negb _); discriminate. Qed.

Lemma entries_view_suffix (oslevel : string) (ls : list string) :
  forall results results' rem,
    entries_view oslevel results ls = Return (results', rem) -> rem `suffix_of` ls.
Proof.
  induction ls as [|l ls IH]; intros results results' rem; cbn [entries_view].
  - intros [= _ <-]. reflexivity.
  - destruct (isHeader l); [intros [= _ <-]; reflexivity |].
    destruct (Js.indexOf l "unavailable" =? -1).
    + destruct (createDevice oslevel l); [| discriminate | discriminate].
      intros H. apply suffix_cons_r. exact (IH _ _ _ H).
    + intros H. apply suffix_cons_r. exact (IH _ _ _ H).
Qed.

Lemma scan_view_suffix (ls : list string) :
  forall cur results results' rem,
    scan_view cur results ls = Return (results', rem) -> rem `suffix_of` ls.
Proof.
  induction ls as [|l ls IH]; intros cur results results' rem; cbn [scan_view].
  - intros [= _ <-]. reflexivity.
  - assert (Hheader :
      (if Js.indexOf l "==" =? 0 then Return (results, l :: ls)
       else match osLevelOf l with
            | Return oslevel => scan_view (Some oslevel) results ls
            | Throw msg => Throw msg
            | OutOfFuel => OutOfFuel
            end) = Return (results', rem) -> rem `suffix_of` l :: ls).
    { destruct (Js.indexOf l "==" =? 0); [intros [= _ <-]; reflexivity |].
      destruct (osLevelOf l); [| discriminate | discriminate].
      intros H. apply suffix_cons_r. exact (IH _ _ _ _ H). }
    destruct cur as [oslevel |]; [| exact Hheader].
    destruct (isHeader l); [exact Hheader |].
    destruct (Js.indexOf l "unavailable" =? -1).
    + destruct (createDevice oslevel l); [| discriminate | discriminate].
      intros H. apply suffix_cons_r. exact (IH _ _ _ _ H).
    + intros H. apply suffix_cons_r. exact (IH _ _ _ _ H).
Qed.

(** In entry position, the pass is the inner loop followed by the pass
    from header position. *)
Lemma scan_view_entries (oslevel : string) (ls : list string) :
  forall results,
    scan_view (Some oslevel) results ls =
    match entries_view oslevel results ls with
    | Return (results', rem) => scan_view None results' rem
    | Throw msg => Throw msg
    | OutOfFuel => OutOfFuel
    end.
Proof.
  induction ls as [|l ls IH]; intros results; cbn [scan_view entries_view].
  - reflexivity.
  - destruct (isHeader l); [reflexivity |].
    destruct (Js.indexOf l "unavailable" =? -1); [| apply IH].
    destruct (createDevice oslevel l); [apply IH | reflexivity | reflexivity].
Qed.

Section StreamView.

Variable lines : list string.

Lemma drop_at_some (c : nat) (l : string) :
  lines !! c = Some l -> drop c lines = l :: drop (S c) lines.
Proof. intros H. apply drop_S. exact H. Qed.

Lemma drop_at_none (c : nat) : lines !! c = None -> drop c lines = [].
Proof. intros H. apply drop_ge. apply lookup_ge_None. exact H. Qed.

Lemma cursor_of_drop (c : nat) :
  (c <= length lines)%nat -> cursor_of lines (drop c lines) = c.
Proof. intros H. unfold cursor_of. rewrite length_drop. lia. Qed.

Lemma drop_cursor_of (rem : list string) :
  rem `suffix_of` lines -> drop (cursor_of lines rem) lines = rem.
Proof.
  intros [pre ->]. unfold cursor_of. rewrite length_app.
  replace (length pre + length rem - length rem)%nat with (length pre) by lia.
  apply drop_app_length.
Qed.

Lemma cursor_of_le (rem : list string) : (cursor_of lines rem <= length lines)%nat.
Proof. unfold cursor_of. lia. Qed.

Lemma advanceTillMatch_view (line : string) :
  forall fuel c,
    (c <= length lines)%nat -> (length lines - c < fuel)%nat ->
    advanceTillMatch_fuel lines fuel line c =
    match advance_view line (drop c lines) with
    | Some rem => Return (tt, cursor_of lines rem)
    | None => Throw ("unexpected end while advancingTillMatch:" +:+ line)
    end.
Proof.
  induction fuel as [|fuel IH]; intros c Hc Hfuel; [lia |].
  unfold advanceTillMatch_fuel, bind.
  destruct (lines !! c) as [l |] eqn:Hl.
  - rewrite (advanceTillMatch_loop_some lines fuel c line l Hl).
    rewrite (drop_at_some c l Hl). cbn [advance_view].
    pose proof (lookup_lt_Some _ _ _ Hl) as Hlt.
    destruct (negb (bool_decide (Js.slice l 0 (Js.length line) = line))).
    + apply (IH (S c)); lia.
    + cbn. rewrite cursor_of_drop by lia. reflexivity.
  - rewrite (advanceTillMatch_loop_none lines fuel c line Hl).
    rewrite (drop_at_none c Hl). reflexivity.
Qed.

Lemma entries_loop_view (oslevel : string) :
  forall fuel c results,
    (c <= length lines)%nat -> (length lines - c < fuel)%nat ->
    entries_loop lines fuel oslevel results c =
    at_cursor lines (entries_view oslevel results (drop c lines)).
Proof.
  induction fuel as [|fuel IH]; intros c results Hc Hfuel; [lia |].
  destruct (lines !! c) as [l |] eqn:Hl.
  - rewrite (entries_loop_some lines fuel c oslevel l results Hl).
    rewrite (drop_at_some c l Hl). cbn [entries_view].
    pose proof (lookup_lt_Some _ _ _ Hl) as Hlt.
    destruct (isHeader l).
    + cbn [at_cursor]. rewrite <- (drop_at_some c l Hl), cursor_of_drop by lia.
      reflexivity.
    + destruct (Js.indexOf l "unavailable" =? -1); [| apply IH; lia].
      destruct (createDevice oslevel l); [apply IH; lia | reflexivity | reflexivity].
  - rewrite (entries_loop_none lines fuel c oslevel results Hl).
    rewrite (drop_at_none c Hl). cbn.
    apply lookup_ge_None in Hl. unfold cursor_of. cbn. f_equal. f_equal. lia.
Qed.

Lemma oslevels_loop_view :
  forall fuel c results,
    (c <= length lines)%nat -> (length lines - c < fuel)%nat ->
    oslevels_loop lines fuel results c =
    at_cursor lines (scan_view None results (drop c lines)).
Proof.
  induction fuel as [|fuel IH]; intros c results Hc Hfuel; [lia |].
  destruct (lines !! c) as [l |] eqn:Hl.
  - rewrite (oslevels_loop_some lines fuel c l results Hl).
    rewrite (drop_at_some c l Hl). cbn [scan_view].
    pose proof (lookup_lt_Some _ _ _ Hl) as Hlt.
    destruct (Js.indexOf l "==" =? 0).
    + cbn [at_cursor]. rewrite <- (drop_at_some c l Hl), cursor_of_drop by lia.
      reflexivity.
    + destruct (osLevelOf l) as [oslevel | msg |]; [| reflexivity | reflexivity].
      rewrite (entries_loop_view oslevel) by lia.
      rewrite scan_view_entries.
      destruct (entries_view oslevel results (drop (S c) lines))
        as [[results' rem] | msg |] eqn:He; [| reflexivity | reflexivity].
      cbn [at_cursor].
      pose proof (entries_view_suffix _ _ _ _ _ He) as Hsuf.
      pose proof (suffix_length _ _ Hsuf) as Hlen. rewrite length_drop in Hlen.
      assert (Hsuf' : rem `suffix_of` lines)
        by (etrans; [exact Hsuf | apply suffix_drop]).
      rewrite IH; [| apply cursor_of_le | unfold cursor_of; lia].
      rewrite (drop_cursor_of rem Hsuf'). reflexivity.
  - rewrite (oslevels_loop_none lines fuel c results Hl).
    rewrite (drop_at_none c Hl). cbn.
    apply lookup_ge_None in Hl. unfold cursor_of. cbn. f_equal. f_equal. lia.
Qed.

(** [getOSLevelEntries] run from any cursor inside the listing. *)
Lemma stream_view (c : nat) :
  (c <= length lines)%nat ->
  getOSLevelEntries lines c = at_cursor lines (scan_view None [] (drop c lines)).
Proof. intros Hc. unfold getOSLevelEntries. apply oslevels_loop_view; lia. Qed.

End StreamView.

Lemma advance_view_suffix (line : string) (ls rem : list string) :
  advance_view line ls = Some rem -> rem `suffix_of` ls.
Proof.
  induction ls as [|l ls IH]; cbn [advance_view]; [discriminate |].
  destruct (negb _).
  - intros H. apply suffix_cons_r. exact (IH H).
  - intros [= <-]. apply suffix_cons_r. reflexivity.
Qed.

Lemma getSimulatedDevicesFromLines_stream_view (lines : list string) :
  getSimulatedDevicesFromLines_stream lines 0%nat = at_cursor lines (parse_view_rem lines).
Proof.
  unfold getSimulatedDevicesFromLines_stream, parse_view_rem, advanceTillMatch.
  unfold bind at 1.
  rewrite advanceTillMatch_view by lia. rewrite drop_0.
  destruct (advance_view "== Device Types ==" lines) as [rem1 |] eqn:H1;
    [| reflexivity].
  pose proof (advance_view_suffix _ _ _ H1) as Hs1.
  unfold bind at 1.
  rewrite advanceTillMatch_view by (pose proof (cursor_of_le lines rem1); unfold cursor_of; lia).
  rewrite (drop_cursor_of lines rem1 Hs1).
  destruct (advance_view "== Devices ==" rem1) as [rem2 |] eqn:H2; [| reflexivity].
  pose proof (advance_view_suffix _ _ _ H2) as Hs2.
  assert (Hs : rem2 `suffix_of` lines) by (etrans; eassumption).
  rewrite stream_view by apply cursor_of_le.
  rewrite (drop_cursor_of lines rem2 Hs). reflexivity.
Qed.

Theorem getSimulatedDevicesFromLines_view (lines : list string) :
  getSimulatedDevicesFromLines lines = parse_view lines.
Proof.
  unfold getSimulatedDevicesFromLines, run, parse_view.
  rewrite getSimulatedDevicesFromLines_stream_view.
  destruct (parse_view_rem lines) as [[results rem] | msg |]; reflexivity.
Qed.

(** ** Headers *)

Lemma prefix_app (p v : string) :
  String.prefix p v = true -> exists r, v = p +:+ r.
Proof.
  revert v. induction p as [|c p IH]; intros v H.
  - exists v. reflexivity.
  - destruct v as [|c' v]; [discriminate H |].
    simpl in H. destruct (ascii_dec c c') as [-> | _]; [| discriminate H].
    destruct (IH v H) as [r ->]. exists r. reflexivity.
Qed.

Lemma length_String (c : ascii) (s : string) :
  Js.length (String c s) = 1 + Js.length s.
Proof. unfold Js.length. cbn [String.length]. lia. Qed.

Lemma substring_0_length (v : string) :
  forall k, (k <= String.length v)%nat ->
    String.length (String.substring 0 k v) = k.
Proof.
  induction v as [|c v IH]; intros k Hk.
  - cbn in Hk. assert (k = 0%nat) as -> by lia. reflexivity.
  - destruct k as [|k]; [reflexivity |].
    cbn in Hk. cbn. rewrite IH by lia. reflexivity.
Qed.

(** The test of [advanceTillMatch]: [v.slice(0, line.length) === line]
    holds exactly for the lines that start with [line]. *)
Lemma slice_match_prefix (v line : string) :
  Js.slice v 0 (Js.length line) = line -> String.prefix line v = true.
Proof.
  intros H. apply String.prefix_correct.
  unfold Js.slice, Js.clampIndex in H.
  pose proof (length_nonneg v) as Hv. pose proof (length_nonneg line) as Hl.
  destruct (Z.ltb_spec 0 0) as [? | _]; [lia |].
  destruct (Z.ltb_spec (Js.length line) 0) as [? | _]; [lia |].
  replace (Z.min 0 (Js.length v)) with 0 in H by lia.
  destruct (Z.ltb_spec 0 (Z.min (Js.length line) (Js.length v))) as [Hpos | Hzero].
  - rewrite Z.sub_0_r in H. change (Z.to_nat 0) with 0%nat in H.
    assert (Hk : (Z.to_nat (Z.min (Js.length line) (Js.length v))
                  <= String.length v)%nat) by (unfold Js.length in *; lia).
    pose proof (substring_0_length v _ Hk) as Hlen. rewrite H in Hlen.
    assert (Z.to_nat (Z.min (Js.length line) (Js.length v)) = String.length line) as E
      by (symmetry; exact Hlen).
    rewrite E in H. exact H.
  - subst line. destruct v; reflexivity.
Qed.

Lemma isHeader_double_equals (l : string) :
  (Js.indexOf l "==" =? 0) = true -> isHeader l = true.
Proof.
  rewrite indexOf_zero_prefix. intros H.
  destruct (prefix_app _ _ H) as [r ->].
  unfold isHeader, Js.slice, Js.clampIndex.
  change ("==" +:+ r) with (String "=" (String "=" r)).
  rewrite !length_String. pose proof (length_nonneg r) as Hr.
  destruct (Z.ltb_spec 0 0) as [? | _]; [lia |].
  destruct (Z.ltb_spec 2 0) as [? | _]; [lia |].
  replace (Z.min 0 (1 + (1 + Js.length r))) with 0 by lia.
  replace (Z.min 2 (1 + (1 + Js.length r))) with 2 by lia.
  cbn. destruct r; reflexivity.
Qed.

Lemma not_header_not_double_equals (l : string) :
  isHeader l = false -> (Js.indexOf l "==" =? 0) = false.
Proof.
  intros H. destruct (Js.indexOf l "==" =? 0) eqn:E; [| reflexivity].
  rewrite (isHeader_double_equals l E) in H. discriminate H.
Qed.

Lemma isHeader_double_dash (l : string) :
  (Js.indexOf l "--" =? 0) = true -> isHeader l = true.
Proof.
  rewrite indexOf_zero_prefix. intros H.
  destruct (prefix_app _ _ H) as [r ->].
  unfold isHeader, Js.slice, Js.clampIndex.
  change ("--" +:+ r) with (String "-" (String "-" r)).
  rewrite !length_String. pose proof (length_nonneg r) as Hr.
  destruct (Z.ltb_spec 0 0) as [? | _]; [lia |].
  destruct (Z.ltb_spec 2 0) as [? | _]; [lia |].
  replace (Z.min 0 (1 + (1 + Js.length r))) with 0 by lia.
  replace (Z.min 2 (1 + (1 + Js.length r))) with 2 by lia.
  cbn. destruct r; reflexivity.
Qed.

(** A line matched by a search for a [==] header is itself a [==] header. *)
Lemma match_double_equals (line v : string) :
  String.prefix "==" line = true ->
  Js.slice v 0 (Js.length line) = line ->
  (Js.indexOf v "==" =? 0) = true.
Proof.
  intros Hline Hmatch. apply slice_match_prefix in Hmatch.
  destruct (prefix_app _ _ Hline) as [r1 ->].
  destruct (prefix_app _ _ Hmatch) as [r2 ->].
  rewrite indexOf_zero_prefix.
  change (("==" +:+ r1) +:+ r2) with (String "=" (String "=" (r1 +:+ r2))).
  cbn. destruct (r1 +:+ r2); reflexivity.
Qed.

Lemma append_assoc (a b c : string) : (a +:+ b) +:+ c = a +:+ b +:+ c.
Proof.
  induction a as [|x a IH]; [reflexivity |].
  change ((String x a +:+ b) +:+ c) with (String x ((a +:+ b) +:+ c)).
  rewrite IH. reflexivity.
Qed.

(** Whatever goes wrong in [createDevice], the message ends with the OS
    level and the line it was given. *)
Lemma createDevice_throw_names_line (oslevel line : string) :
  malformed line ->
  exists prefix, createDevice oslevel line = Throw (prefix +:+ oslevel +:+ ":" +:+ line).
Proof.
  unfold malformed. intros H. unfold createDevice.
  destruct (negb (Js.indexOf line "unavailable" =? -1)); [eauto |].
  destruct (Z.eqb_spec (Js.indexOf line "(") (-1)) as [_ | Hopen]; [eauto |].
  destruct (Z.eqb_spec (Js.indexOf line ")") (-1)) as [_ | Hclose]; [eauto |].
  destruct (Z.ltb_spec
    (Js.length (Js.slice line (Js.indexOf line "(" + 1) (Js.indexOf line ")"))) 10)
    as [_ | Hlen]; [eauto |].
  lia.
Qed.

(** ** The pass over the remaining lines *)

Lemma scan_view_header (cur : option string) (results : list DeviceJson)
    (l : string) (ls : list string) :
  cur = None \/ isHeader l = true ->
  scan_view cur results (l :: ls) =
  if Js.indexOf l "==" =? 0 then Return (results, l :: ls)
  else match osLevelOf l with
       | Return oslevel => scan_view (Some oslevel) results ls
       | Throw msg => Throw msg
       | OutOfFuel => OutOfFuel
       end.
Proof.
  intros H. cbn [scan_view]. destruct cur as [oslevel |]; [| reflexivity].
  destruct H as [H | H]; [discriminate H |]. rewrite H. reflexivity.
Qed.

Lemma scan_view_entry (oslevel : string) (results : list DeviceJson)
    (l : string) (ls : list string) :
  isHeader l = false ->
  scan_view (Some oslevel) results (l :: ls) =
  if Js.indexOf l "unavailable" =? -1 then
    match createDevice oslevel l with
    | Return device => scan_view (Some oslevel) (results ++ [device]) ls
    | Throw msg => Throw msg
    | OutOfFuel => OutOfFuel
    end
  else scan_view (Some oslevel) results ls.
Proof. intros H. cbn [scan_view]. rewrite H. reflexivity. Qed.

(** Case analysis on the first remaining line: it is read as a header
    or as an entry. *)
Ltac scan_first cur l Hh :=
  let oslevel := fresh "oslevel" in
  destruct cur as [oslevel |];
  [ destruct (isHeader l) eqn:Hh;
    [ rewrite !scan_view_header by (right; exact Hh)
    | rewrite !(scan_view_entry oslevel) by exact Hh ]
  | rewrite !scan_view_header by (left; reflexivity) ].

(** What follows a [==] header is never read. *)
Lemma scan_view_truncate (hdr : string) (rest pre : list string) :
  (Js.indexOf hdr "==" =? 0) = true ->
  forall cur results,
    scan_view cur results (pre ++ hdr :: rest) =
    match scan_view cur results pre with
    | Return (results', rem) => Return (results', rem ++ hdr :: rest)
    | Throw msg => Throw msg
    | OutOfFuel => OutOfFuel
    end.
Proof.
  intros Hhdr. induction pre as [|l pre IH]; intros cur results.
  - cbn [app]. rewrite scan_view_header
      by (right; apply isHeader_double_equals; exact Hhdr).
    rewrite Hhdr. reflexivity.
  - change ((l :: pre) ++ hdr :: rest) with (l :: (pre ++ hdr :: rest)).
    scan_first cur l Hh.
    + destruct (Js.indexOf l "==" =? 0); [reflexivity |].
      destruct (osLevelOf l); [apply IH | reflexivity | reflexivity].
    + destruct (Js.indexOf l "unavailable" =? -1); [| apply IH].
      destruct (createDevice oslevel l); [apply IH | reflexivity | reflexivity].
    + destruct (Js.indexOf l "==" =? 0); [reflexivity |].
      destruct (osLevelOf l); [apply IH | reflexivity | reflexivity].
Qed.

(** The pass ends at the end of the lines or in front of a [==] header,
    and has read no [==] header before. *)
Lemma scan_view_stop (ls : list string) :
  forall cur results results' rem,
    scan_view cur results ls = Return (results', rem) ->
    exists pre, ls = pre ++ rem
      /\ Forall (fun l => (Js.indexOf l "==" =? 0) = false) pre
      /\ (rem = [] \/ exists h t, rem = h :: t /\ (Js.indexOf h "==" =? 0) = true).
Proof.
  induction ls as [|l ls IH]; intros cur results results' rem.
  - cbn. intros [= _ <-]. exists []. split; [reflexivity |]. split; [constructor | left; reflexivity].
  - assert (Hstep : forall cur' results1,
      (Js.indexOf l "==" =? 0) = false ->
      scan_view cur' results1 ls = Return (results', rem) ->
      exists pre, l :: ls = pre ++ rem
        /\ Forall (fun l => (Js.indexOf l "==" =? 0) = false) pre
        /\ (rem = [] \/ exists h t, rem = h :: t /\ (Js.indexOf h "==" =? 0) = true)).
    { intros cur' results1 Hl H. destruct (IH _ _ _ _ H) as (pre & -> & Hpre & Hrem).
      exists (l :: pre). split; [reflexivity |]. split; [constructor; assumption | exact Hrem]. }
    scan_first cur l Hh.
    + destruct (Js.indexOf l "==" =? 0) eqn:Hl.
      * intros [= _ <-]. exists []. split; [reflexivity |].
        split; [constructor | right; eauto].
      * destruct (osLevelOf l); [| discriminate | discriminate]. apply Hstep. reflexivity.
    + pose proof (not_header_not_double_equals l Hh) as Hl.
      destruct (Js.indexOf l "unavailable" =? -1); [| apply Hstep; exact Hl].
      destruct (createDevice oslevel l); [| discriminate | discriminate].
      apply Hstep. exact Hl.
    + destruct (Js.indexOf l "==" =? 0) eqn:Hl.
      * intros [= _ <-]. exists []. split; [reflexivity |].
        split; [constructor | right; eauto].
      * destruct (osLevelOf l); [| discriminate | discriminate]. apply Hstep. reflexivity.
Qed.

(** An entry line that contains [unavailable] changes nothing. *)
Lemma scan_view_skip (u : string) (b a : list string) :
  isHeader u = false -> Js.indexOf u "unavailable" <> -1 ->
  forall cur results,
    a <> [] \/ cur <> None ->
    results_of (scan_view cur results (a ++ u :: b))
    = results_of (scan_view cur results (a ++ b)).
Proof.
  intros Hu Hun. induction a as [|l a IH]; intros cur results Hpos.
  - destruct cur as [oslevel |]; [| destruct Hpos; congruence].
    cbn [app]. rewrite (scan_view_entry oslevel) by exact Hu.
    destruct (Z.eqb_spec (Js.indexOf u "unavailable") (-1)); [contradiction | reflexivity].
  - change ((l :: a) ++ u :: b) with (l :: (a ++ u :: b)).
    change ((l :: a) ++ b) with (l :: (a ++ b)).
    scan_first cur l Hh.
    + destruct (Js.indexOf l "==" =? 0); [reflexivity |].
      destruct (osLevelOf l); [apply IH; right; discriminate | reflexivity | reflexivity].
    + destruct (Js.indexOf l "unavailable" =? -1); [| apply IH; right; discriminate].
      destruct (createDevice oslevel l);
        [apply IH; right; discriminate | reflexivity | reflexivity].
    + destruct (Js.indexOf l "==" =? 0); [reflexivity |].
      destruct (osLevelOf l); [apply IH; right; discriminate | reflexivity | reflexivity].
Qed.

(** Every device of the result was made by [createDevice] from a line
    that does not contain [unavailable]. *)
Lemma scan_view_provenance (ls : list string) :
  forall cur results results' rem,
    scan_view cur results ls = Return (results', rem) ->
    forall d, d ∈ results' ->
      d ∈ results \/
      exists oslevel line, line ∈ ls /\ Js.indexOf line "unavailable" = -1
        /\ createDevice oslevel line = Return d.
Proof.
  induction ls as [|l ls IH]; intros cur results results' rem.
  - cbn. intros [= <- _] d Hd. left. exact Hd.
  - assert (Hstep : forall cur',
      scan_view cur' results ls = Return (results', rem) ->
      forall d, d ∈ results' ->
        d ∈ results \/
        exists oslevel line, line ∈ l :: ls /\ Js.indexOf line "unavailable" = -1
          /\ createDevice oslevel line = Return d).
    { intros cur' H d Hd. destruct (IH _ _ _ _ H d Hd) as [? | (os & line & Hin & ? & ?)];
        [left; assumption | right; exists os, line; split; [right; exact Hin | split; assumption]]. }
    scan_first cur l Hh.
    + destruct (Js.indexOf l "==" =? 0); [intros [= <- _] d Hd; left; exact Hd |].
      destruct (osLevelOf l); [apply Hstep | discriminate | discriminate].
    + destruct (Z.eqb_spec (Js.indexOf l "unavailable") (-1)) as [Hun | _]; [| apply Hstep].
      destruct (createDevice oslevel l) as [device | |] eqn:Hc; [| discriminate | discriminate].
      intros H d Hd. destruct (IH _ _ _ _ H d Hd) as [Hin | (os & line & Hin & ? & ?)].
      * apply elem_of_app in Hin. destruct Hin as [Hin | Hin]; [left; exact Hin |].
        apply list_elem_of_singleton in Hin. subst d.
        right. exists oslevel, l. split; [left | split; assumption].
      * right. exists os, line. split; [right; exact Hin | split; assumption].
    + destruct (Js.indexOf l "==" =? 0); [intros [= <- _] d Hd; left; exact Hd |].
      destruct (osLevelOf l); [apply Hstep | discriminate | discriminate].
Qed.

Lemma not_header_not_double_dash (l : string) :
  isHeader l = false -> (Js.indexOf l "--" =? 0) = false.
Proof.
  intros H. destruct (Js.indexOf l "--" =? 0) eqn:E; [| reflexivity].
  rewrite (isHeader_double_dash l E) in H. discriminate H.
Qed.

(** A malformed entry line that is reached makes the pass throw. *)
Lemma scan_view_bad (bad : string) (rest body : list string) :
  isHeader bad = false -> Js.indexOf bad "unavailable" = -1 -> malformed bad ->
  forall cur results results',
    scan_view cur results body = Return (results', []) ->
    exists prefix, scan_view cur results (body ++ bad :: rest) = Throw (prefix +:+ bad).
Proof.
  intros Hh Hun Hbad. induction body as [|l body IH]; intros cur results results'.
  - intros _. cbn [app]. destruct cur as [oslevel |].
    + rewrite (scan_view_entry oslevel) by exact Hh. rewrite Hun. cbn.
      destruct (createDevice_throw_names_line oslevel bad Hbad) as [prefix ->].
      exists (prefix +:+ oslevel +:+ ":"). rewrite !append_assoc. reflexivity.
    + rewrite scan_view_header by (left; reflexivity).
      rewrite (not_header_not_double_equals bad Hh).
      unfold osLevelOf. rewrite (not_header_not_double_dash bad Hh). cbn [negb].
      exists ("expected oslevel prefix of " +:+ dquote +:+ "--" +:+ dquote +:+ " in:").
      reflexivity.
  - change ((l :: body) ++ bad :: rest) with (l :: (body ++ bad :: rest)).
    scan_first cur l Hl.
    + destruct (Js.indexOf l "==" =? 0); [discriminate |].
      destruct (osLevelOf l); [apply IH | discriminate | discriminate].
    + destruct (Js.indexOf l "unavailable" =? -1); [| apply IH].
      destruct (createDevice oslevel l); [apply IH | discriminate | discriminate].
    + destruct (Js.indexOf l "==" =? 0); [discriminate |].
      destruct (osLevelOf l); [apply IH | discriminate | discriminate].
Qed.

(** ** The searches for the section headers *)

Lemma advance_view_app (line : string) (more ls rem : list string) :
  advance_view line ls = Some rem ->
  advance_view line (ls ++ more) = Some (rem ++ more).
Proof.
  induction ls as [|l ls IH]; cbn [advance_view app]; [discriminate |].
  destruct (negb _); [exact IH | intros [= <-]; reflexivity].
Qed.

(** A line that is no header, placed after a line that is no [==]
    header, does not change where a search for a [==] header ends. *)
Lemma advance_view_skip (line p u : string) (b a : list string) :
  String.prefix "==" line = true ->
  (Js.indexOf p "==" =? 0) = false -> isHeader u = false ->
  advance_view line (a ++ p :: u :: b) = advance_view line (a ++ p :: b)
  \/ exists a', advance_view line (a ++ p :: u :: b) = Some (a' ++ p :: u :: b)
       /\ advance_view line (a ++ p :: b) = Some (a' ++ p :: b).
Proof.
  intros Hline Hp Hu.
  assert (Hno : forall v, (Js.indexOf v "==" =? 0) = false ->
            negb (bool_decide (Js.slice v 0 (Js.length line) = line)) = true).
  { intros v Hv. case_bool_decide as Hm; [| reflexivity].
    rewrite (match_double_equals line v Hline Hm) in Hv. discriminate Hv. }
  induction a as [|l a IH]; cbn [app advance_view].
  - left. rewrite (Hno p Hp), (Hno u (not_header_not_double_equals u Hu)). reflexivity.
  - destruct (negb (bool_decide (Js.slice l 0 (Js.length line) = line))).
    + exact IH.
    + right. exists a. split; reflexivity.
Qed.

Lemma parse_view_skip (p u : string) (a b : list string) :
  (Js.indexOf p "==" =? 0) = false ->
  isHeader u = false -> Js.indexOf u "unavailable" <> -1 ->
  parse_view (a ++ p :: u :: b) = parse_view (a ++ p :: b).
Proof.
  intros Hp Hu Hun. unfold parse_view, parse_view_rem.
  destruct (advance_view_skip "== Device Types ==" p u b a eq_refl Hp Hu)
    as [-> | (a1 & -> & ->)]; [reflexivity |].
  destruct (advance_view_skip "== Devices ==" p u b a1 eq_refl Hp Hu)
    as [-> | (a2 & -> & ->)]; [reflexivity |].
  replace (a2 ++ p :: u :: b) with ((a2 ++ [p]) ++ u :: b)
    by (rewrite <- app_assoc; reflexivity).
  replace (a2 ++ p :: b) with ((a2 ++ [p]) ++ b)
    by (rewrite <- app_assoc; reflexivity).
  apply scan_view_skip; [exact Hu | exact Hun |].
  left. destruct a2; discriminate.
Qed.

Lemma parse_view_provenance (lines : list string) (results : list DeviceJson) :
  parse_view lines = Return results ->
  forall d, d ∈ results ->
    exists oslevel line, line ∈ lines /\ Js.indexOf line "unavailable" = -1
      /\ createDevice oslevel line = Return d.
Proof.
  unfold parse_view, parse_view_rem.
  destruct (advance_view "== Device Types ==" lines) as [rem1 |] eqn:H1; [| discriminate].
  destruct (advance_view "== Devices ==" rem1) as [rem2 |] eqn:H2; [| discriminate].
  destruct (scan_view None [] rem2) as [[results' rem] | |] eqn:Hs; [| discriminate | discriminate].
  intros [= ->] d Hd.
  destruct (scan_view_provenance _ _ _ _ _ Hs d Hd) as [Hin | (os & line & Hin & Hun & Hc)].
  - apply elem_of_nil in Hin. contradiction.
  - exists os, line. split; [| split; assumption].
    apply advance_view_suffix in H1. apply advance_view_suffix in H2.
    destruct H1 as [k1 ->]. destruct H2 as [k2 ->].
    apply elem_of_app. right. apply elem_of_app. right. exact Hin.
Qed.

Lemma parse_view_bad (good : list string) (bad : string) (rest : list string)
    (results : list DeviceJson) :
  parse_view_rem good = Return (results, []) ->
  isHeader bad = false -> Js.indexOf bad "unavailable" = -1 -> malformed bad ->
  exists prefix, parse_view (good ++ bad :: rest) = Throw (prefix +:+ bad).
Proof.
  unfold parse_view, parse_view_rem. intros Hgood Hh Hun Hbad.
  destruct (advance_view "== Device Types ==" good) as [rem1 |] eqn:H1; [| discriminate].
  destruct (advance_view "== Devices ==" rem1) as [rem2 |] eqn:H2; [| discriminate].
  rewrite (advance_view_app _ (bad :: rest) _ _ H1).
  rewrite (advance_view_app _ (bad :: rest) _ _ H2).
  destruct (scan_view_bad bad rest rem2 Hh Hun Hbad _ _ _ Hgood) as [prefix ->].
  exists prefix. reflexivity.
Qed.

(** ** Positions in a listing cut in three *)

Lemma lookup_cut_head {A} (lines front : list A) (h : A) (t : list A) :
  lines = front ++ h :: t -> lines !! length front = Some h.
Proof. intros ->. apply list_lookup_middle. reflexivity. Qed.

Lemma lookup_cut_middle {A} (lines before mid after : list A) (k : nat) :
  lines = (before ++ mid) ++ after ->
  (length before <= k < length before + length mid)%nat ->
  lines !! k = mid !! (k - length before)%nat.
Proof.
  intros -> Hk. rewrite lookup_app_l by (rewrite length_app; lia).
  rewrite lookup_app_r by lia. reflexivity.
Qed.

(** ** The registry built by the constructor *)

Lemma Device_new_tag (json : DeviceJson) : Device.tag (Device.new json) = tag json.
Proof. destruct json. reflexivity. Qed.

Lemma register_lookup_ne (self : DeviceManager) (json : DeviceJson) (t : string) :
  tag json <> t ->
  devicesByTag (register self json) !! t = devicesByTag self !! t.
Proof.
  intros H. unfold register. cbn [devicesByTag]. rewrite Device_new_tag.
  apply lookup_insert_ne. exact H.
Qed.

Lemma register_lookup_eq (self : DeviceManager) (json : DeviceJson) :
  devicesByTag (register self json) !! tag json = Some (Device.new json).
Proof.
  unfold register. cbn [devicesByTag]. rewrite Device_new_tag.
  apply lookup_insert_eq.
Qed.

Lemma registered_lookup_other (t : string) (l : list DeviceJson) :
  forall self,
    (forall json, json ∈ l -> tag json <> t) ->
    devicesByTag (foldl register self l) !! t = devicesByTag self !! t.
Proof.
  induction l as [|json l IH]; intros self H; [reflexivity |].
  cbn [foldl]. rewrite IH by (intros x Hx; apply H; right; exact Hx).
  apply register_lookup_ne. apply H. left.
Qed.

(** The map holds, for a tag, the last descriptor registered with it. *)
Lemma registered_lookup_last (self : DeviceManager) (before : list DeviceJson)
    (d : DeviceJson) (after : list DeviceJson) :
  (forall x, x ∈ after -> tag x <> tag d) ->
  devicesByTag (foldl register self (before ++ d :: after)) !! tag d
  = Some (Device.new d).
Proof.
  intros H. rewrite foldl_app. cbn [foldl].
  rewrite registered_lookup_other by exact H. apply register_lookup_eq.
Qed.

Lemma registered_devices (l : list DeviceJson) :
  forall self, devices (foldl register self l) = devices self ++ (Device.new <$> l).
Proof.
  induction l as [|json l IH]; intros self; cbn [foldl fmap list_fmap].
  - rewrite app_nil_r. reflexivity.
  - rewrite IH. unfold register at 1. cbn [devices]. rewrite <- app_assoc. reflexivity.
Qed.

Lemma register_size (self : DeviceManager) (json : DeviceJson) :
  (size (devicesByTag (register self json)) <= S (size (devicesByTag self)))%nat.
Proof.
  unfold register. cbn [devicesByTag]. rewrite map_size_insert.
  destruct (devicesByTag self !! _); cbn; lia.
Qed.

Lemma registered_size (l : list DeviceJson) :
  forall self,
    (size (devicesByTag (foldl register self l))
     <= size (devicesByTag self) + length l)%nat.
Proof.
  induction l as [|json l IH]; intros self; cbn [foldl length]; [lia |].
  specialize (IH (register self json)). pose proof (register_size self json). lia.
Qed.

Lemma registered_lookup_mono (t : string) (l : list DeviceJson) :
  forall self,
    is_Some (devicesByTag self !! t) ->
    is_Some (devicesByTag (foldl register self l) !! t).
Proof.
  induction l as [|json l IH]; intros self H; [exact H |].
  cbn [foldl]. apply IH.
  destruct (decide (tag json = t)) as [<- | Hne].
  - rewrite register_lookup_eq. eauto.
  - rewrite register_lookup_ne by exact Hne. exact H.
Qed.

Lemma registered_lookup_is_Some (self : DeviceManager) (l : list DeviceJson)
    (json : DeviceJson) :
  json ∈ l -> is_Some (devicesByTag (foldl register self l) !! tag json).
Proof.
  intros Hin. destruct (list_elem_of_split _ _ Hin) as (l1 & l2 & ->).
  rewrite foldl_app. cbn [foldl]. apply registered_lookup_mono.
  rewrite register_lookup_eq. eauto.
Qed.

(** Registering a second descriptor with a tag already registered does
    not add a key. *)
Lemma registered_size_shared (l1 : list DeviceJson) (a : DeviceJson)
    (l2 : list DeviceJson) (b : DeviceJson) (l3 : list DeviceJson) (self : DeviceManager) :
  tag a = tag b ->
  (size (devicesByTag (foldl register self (l1 ++ a :: l2 ++ b :: l3)))
   < size (devicesByTag self) + length (l1 ++ a :: l2 ++ b :: l3))%nat.
Proof.
  intros Htag.
  replace (l1 ++ a :: l2 ++ b :: l3) with ((l1 ++ a :: l2) ++ b :: l3)
    by (rewrite <- app_assoc; reflexivity).
  rewrite foldl_app. cbn [foldl].
  set (mid := foldl register self (l1 ++ a :: l2)).
  assert (Hin : is_Some (devicesByTag mid !! tag b)).
  { rewrite <- Htag. apply registered_lookup_is_Some.
    apply elem_of_app. right. left. }
  assert (Hb : size (devicesByTag (register mid b)) = size (devicesByTag mid)).
  { unfold register. cbn [devicesByTag]. rewrite Device_new_tag.
    apply map_size_insert_Some. exact Hin. }
  pose proof (registered_size l3 (register mid b)) as H3.
  pose proof (registered_size (l1 ++ a :: l2) self) as H12. fold mid in H12.
  rewrite length_app. cbn [length]. lia.
Qed.

(** The last descriptor of a list that carries a given tag. *)
Lemma last_with_tag (l : list DeviceJson) (s : DeviceJson) :
  s ∈ l ->
  exists before d after,
    l = before ++ d :: after /\ tag d = tag s
    /\ forall x, x ∈ after -> tag x <> tag d.
Proof.
  induction l as [|a l IH] using rev_ind; intros Hin.
  - apply elem_of_nil in Hin. contradiction.
  - destruct (decide (tag a = tag s)) as [Ha | Ha].
    + exists l, a, []. split; [reflexivity |]. split; [exact Ha |].
      intros x Hx. apply elem_of_nil in Hx. contradiction.
    + apply elem_of_app in Hin. destruct Hin as [Hin | Hin].
      * destruct (IH Hin) as (before & d & after & -> & Hd & Hafter).
        exists before, d, (after ++ [a]). split; [rewrite <- app_assoc; reflexivity |].
        split; [exact Hd |]. intros x Hx. apply elem_of_app in Hx.
        destruct Hx as [Hx | Hx]; [exact (Hafter x Hx) |].
        apply list_elem_of_singleton in Hx. subst x. congruence.
      * apply list_elem_of_singleton in Hin. subst s. congruence.
Qed.

(** What [new DeviceManager()] returns when the listing parses. *)
Lemma newDeviceManager_built (config_devices : option (list DeviceJson))
    (simctlData : string) (simulatedDevices : list DeviceJson) (manager : DeviceManager) :
  getSimulatedDevices simctlData = Return simulatedDevices ->
  newDeviceManager config_devices (Return simctlData) = Return manager ->
  manager = foldl register {| devicesByTag := ∅; devices := [] |}
              (default [] config_devices ++ simulatedDevices).
Proof.
  intros Hsim. unfold newDeviceManager. rewrite Hsim. intros [= <-].
  destruct config_devices; reflexivity.
Qed.

(** ** The fuel given to the loops is enough *)

Lemma scan_view_terminates (ls : list string) :
  forall cur results, scan_view cur results ls <> OutOfFuel.
Proof.
  induction ls as [|l ls IH]; intros cur results; [discriminate |].
  scan_first cur l Hh.
  - destruct (Js.indexOf l "==" =? 0); [discriminate |].
    pose proof (osLevelOf_terminates l).
    destruct (osLevelOf l); [apply IH | discriminate | contradiction].
  - destruct (Js.indexOf l "unavailable" =? -1); [| apply IH].
    pose proof (createDevice_terminates oslevel l).
    destruct (createDevice oslevel l); [apply IH | discriminate | contradiction].
  - destruct (Js.indexOf l "==" =? 0); [discriminate |].
    pose proof (osLevelOf_terminates l).
    destruct (osLevelOf l); [apply IH | discriminate | contradiction].
Qed.

Lemma getOSLevelEntries_terminates (lines : list string) (c : nat) :
  (c <= length lines)%nat -> getOSLevelEntries lines c <> OutOfFuel.
Proof.
  intros Hc. rewrite stream_view by exact Hc.
  pose proof (scan_view_terminates (drop c lines) None []) as H.
  destruct (scan_view None [] (drop c lines)) as [[results rem] | |];
    [discriminate | discriminate | contradiction].
Qed.

Lemma getSimulatedDevicesFromLines_terminates (lines : list string) :
  getSimulatedDevicesFromLines lines <> OutOfFuel.
Proof.
  rewrite getSimulatedDevicesFromLines_view. unfold parse_view, parse_view_rem.
  destruct (advance_view "== Device Types ==" lines) as [rem1 |]; [| discriminate].
  destruct (advance_view "== Devices ==" rem1) as [rem2 |]; [| discriminate].
  pose proof (scan_view_terminates rem2 None []) as H.
  destruct (scan_view None [] rem2) as [[results rem] | |];
    [discriminate | discriminate | contradiction].
Qed.

(** ** [createDevice] *)

Example createDevice_doc_example :
  createDevice "iOS 9.1" "iPhone 4s (05686243-BA24-44CE-94D9-D6823BF96E46) (Shutdown)"
  = Return {|
      tag := "ios-simulator,OS=9.1,name=iPhone 4s";
      platform := "ios";
      identifier := "05686243-BA24-44CE-94D9-D6823BF96E46";
      name := "ios-simulator iPhone 4s (9.1)";
      OS := "iOS 9.1";
      simulator := true;
      destination := "OS=9.1,name=iPhone 4s"
    |}.
Proof. vm_compute. reflexivity. Qed.

(** C1 (as stated, refuted): the sample listing ends with a newline, so its
    last line is empty; the entry loop hands that line to [createDevice],
    which throws. *)
Lemma C1_trailing_newline_throws :
  getSimulatedDevices listing_example
    = Throw "createDevice: could not find open paren in: iOS 9.1:"
  /\ ~ (exists devices, getSimulatedDevices listing_example = Return devices).
Proof.
  assert (H : getSimulatedDevices listing_example
              = Throw "createDevice: could not find open paren in: iOS 9.1:")
    by (vm_compute; reflexivity).
  split; [exact H |].
  intros [devices Hd]. rewrite H in Hd. discriminate Hd.
Qed.

(** C1 (amended): without the trailing newline, or with the trailing
    newline followed by the next [==] section, the sample listing parses to
    exactly one device with tag [ios-simulator,OS=9.1,name=iPhone 4s] and
    identifier [05686243-BA24-44CE-94D9-D6823BF96E46]. *)
Theorem C1_sample_listing_one_device :
  (exists d, getSimulatedDevices listing_no_trailing_newline = Return [d]
     /\ tag d = "ios-simulator,OS=9.1,name=iPhone 4s"
     /\ identifier d = "05686243-BA24-44CE-94D9-D6823BF96E46")
  /\ (exists d, getSimulatedDevices listing_with_next_section = Return [d]
     /\ tag d = "ios-simulator,OS=9.1,name=iPhone 4s"
     /\ identifier d = "05686243-BA24-44CE-94D9-D6823BF96E46").
Proof.
  split; eexists; (split; [vm_compute; reflexivity | split; reflexivity]).
Qed.

(** C2 (as stated, refuted): for the OS level [iOS 9.1] and the documented
    entry line, the [name] of the device ends with the version in
    parentheses, not with the OS-level label. *)
Lemma C2_name_has_version_not_label :
  exists d, createDevice "iOS 9.1" iphone4s_line = Return d
    /\ name d = "ios-simulator iPhone 4s (9.1)"
    /\ name d <> "ios-simulator " +:+ "iPhone 4s" +:+ " (" +:+ "iOS 9.1" +:+ ")".
Proof.
  eexists. split; [vm_compute; reflexivity |].
  split; [reflexivity | discriminate].
Qed.

(** C2 (amended): for every OS-level label and every well-formed entry
    line, [createDevice] returns a descriptor with platform [ios], tag
    [ios-simulator,OS=<version>,name=<name>], name
    [ios-simulator <name> (<version>)], simulator flag [true] and
    destination [OS=<version>,name=<name>], where [<name>] is the trimmed
    text before the first opening parenthesis and [<version>] is the second
    element of the label split at single spaces: the token after the first
    space when the label has one. *)
Theorem C2_createDevice_fields (oslevel line : string) :
  Js.indexOf line "unavailable" = -1 ->
  Js.indexOf line "(" <> -1 ->
  Js.indexOf line ")" <> -1 ->
  10 <= Js.length (Js.slice line (Js.indexOf line "(" + 1) (Js.indexOf line ")")) ->
  let version := Js.toString (Js.split oslevel space !! 1%nat) in
  let nm := Js.trim (Js.slice line 0 (Js.indexOf line "(")) in
  (exists d, createDevice oslevel line = Return d
     /\ platform d = "ios"
     /\ tag d = "ios-simulator,OS=" +:+ version +:+ ",name=" +:+ nm
     /\ name d = "ios-simulator " +:+ nm +:+ " (" +:+ version +:+ ")"
     /\ simulator d = true
     /\ destination d = "OS=" +:+ version +:+ ",name=" +:+ nm
     /\ identifier d = Js.slice line (Js.indexOf line "(" + 1) (Js.indexOf line ")")
     /\ OS d = oslevel)
  /\ (forall a v rest : string,
        oslevel = a +:+ " " +:+ v +:+ rest ->
        Js.indexOf a " " = -1 -> Js.indexOf v " " = -1 ->
        rest = "" \/ (exists r, rest = " " +:+ r) ->
        version = v).
Proof.
  intros Hun Hopen Hclose Hlen version nm. split.
  - unfold createDevice. rewrite Hun. simpl negb. cbv iota.
    destruct (Z.eqb_spec (Js.indexOf line "(") (-1)) as [E | _]; [contradiction |].
    destruct (Z.eqb_spec (Js.indexOf line ")") (-1)) as [E | _]; [contradiction |].
    destruct (Z.ltb_spec
      (Js.length (Js.slice line (Js.indexOf line "(" + 1) (Js.indexOf line ")"))) 10)
      as [E | _]; [lia |].
    eexists. split; [reflexivity |]. repeat split.
  - intros a v rest -> Ha Hv Hrest. unfold version.
    rewrite split_second_token by assumption. reflexivity.
Qed.

Lemma C2_createDevice_fields_witness :
  exists d, createDevice "iOS 9.1" iphone4s_line = Return d
    /\ tag d = "ios-simulator,OS=9.1,name=iPhone 4s"
    /\ name d = "ios-simulator iPhone 4s (9.1)"
    /\ destination d = "OS=9.1,name=iPhone 4s".
Proof.
  destruct (C2_createDevice_fields "iOS 9.1" iphone4s_line) as [[d (Hd & _ & Ht & Hn & _ & Hdst & _)] _];
    [vm_compute; reflexivity | vm_compute; discriminate | vm_compute; discriminate
    | vm_compute; discriminate |].
  exists d. split; [exact Hd |]. split; [exact Ht |]. split; [exact Hn | exact Hdst].
Defined.

(** What [nextValueAsOSLevel] does with the line under the cursor: a line
    that does not start with [--] is refused with a message that ends with
    the line; any line that starts with [--] is accepted, and its value is
    cut at the index that [indexOf('--', 2)] returns, also when that is
    [-1]. *)
Lemma nextValueAsOSLevel_cases (lines : list string) (c : nat) (value : string) :
  lines !! c = Some value ->
  (Js.indexOf value "--" <> 0 ->
     nextValueAsOSLevel lines c
     = Throw ("expected oslevel prefix of " +:+ dquote +:+ "--" +:+ dquote
              +:+ " in:" +:+ value))
  /\ (Js.indexOf value "--" = 0 ->
     nextValueAsOSLevel lines c
     = Return (Js.trim (Js.slice value 2 (Js.indexOfFrom value "--" 2)), S c)).
Proof.
  intros Hl. rewrite (nextValueAsOSLevel_some lines c value Hl).
  unfold lift, osLevelOf. split; intros H.
  - apply Z.eqb_neq in H. rewrite H. reflexivity.
  - apply Z.eqb_eq in H. rewrite H. reflexivity.
Qed.

(** C6 (the code at the failing input): an OS-level header without closing
    dashes is accepted; [indexOf] gives [-1], [slice(2, -1)] cuts the last
    character, and the device is built from the label [iOS 9.]. *)
Theorem C6_unterminated_oslevel_accepted :
  nextValueAsOSLevel ["-- iOS 9.1"] 0%nat = Return ("iOS 9.", 1%nat)
  /\ exists d, getSimulatedDevices listing_unterminated_oslevel = Return [d]
       /\ OS d = "iOS 9."
       /\ tag d = "ios-simulator,OS=9.,name=iPhone 4s".
Proof.
  split; [vm_compute; reflexivity |].
  eexists. split; [vm_compute; reflexivity | split; reflexivity].
Qed.

(** ** The parser *)

(** C4: a line that is no header and contains [unavailable], standing
    where device entries stand (after an OS-level header or after another
    entry, that is, after any line that is no [==] header), leaves the
    outcome of parsing unchanged; every parsed device was made by
    [createDevice] from a line of the listing without [unavailable]; and
    parsing always ends, by returning or by throwing. *)
Theorem C4_unavailable_lines_skipped :
  (forall (a : list string) (p u : string) (b : list string),
      Js.indexOf p "==" <> 0 ->
      isHeader u = false ->
      Js.indexOf u "unavailable" <> -1 ->
      getSimulatedDevicesFromLines (a ++ p :: u :: b)
      = getSimulatedDevicesFromLines (a ++ p :: b))
  /\ (forall (lines : list string) (results : list DeviceJson),
      getSimulatedDevicesFromLines lines = Return results ->
      forall d, d ∈ results ->
        exists oslevel line, line ∈ lines
          /\ Js.indexOf line "unavailable" = -1
          /\ createDevice oslevel line = Return d)
  /\ (forall lines : list string, getSimulatedDevicesFromLines lines <> OutOfFuel).
Proof.
  split; [| split].
  - intros a p u b Hp Hu Hun. rewrite !getSimulatedDevicesFromLines_view.
    apply parse_view_skip; [| exact Hu | exact Hun].
    apply Z.eqb_neq. exact Hp.
  - intros lines results H. rewrite getSimulatedDevicesFromLines_view in H.
    exact (parse_view_provenance lines results H).
  - exact getSimulatedDevicesFromLines_terminates.
Qed.

Lemma C4_unavailable_lines_skipped_witness :
  getSimulatedDevicesFromLines
    (["== Device Types =="; "== Devices =="]
       ++ "-- iOS 9.1 --" :: unavailable_line :: [iphone4s_line])
  = getSimulatedDevicesFromLines
    (["== Device Types =="; "== Devices =="] ++ "-- iOS 9.1 --" :: [iphone4s_line])
  /\ exists oslevel line,
       line ∈ ["== Device Types =="; "== Devices ==";
                "-- iOS 9.1 --"; unavailable_line; iphone4s_line]
       /\ Js.indexOf line "unavailable" = -1
       /\ createDevice oslevel line = Return iphone4s_json.
Proof.
  destruct C4_unavailable_lines_skipped as (Hskip & Hprov & _). split.
  - apply Hskip; [vm_compute; discriminate | vm_compute; reflexivity
                  | vm_compute; discriminate].
  - apply (Hprov _ [iphone4s_json]); [vm_compute; reflexivity | left].
Defined.

(** C5 (as stated, refuted): an entry line that lacks the closing
    parenthesis and contains [unavailable] is skipped by the entry loop
    before [createDevice] sees it; parsing returns, with no device, instead
    of failing. *)
Lemma C5_unavailable_malformed_line_skipped :
  isHeader unavailable_unclosed_line = false
  /\ Js.indexOf unavailable_unclosed_line ")" = -1
  /\ malformed unavailable_unclosed_line
  /\ getSimulatedDevicesFromLines
       ["== Device Types =="; "== Devices =="; "-- iOS 9.1 --"; unavailable_unclosed_line]
     = Return []
  /\ getSimulatedDevices
       ("== Device Types ==" +:+ lf +:+ "== Devices ==" +:+ lf +:+ "-- iOS 9.1 --" +:+ lf
        +:+ unavailable_unclosed_line)
     = Return [].
Proof.
  split; [vm_compute; reflexivity |]. split; [vm_compute; reflexivity |].
  split; [right; left; vm_compute; reflexivity |].
  split; vm_compute; reflexivity.
Qed.

(** C5 (amended): [createDevice] throws, with a message that names the OS
    level and the line, on every line from which it cannot take an
    identifier of at least 10 characters between the first opening and the
    first closing parenthesis; and when the parser has read a listing
    without error up to such a line that is no header and does not contain
    [unavailable], it fails with a message that ends with that line. *)
Theorem C5_malformed_entry_throws :
  (forall oslevel line : string,
      malformed line ->
      exists prefix,
        createDevice oslevel line = Throw (prefix +:+ oslevel +:+ ":" +:+ line))
  /\ (forall (good : list string) (bad : string) (rest : list string)
        (results : list DeviceJson),
      getSimulatedDevicesFromLines_stream good 0%nat = Return (results, length good) ->
      isHeader bad = false ->
      Js.indexOf bad "unavailable" = -1 ->
      malformed bad ->
      exists prefix,
        getSimulatedDevicesFromLines (good ++ bad :: rest) = Throw (prefix +:+ bad)).
Proof.
  split; [exact createDevice_throw_names_line |].
  intros good bad rest results Hgood Hh Hun Hbad.
  rewrite getSimulatedDevicesFromLines_view.
  rewrite getSimulatedDevicesFromLines_stream_view in Hgood.
  destruct (parse_view_rem good) as [[results' rem] | |] eqn:Hp;
    [| discriminate | discriminate].
  cbn [at_cursor] in Hgood. injection Hgood as -> Hcur.
  assert (rem = []) as ->.
  { unfold cursor_of in Hcur. destruct rem as [|h t]; [reflexivity |].
    destruct good as [|g good]; [discriminate Hp |]. cbn [length] in Hcur. lia. }
  exact (parse_view_bad good bad rest results Hp Hh Hun Hbad).
Qed.

Lemma C5_malformed_entry_throws_witness :
  (exists prefix,
      createDevice "iOS 9.1" unclosed_line
      = Throw (prefix +:+ "iOS 9.1" +:+ ":" +:+ unclosed_line))
  /\ (exists prefix,
      getSimulatedDevicesFromLines
        (["== Device Types =="; "== Devices =="; "-- iOS 9.1 --"; iphone4s_line]
           ++ unclosed_line :: ["== Device Pairs =="])
      = Throw (prefix +:+ unclosed_line)).
Proof.
  destruct C5_malformed_entry_throws as [Hcreate Hparse]. split.
  - apply Hcreate. right; left. vm_compute. reflexivity.
  - apply (Hparse _ _ _ [iphone4s_json]).
    + vm_compute. reflexivity.
    + vm_compute. reflexivity.
    + vm_compute. reflexivity.
    + right; left. vm_compute. reflexivity.
Defined.

(** C7: run from a cursor inside the listing, [getOSLevelEntries] ends, by
    returning or by throwing; when it returns, the cursor is at the end of
    the lines or on a line that starts with [==], and no line that was
    passed starts with [==]; and its outcome is the same whatever stands at
    and after a [==] header that follows the lines. *)
Theorem C7_enumeration_stops (lines : list string) (c : nat) :
  (c <= length lines)%nat ->
  getOSLevelEntries lines c <> OutOfFuel
  /\ (forall (results : list DeviceJson) (n : nat),
      getOSLevelEntries lines c = Return (results, n) ->
      (c <= n <= length lines)%nat
      /\ (n = length lines \/ exists h, lines !! n = Some h /\ Js.indexOf h "==" = 0)
      /\ (forall (k : nat) (l : string),
            (c <= k < n)%nat -> lines !! k = Some l -> Js.indexOf l "==" <> 0))
  /\ (forall (hdr : string) (rest : list string),
      Js.indexOf hdr "==" = 0 ->
      getOSLevelEntries (lines ++ hdr :: rest) c = getOSLevelEntries lines c).
Proof.
  intros Hc. split; [exact (getOSLevelEntries_terminates lines c Hc) | split].
  - intros results n. rewrite stream_view by exact Hc.
    destruct (scan_view None [] (drop c lines)) as [[results' rem] | |] eqn:Hs;
      [| discriminate | discriminate].
    cbn [at_cursor]. intros [= -> <-].
    destruct (scan_view_stop _ _ _ _ _ Hs) as (pre & Hdrop & Hpre & Hrem).
    assert (Hlines : lines = (take c lines ++ pre) ++ rem)
      by (rewrite <- app_assoc, <- Hdrop, take_drop; reflexivity).
    assert (Htake : length (take c lines) = c) by (rewrite length_take; lia).
    pose proof (f_equal length Hlines) as Hlen.
    rewrite !length_app, Htake in Hlen.
    assert (Hn : cursor_of lines rem = length (take c lines ++ pre))
      by (unfold cursor_of; rewrite length_app; lia).
    rewrite Hn. split; [| split].
    + rewrite length_app, Htake. lia.
    + destruct Hrem as [-> | (h & t & -> & Hh)].
      * left. cbn [length] in Hlen. rewrite length_app. lia.
      * right. exists h. split; [| apply Z.eqb_eq; exact Hh].
        exact (lookup_cut_head _ _ _ _ Hlines).
    + intros k l Hk Hl. rewrite length_app, Htake in Hk.
      rewrite (lookup_cut_middle _ _ _ _ k Hlines) in Hl by lia.
      rewrite Forall_lookup in Hpre. apply Z.eqb_neq. exact (Hpre _ _ Hl).
  - intros hdr rest Hhdr.
    rewrite stream_view by (rewrite length_app; lia).
    rewrite stream_view by exact Hc.
    rewrite drop_app_le by exact Hc.
    rewrite scan_view_truncate by (apply Z.eqb_eq; exact Hhdr).
    destruct (scan_view None [] (drop c lines)) as [[results' rem] | |] eqn:Hs;
      [| reflexivity | reflexivity].
    cbn [at_cursor]. unfold cursor_of. apply scan_view_suffix in Hs.
    apply suffix_length in Hs. rewrite length_drop in Hs.
    rewrite !length_app. do 2 f_equal. lia.
Qed.

Lemma C7_enumeration_stops_witness :
  ((0 <= 2 <= 4)%nat
   /\ (2%nat = length ["-- iOS 9.1 --"; iphone4s_line; "== Device Pairs =="; iphone4s_line]
       \/ exists h,
            ["-- iOS 9.1 --"; iphone4s_line; "== Device Pairs =="; iphone4s_line] !! 2%nat
            = Some h /\ Js.indexOf h "==" = 0)
   /\ (forall (k : nat) (l : string),
         (0 <= k < 2)%nat ->
         ["-- iOS 9.1 --"; iphone4s_line; "== Device Pairs =="; iphone4s_line] !! k = Some l ->
         Js.indexOf l "==" <> 0))
  /\ getOSLevelEntries (["-- iOS 9.1 --"; iphone4s_line]
                          ++ "== Device Pairs ==" :: [iphone4s_line]) 0%nat
     = getOSLevelEntries ["-- iOS 9.1 --"; iphone4s_line] 0%nat.
Proof.
  split.
  - apply (C7_enumeration_stops
             ["-- iOS 9.1 --"; iphone4s_line; "== Device Pairs =="; iphone4s_line] 0%nat)
      with (results := [iphone4s_json]); [simpl; lia | vm_compute; reflexivity].
  - apply (C7_enumeration_stops ["-- iOS 9.1 --"; iphone4s_line] 0%nat);
      [simpl; lia | vm_compute; reflexivity].
Defined.

(** ** The registry *)

(** C3: in a registry built from the configured devices and a listing that
    parses, [findByTag] returns [null] for a tag that no configured and no
    discovered descriptor carries, and for a tag shared by a configured and
    a discovered descriptor it returns a device made from a discovered
    descriptor: the last discovered one with that tag, whatever the
    configured devices are. *)
Theorem C3_findByTag_registry (config_devices : option (list DeviceJson))
    (simctlData : string) (simulatedDevices : list DeviceJson) (manager : DeviceManager) :
  getSimulatedDevices simctlData = Return simulatedDevices ->
  newDeviceManager config_devices (Return simctlData) = Return manager ->
  let configDevices := default [] config_devices in
  (forall t : string,
      (forall json, json ∈ configDevices ++ simulatedDevices -> tag json <> t) ->
      findByTag manager t = None)
  /\ (forall c s : DeviceJson,
      c ∈ configDevices -> s ∈ simulatedDevices -> tag c = tag s ->
      exists d, d ∈ simulatedDevices /\ tag d = tag s
        /\ findByTag manager (tag s) = Some (Device.new d))
  /\ (forall (before : list DeviceJson) (d : DeviceJson) (after : list DeviceJson),
      simulatedDevices = before ++ d :: after ->
      (forall x, x ∈ after -> tag x <> tag d) ->
      findByTag manager (tag d) = Some (Device.new d)).
Proof.
  intros Hsim Hnew configDevices.
  rewrite (newDeviceManager_built _ _ _ _ Hsim Hnew). fold configDevices.
  assert (Hlast : forall before d after,
    simulatedDevices = before ++ d :: after ->
    (forall x, x ∈ after -> tag x <> tag d) ->
    findByTag (foldl register {| devicesByTag := ∅; devices := [] |}
                 (configDevices ++ simulatedDevices)) (tag d) = Some (Device.new d)).
  { intros before d after -> Hafter. unfold findByTag.
    rewrite app_assoc. rewrite registered_lookup_last by exact Hafter. reflexivity. }
  split; [| split].
  - intros t Hfresh. unfold findByTag.
    rewrite registered_lookup_other by exact Hfresh.
    cbn [devicesByTag]. rewrite lookup_empty. reflexivity.
  - intros c s _ Hs _.
    destruct (last_with_tag simulatedDevices s Hs) as (before & d & after & Hsplit & Hd & Hafter).
    exists d. split; [| split; [exact Hd |]].
    + rewrite Hsplit. apply elem_of_app. right. left.
    + rewrite <- Hd. exact (Hlast before d after Hsplit Hafter).
  - exact Hlast.
Qed.

Lemma C3_findByTag_registry_witness :
  findByTag sample_manager "android,name=Nexus 5" = None
  /\ (exists d, d ∈ [iphone4s_json] /\ tag d = tag iphone4s_json
        /\ findByTag sample_manager (tag iphone4s_json) = Some (Device.new d))
  /\ findByTag sample_manager (tag iphone4s_json) = Some (Device.new iphone4s_json).
Proof.
  destruct (C3_findByTag_registry (Some [configured_json]) listing_no_trailing_newline
              [iphone4s_json] sample_manager)
    as (Hnone & Hshared & Hlast);
    [vm_compute; reflexivity | vm_compute; reflexivity |].
  split; [| split].
  - apply Hnone. intros json Hin. cbn in Hin.
    apply elem_of_cons in Hin. destruct Hin as [-> | Hin]; [discriminate |].
    apply elem_of_cons in Hin. destruct Hin as [-> | Hin]; [discriminate |].
    apply elem_of_nil in Hin. contradiction.
  - apply (Hshared configured_json iphone4s_json); [left | left | reflexivity].
  - apply (Hlast [] iphone4s_json []); [reflexivity |].
    intros x Hx. apply elem_of_nil in Hx. contradiction.
Defined.

(** C10: the [devices] list of a registry holds one device per descriptor,
    configured ones first, while [devicesByTag] holds for each tag the last
    descriptor registered with it; so the map never has more keys than the
    list has entries, and has fewer as soon as two descriptors share a
    tag. *)
Theorem C10_devices_list_and_tag_map (config_devices : option (list DeviceJson))
    (simctlData : string) (simulatedDevices : list DeviceJson) (manager : DeviceManager) :
  getSimulatedDevices simctlData = Return simulatedDevices ->
  newDeviceManager config_devices (Return simctlData) = Return manager ->
  let allDevices := default [] config_devices ++ simulatedDevices in
  devices manager = Device.new <$> allDevices
  /\ (forall (before : list DeviceJson) (d : DeviceJson) (after : list DeviceJson),
      allDevices = before ++ d :: after ->
      (forall x, x ∈ after -> tag x <> tag d) ->
      devicesByTag manager !! tag d = Some (Device.new d))
  /\ (size (devicesByTag manager) <= length (devices manager))%nat
  /\ (forall (i j : nat) (a b : DeviceJson),
      (i < j)%nat -> allDevices !! i = Some a -> allDevices !! j = Some b ->
      tag a = tag b ->
      devices manager !! i = Some (Device.new a)
      /\ devices manager !! j = Some (Device.new b)
      /\ (size (devicesByTag manager) < length (devices manager))%nat).
Proof.
  intros Hsim Hnew allDevices.
  rewrite (newDeviceManager_built _ _ _ _ Hsim Hnew). fold allDevices.
  assert (Hdevices :
    devices (foldl register {| devicesByTag := ∅; devices := [] |} allDevices)
    = Device.new <$> allDevices) by (rewrite registered_devices; reflexivity).
  rewrite Hdevices, length_fmap.
  split; [reflexivity |]. split; [| split].
  - intros before d after -> Hafter. apply registered_lookup_last. exact Hafter.
  - pose proof (registered_size allDevices {| devicesByTag := ∅; devices := [] |}) as H.
    cbn [devicesByTag] in H. rewrite map_size_empty in H. lia.
  - intros i j a b Hij Ha Hb Htag.
    split; [rewrite list_lookup_fmap, Ha; reflexivity |].
    split; [rewrite list_lookup_fmap, Hb; reflexivity |].
    pose proof (take_drop_middle _ _ _ Ha) as Hsplit.
    assert (Hb' : drop (S i) allDevices !! (j - S i)%nat = Some b)
      by (rewrite lookup_drop; replace (S i + (j - S i))%nat with j by lia; exact Hb).
    pose proof (take_drop_middle _ _ _ Hb') as Hsplit'.
    rewrite <- Hsplit' in Hsplit. rewrite <- Hsplit.
    pose proof (registered_size_shared (take i allDevices) a
                  (take (j - S i) (drop (S i) allDevices)) b
                  (drop (S (j - S i)) (drop (S i) allDevices))
                  {| devicesByTag := ∅; devices := [] |} Htag) as H.
    cbn [devicesByTag] in H. rewrite map_size_empty in H. exact H.
Qed.

Lemma C10_devices_list_and_tag_map_witness :
  devices sample_manager = Device.new <$> [configured_json; iphone4s_json]
  /\ (size (devicesByTag sample_manager) < length (devices sample_manager))%nat.
Proof.
  destruct (C10_devices_list_and_tag_map (Some [configured_json])
              listing_no_trailing_newline [iphone4s_json] sample_manager)
    as (Hdevices & _ & _ & Hshared);
    [vm_compute; reflexivity | vm_compute; reflexivity |].
  split; [exact Hdevices |].
  apply (Hshared 0%nat 1%nat configured_json iphone4s_json);
    [lia | reflexivity | reflexivity | reflexivity].
Defined.

(** ** The repository checkout task *)

Section CheckoutProperties.

Import RepoCheckout.

Variable World : Type.
Variable exec : Command -> World -> Outcome * World.
Variable path_join : list string -> string.

Lemma stdout_fold_other (key : string) (datas : list string) :
  key <> "version" ->
  forall output : gmap string string,
    foldl (fun out data => stdout data out) output datas !! key = output !! key.
Proof.
  intros Hkey. induction datas as [|data datas IH]; intros output; [reflexivity |].
  cbn [foldl]. rewrite IH. unfold stdout.
  destruct (Js.length data =? 41); [| reflexivity].
  apply lookup_insert_ne. congruence.
Qed.

Lemma stdout_fold_version (datas : list string) :
  forall (output : gmap string string) (v : string),
    foldl (fun out data => stdout data out) output datas !! "version" = Some v <->
    (exists before data after, datas = before ++ data :: after
       /\ Js.length data = 41 /\ v = Js.trim data
       /\ forall x, x ∈ after -> Js.length x <> 41)
    \/ (output !! "version" = Some v /\ forall x, x ∈ datas -> Js.length x <> 41).
Proof.
  induction datas as [|data datas IH]; intros output v.
  - cbn [foldl]. split.
    + intros H. right. split; [exact H |]. intros x Hx.
      apply elem_of_nil in Hx. contradiction.
    + intros [(before & d & after & Heq & _) | [H _]]; [| exact H].
      destruct before; discriminate Heq.
  - cbn [foldl]. rewrite IH. unfold stdout. split.
    + intros [(before & d & after & -> & Hlen & -> & Hafter) | [Hout Hnone]].
      * left. exists (data :: before), d, after. repeat split; assumption.
      * destruct (Z.eqb_spec (Js.length data) 41) as [Hd | Hd].
        -- rewrite lookup_insert_eq in Hout. injection Hout as <-.
           left. exists [], data, datas. repeat split; assumption.
        -- right. split; [exact Hout |]. intros x Hx.
           apply elem_of_cons in Hx. destruct Hx as [-> | Hx]; [exact Hd | exact (Hnone x Hx)].
    + intros [(before & d & after & Heq & Hlen & -> & Hafter) | [Hout Hnone]].
      * destruct before as [|b before]; cbn [app] in Heq; injection Heq as -> ->.
        -- right. split; [| exact Hafter].
           rewrite (proj2 (Z.eqb_eq _ _) Hlen). apply lookup_insert_eq.
        -- left. exists before, d, after. repeat split; assumption.
      * right. assert (Hd : Js.length data <> 41) by (apply Hnone; left).
        split; [| intros x Hx; apply Hnone; right; exact Hx].
        destruct (Z.eqb_spec (Js.length data) 41); [contradiction | exact Hout].
Qed.

(** The last line of length 41 among the lines delivered. *)
Lemma last_of_length41 (datas : list string) (data : string) :
  data ∈ datas -> Js.length data = 41 ->
  exists before d after,
    datas = before ++ d :: after /\ Js.length d = 41
    /\ forall x, x ∈ after -> Js.length x <> 41.
Proof.
  induction datas as [|a datas IH] using rev_ind; intros Hin Hlen.
  - apply elem_of_nil in Hin. contradiction.
  - destruct (decide (Js.length a = 41)) as [Ha | Ha].
    + exists datas, a, []. split; [reflexivity |]. split; [exact Ha |].
      intros x Hx. apply elem_of_nil in Hx. contradiction.
    + apply elem_of_app in Hin. destruct Hin as [Hin | Hin].
      * destruct (IH Hin Hlen) as (before & d & after & -> & Hd & Hafter).
        exists before, d, (after ++ [a]). split; [rewrite <- app_assoc; reflexivity |].
        split; [exact Hd |]. intros x Hx. apply elem_of_app in Hx.
        destruct Hx as [Hx | Hx]; [exact (Hafter x Hx) |].
        apply list_elem_of_singleton in Hx. subst x. exact Ha.
      * apply list_elem_of_singleton in Hin. subst a. contradiction.
Qed.

(** The four commands of a run, and what the runner answers to each
    when the ones before it did not fail. *)
Section Run.

Variable params : Params.
Variable context : Context.
Variable w : World.

Let context' : Context := setRoots path_join params context.
Let repoCmd : string := path_join [bin_dir context'; "repo"; "repo"].
Let c1 : Command := mkdirCommand (ctx_checkout_root context').
Let c2 : Command := initCommand params repoCmd (ctx_checkout_root context').
Let c3 : Command := syncCommand repoCmd (ctx_checkout_root context').
Let c4 : Command := revParseCommand (ctx_project_root context').
Let r1 : Outcome * World := exec c1 w.
Let r2 : Outcome * World := exec c2 r1.2.
Let r3 : Outcome * World := exec c3 r2.2.
Let r4 : Outcome * World := exec c4 r3.2.

Lemma execute_unfold :
  execute World exec path_join params context w =
  (let '(err, st) :=
     series World
       [ call World exec c1 None (fun err => err);
         call World exec c2 None (fun err => err);
         call World exec c3 None (fun err => err);
         call World exec c4 (Some stdout) (fun _ => None) ]
       {| world := w; output := ∅; issued := [] |} in
   (err, st, context')).
Proof. reflexivity. Qed.

Lemma call_run (c : Command)
    (so : option (string -> gmap string string -> gmap string string))
    (cb : option Error -> option Error) (st : State World) :
  call World exec c so cb st =
  (cb (error (exec c (world st)).1),
   {| world := (exec c (world st)).2;
      output := match so with
                | Some f => foldl (fun out data => f data out) (output st)
                              (stdout_lines (exec c (world st)).1)
                | None => output st
                end;
      issued := issued st ++ [c] |}).
Proof. unfold call. destruct (exec c (world st)) as [o w']. reflexivity. Qed.

(** C8 (amended): when the first, second or third command (mkdir,
    repo init, repo sync) is the first to fail, no further command is
    issued, the callback receives that command's error, and [output]
    is the empty object, so that no revision is recorded. *)
Theorem C8_failure_of_first_three_commands :
  (forall e, error r1.1 = Some e ->
     execute World exec path_join params context w
     = (Some e, {| world := r1.2; output := ∅; issued := [c1] |}, context'))
  /\ (forall e, error r1.1 = None -> error r2.1 = Some e ->
     execute World exec path_join params context w
     = (Some e, {| world := r2.2; output := ∅; issued := [c1; c2] |}, context'))
  /\ (forall e, error r1.1 = None -> error r2.1 = None -> error r3.1 = Some e ->
     execute World exec path_join params context w
     = (Some e, {| world := r3.2; output := ∅; issued := [c1; c2; c3] |}, context')
     /\ output (execute World exec path_join params context w).1.2 !! "version" = None).
Proof.
  split; [| split].
  - intros e H1. rewrite execute_unfold. cbn [series].
    rewrite call_run. cbn [world output issued]. fold r1. rewrite H1. reflexivity.
  - intros e H1 H2. rewrite execute_unfold. cbn [series].
    rewrite call_run. cbn [world output issued]. fold r1. rewrite H1.
    rewrite call_run. cbn [world output issued]. fold r2. rewrite H2. reflexivity.
  - intros e H1 H2 H3.
    assert (E : execute World exec path_join params context w
                = (Some e, {| world := r3.2; output := ∅; issued := [c1; c2; c3] |},
                   context')).
    { rewrite execute_unfold. cbn [series].
      rewrite call_run. cbn [world output issued]. fold r1. rewrite H1.
      rewrite call_run. cbn [world output issued]. fold r2. rewrite H2.
      rewrite call_run. cbn [world output issued]. fold r3. rewrite H3. reflexivity. }
    split; [exact E |]. rewrite E. cbn. apply lookup_empty.
Qed.

(** C9: when mkdir, repo init and repo sync did not fail, the callback
    receives no error whatever the outcome of git rev-parse is; the
    [output] object has no key other than [version], and [version] is
    set exactly when some stdout line has length 41, to the trimmed
    last such line. *)
Theorem C9_rev_parse_failure_ignored :
  error r1.1 = None -> error r2.1 = None -> error r3.1 = None ->
  exists out : gmap string string,
    execute World exec path_join params context w
    = (None, {| world := r4.2; output := out; issued := [c1; c2; c3; c4] |}, context')
    /\ (forall v, out !! "version" = Some v <->
          exists before data after,
            stdout_lines r4.1 = before ++ data :: after
            /\ Js.length data = 41 /\ v = Js.trim data
            /\ forall x, x ∈ after -> Js.length x <> 41)
    /\ (out !! "version" = None <->
          forall data, data ∈ stdout_lines r4.1 -> Js.length data <> 41)
    /\ (forall key, key <> "version" -> out !! key = None).
Proof.
  intros H1 H2 H3.
  exists (foldl (fun out data => stdout data out) ∅ (stdout_lines r4.1)).
  assert (Hv : forall v,
    foldl (fun out data => stdout data out) ∅ (stdout_lines r4.1) !! "version" = Some v <->
    exists before data after,
      stdout_lines r4.1 = before ++ data :: after
      /\ Js.length data = 41 /\ v = Js.trim data
      /\ forall x, x ∈ after -> Js.length x <> 41).
  { intros v. rewrite stdout_fold_version. split; [| intros H; left; exact H].
    intros [H | [H _]]; [exact H |]. rewrite lookup_empty in H. discriminate H. }
  split; [| split; [exact Hv | split]].
  - rewrite execute_unfold. cbn [series].
    rewrite call_run. cbn [world output issued]. fold r1. rewrite H1.
    rewrite call_run. cbn [world output issued]. fold r2. rewrite H2.
    rewrite call_run. cbn [world output issued]. fold r3. rewrite H3.
    rewrite call_run. cbn [world output issued]. fold r4. reflexivity.
  - split.
    + intros Hnone data Hin Hlen.
      destruct (last_of_length41 (stdout_lines r4.1) data Hin Hlen)
        as (before & d & after & Hsplit & Hd & Hafter).
      assert (Hsome : foldl (fun out data => stdout data out) ∅ (stdout_lines r4.1)
                      !! "version" = Some (Js.trim d))
        by (apply Hv; exists before, d, after; repeat split; assumption).
      rewrite Hnone in Hsome. discriminate Hsome.
    + intros Hall. apply eq_None_not_Some. intros [v E].
      apply Hv in E. destruct E as (before & d & after & Hsplit & Hd & _).
      exfalso. apply (Hall d); [| exact Hd].
      rewrite Hsplit. apply elem_of_app. right. left.
  - intros key Hkey. rewrite stdout_fold_other by exact Hkey. apply lookup_empty.
Qed.

End Run.

End CheckoutProperties.

(** C8 (as stated, refuted): with a command runner whose fourth call, git
    rev-parse, fails, all four commands are issued and the callback
    receives no error: the failure of the fourth command is not surfaced. *)
Lemma C8_rev_parse_failure_not_surfaced :
  let run := RepoCheckout.execute nat (CheckoutSamples.exec_fails_at 3)
               CheckoutSamples.path_join CheckoutSamples.params
               CheckoutSamples.context 0%nat in
  RepoCheckout.issued run.1.2 !! 3%nat
    = Some (RepoCheckout.revParseCommand "/tmp/job/project")
  /\ RepoCheckout.error
       (CheckoutSamples.exec_fails_at 3
          (RepoCheckout.revParseCommand "/tmp/job/project") 3%nat).1
     = Some (RepoCheckout.MkError "exit status 1")
  /\ run.1.1 = None.
Proof. vm_compute. repeat split. Qed.

Lemma C8_failure_of_first_three_commands_witness :
  let run := RepoCheckout.execute nat (CheckoutSamples.exec_fails_at 2)
               CheckoutSamples.path_join CheckoutSamples.params
               CheckoutSamples.context 0%nat in
  run.1.1 = Some (RepoCheckout.MkError "exit status 1")
  /\ length (RepoCheckout.issued run.1.2) = 3%nat
  /\ RepoCheckout.output run.1.2 !! "version" = None.
Proof.
  pose proof (C8_failure_of_first_three_commands nat (CheckoutSamples.exec_fails_at 2)
                CheckoutSamples.path_join CheckoutSamples.params
                CheckoutSamples.context 0%nat) as H.
  cbv zeta in H. destruct H as (_ & _ & H3).
  destruct (H3 (RepoCheckout.MkError "exit status 1")) as [E Hv];
    [vm_compute; reflexivity | vm_compute; reflexivity | vm_compute; reflexivity |].
  cbv zeta. rewrite E. split; [reflexivity |]. split; [reflexivity |].
  rewrite E in Hv. exact Hv.
Defined.

Lemma C9_rev_parse_failure_ignored_witness :
  exists out : gmap string string,
    (RepoCheckout.execute nat (CheckoutSamples.exec_fails_at 3)
       CheckoutSamples.path_join CheckoutSamples.params
       CheckoutSamples.context 0%nat).1
    = (None, {| RepoCheckout.world := 4%nat; RepoCheckout.output := out;
                RepoCheckout.issued :=
                  [RepoCheckout.mkdirCommand "/tmp/job/project";
                   RepoCheckout.initCommand CheckoutSamples.params
                     "/opt/guerilla/bin/repo/repo" "/tmp/job/project";
                   RepoCheckout.syncCommand "/opt/guerilla/bin/repo/repo" "/tmp/job/project";
                   RepoCheckout.revParseCommand "/tmp/job/project"] |})
    /\ out !! "version" = Some "0123456789abcdef0123456789abcdef01234567".
Proof.
  pose proof (C9_rev_parse_failure_ignored nat (CheckoutSamples.exec_fails_at 3)
                CheckoutSamples.path_join CheckoutSamples.params
                CheckoutSamples.context 0%nat) as H.
  cbv zeta in H.
  destruct H as (out & E & Hv & _);
    [vm_compute; reflexivity | vm_compute; reflexivity | vm_compute; reflexivity |].
  exists out. split; [rewrite E; reflexivity |].
  apply Hv. exists [], CheckoutSamples.revision_line, [].
  split; [reflexivity |]. split; [reflexivity |]. split; [reflexivity |].
  intros x Hx. apply elem_of_nil in Hx. contradiction.
Defined.

(** * Further properties of the parser, the registry and the checkout task *)

(** ** The searches for the section headers *)

Lemma length_append (a b : string) :
  Js.length (a +:+ b) = Js.length a + Js.length b.
Proof.
  induction a as [|c a IH].
  { change ("" +:+ b) with b. change (Js.length "") with 0. lia. }
  change (String c a +:+ b) with (String c (a +:+ b)).
  rewrite !length_String, IH. lia.
Qed.

(** The test of [advanceTillMatch] is the prefix test. *)
Lemma slice_match_iff (v line : string) :
  bool_decide (Js.slice v 0 (Js.length line) = line) = String.prefix line v.
Proof.
  destruct (String.prefix line v) eqn:Hp.
  - apply bool_decide_eq_true_2.
    pose proof Hp as Hsub. apply String.prefix_correct in Hsub.
    destruct (prefix_app _ _ Hp) as [r Hr].
    assert (Hlen : Js.length line <= Js.length v).
    { rewrite Hr, length_append. pose proof (length_nonneg r). lia. }
    unfold Js.slice, Js.clampIndex.
    pose proof (length_nonneg line) as Hl.
    destruct (Z.ltb_spec 0 0) as [? | _]; [lia |].
    destruct (Z.ltb_spec (Js.length line) 0) as [? | _]; [lia |].
    replace (Z.min 0 (Js.length v)) with 0 by lia.
    replace (Z.min (Js.length line) (Js.length v)) with (Js.length line) by lia.
    destruct (Z.ltb_spec 0 (Js.length line)) as [Hpos | Hzero].
    + rewrite Z.sub_0_r. change (Z.to_nat 0) with 0%nat.
      unfold Js.length. rewrite Nat2Z.id. exact Hsub.
    + destruct line; [reflexivity |]. rewrite length_String in Hzero.
      pose proof (length_nonneg line). lia.
  - apply bool_decide_eq_false_2. intros H.
    rewrite (slice_match_prefix v line H) in Hp. discriminate Hp.
Qed.

Lemma advance_view_first (line l : string) (rest pre : list string) :
  Forall (fun v => String.prefix line v = false) pre ->
  String.prefix line l = true ->
  advance_view line (pre ++ l :: rest) = Some rest.
Proof.
  intros Hpre Hl. induction Hpre as [|v pre Hv _ IH]; cbn [app advance_view].
  - rewrite slice_match_iff, Hl. reflexivity.
  - rewrite slice_match_iff, Hv. exact IH.
Qed.

Lemma advance_view_none (line : string) (ls : list string) :
  Forall (fun v => String.prefix line v = false) ls ->
  advance_view line ls = None.
Proof.
  intros H. induction H as [|v ls Hv _ IH]; cbn [advance_view]; [reflexivity |].
  rewrite slice_match_iff, Hv. exact IH.
Qed.

(** X1: [advanceTillMatch(line)], run from a cursor inside the listing,
    leaves the cursor just after the first line at or after it that starts
    with [line], and throws [unexpected end while advancingTillMatch:]
    followed by [line] when there is no such line. *)
Theorem X1_advanceTillMatch_first_match (lines : list string) (line : string) (c : nat) :
  (c <= length lines)%nat ->
  (forall (k : nat) (l : string),
      (c <= k)%nat -> lines !! k = Some l -> String.prefix line l = true ->
      (forall (j : nat) (l' : string),
          (c <= j < k)%nat -> lines !! j = Some l' -> String.prefix line l' = false) ->
      advanceTillMatch lines line c = Return (tt, S k))
  /\ ((forall (k : nat) (l : string),
         (c <= k)%nat -> lines !! k = Some l -> String.prefix line l = false) ->
      advanceTillMatch lines line c
      = Throw ("unexpected end while advancingTillMatch:" +:+ line)).
Proof.
  intros Hc. unfold advanceTillMatch. split.
  - intros k l Hk Hl Hmatch Hbefore.
    rewrite advanceTillMatch_view by lia.
    pose proof (lookup_lt_Some _ _ _ Hl) as Hlt.
    assert (Hdrop : drop c lines
                    = take (k - c) (drop c lines) ++ l :: drop (S k) lines).
    { rewrite <- (take_drop (k - c) (drop c lines)) at 1. f_equal.
      rewrite drop_drop. replace (c + (k - c))%nat with k by lia.
      apply drop_S. exact Hl. }
    rewrite Hdrop, (advance_view_first line l); [| | exact Hmatch].
    + rewrite cursor_of_drop by lia. reflexivity.
    + apply Forall_lookup. intros i v Hv.
      apply lookup_take_Some in Hv. destruct Hv as [Hv Hi].
      rewrite lookup_drop in Hv. apply (Hbefore (c + i)%nat v); [lia | exact Hv].
  - intros Hnone. rewrite advanceTillMatch_view by lia.
    rewrite advance_view_none; [reflexivity |].
    apply Forall_lookup. intros i v Hv. rewrite lookup_drop in Hv.
    apply (Hnone (c + i)%nat v); [lia | exact Hv].
Qed.

Lemma X1_advanceTillMatch_first_match_witness :
  advanceTillMatch ["== Runtimes =="; "== Devices =="; "-- iOS 9.1 --"] "== Devices ==" 0%nat
  = Return (tt, 2%nat)
  /\ advanceTillMatch ["== Runtimes =="; "-- iOS 9.1 --"] "== Devices ==" 0%nat
     = Throw ("unexpected end while advancingTillMatch:" +:+ "== Devices ==").
Proof.
  split.
  - apply (X1_advanceTillMatch_first_match
             ["== Runtimes =="; "== Devices =="; "-- iOS 9.1 --"] "== Devices ==" 0%nat)
      with (l := "== Devices =="); [simpl; lia | lia | reflexivity | reflexivity |].
    intros j l' Hj Hl'. assert (j = 0%nat) as -> by lia.
    injection Hl' as <-. reflexivity.
  - apply (X1_advanceTillMatch_first_match
             ["== Runtimes =="; "-- iOS 9.1 --"] "== Devices ==" 0%nat); [simpl; lia |].
    intros k l _ Hl. destruct k as [|[|k]]; cbn in Hl;
      [injection Hl as <-; reflexivity | injection Hl as <-; reflexivity | discriminate Hl].
Defined.

Lemma run_getOSLevelEntries_view (body : list string) :
  run (getOSLevelEntries body) = results_of (scan_view None [] body).
Proof.
  unfold run. rewrite stream_view by lia. rewrite drop_0.
  destruct (scan_view None [] body) as [[results rem] | msg |]; reflexivity.
Qed.

(** X2: without a line that starts with [== Device Types ==] the parser
    throws the end-of-stream error of the first search, and without a line
    that starts with [== Devices ==] after the first such line it throws
    that of the second search; a [== Devices ==] line that stands before
    the [== Device Types ==] line does not count. *)
Theorem X2_missing_section_header :
  (forall lines : list string,
      Forall (fun v => String.prefix "== Device Types ==" v = false) lines ->
      getSimulatedDevicesFromLines lines
      = Throw "unexpected end while advancingTillMatch:== Device Types ==")
  /\ (forall (pre : list string) (h1 : string) (rest : list string),
      Forall (fun v => String.prefix "== Device Types ==" v = false) pre ->
      String.prefix "== Device Types ==" h1 = true ->
      Forall (fun v => String.prefix "== Devices ==" v = false) rest ->
      getSimulatedDevicesFromLines (pre ++ h1 :: rest)
      = Throw "unexpected end while advancingTillMatch:== Devices ==").
Proof.
  split.
  - intros lines H. rewrite getSimulatedDevicesFromLines_view.
    unfold parse_view, parse_view_rem. rewrite advance_view_none by exact H.
    reflexivity.
  - intros pre h1 rest Hpre Hh1 Hrest. rewrite getSimulatedDevicesFromLines_view.
    unfold parse_view, parse_view_rem.
    rewrite (advance_view_first _ h1 rest pre Hpre Hh1).
    rewrite advance_view_none by exact Hrest. reflexivity.
Qed.

Lemma X2_missing_section_header_witness :
  getSimulatedDevicesFromLines ["== Devices =="; "-- iOS 9.1 --"; iphone4s_line]
  = Throw "unexpected end while advancingTillMatch:== Device Types =="
  /\ getSimulatedDevicesFromLines
       (["== Devices =="] ++ "== Device Types ==" :: ["-- iOS 9.1 --"; iphone4s_line])
     = Throw "unexpected end while advancingTillMatch:== Devices ==".
Proof.
  destruct X2_missing_section_header as [H1 H2]. split.
  - apply H1. repeat constructor.
  - apply H2; [repeat constructor | reflexivity | repeat constructor].
Defined.

(** X3: the lines up to and including the first [== Devices ==] line that
    follows the first [== Device Types ==] line are skipped: the outcome of
    parsing is that of [getOSLevelEntries] on the lines after it. *)
Theorem X3_section_skipping (pre : list string) (h1 : string) (mid : list string)
    (h2 : string) (body : list string) :
  Forall (fun v => String.prefix "== Device Types ==" v = false) pre ->
  String.prefix "== Device Types ==" h1 = true ->
  Forall (fun v => String.prefix "== Devices ==" v = false) mid ->
  String.prefix "== Devices ==" h2 = true ->
  getSimulatedDevicesFromLines (pre ++ h1 :: mid ++ h2 :: body)
  = run (getOSLevelEntries body).
Proof.
  intros Hpre Hh1 Hmid Hh2. rewrite getSimulatedDevicesFromLines_view.
  rewrite run_getOSLevelEntries_view. unfold parse_view, parse_view_rem.
  rewrite (advance_view_first _ h1 (mid ++ h2 :: body) pre Hpre Hh1).
  rewrite (advance_view_first _ h2 body mid Hmid Hh2). reflexivity.
Qed.

Lemma X3_section_skipping_witness :
  getSimulatedDevicesFromLines
    (["== Devices =="; "-- iOS 8.4 --"] ++ "== Device Types ==" ::
       ["== Runtimes =="; "iOS 9.1 (9.1 - 13B137)"] ++ "== Devices ==" ::
       ["-- iOS 9.1 --"; iphone4s_line])
  = run (getOSLevelEntries ["-- iOS 9.1 --"; iphone4s_line]).
Proof.
  apply X3_section_skipping;
    [repeat constructor | reflexivity | repeat constructor | reflexivity].
Defined.

(** X4: what the first line of the section decides.  When there is no line
    under the cursor, or it starts with [==], [getOSLevelEntries] returns
    no device and leaves the cursor where it is; when the line starts
    neither with [==] nor with [--], it throws [expected oslevel prefix ...]
    followed by the line. *)
Theorem X4_first_line_of_section (lines : list string) (c : nat) :
  (lines !! c = None -> getOSLevelEntries lines c = Return ([], c))
  /\ (forall h, lines !! c = Some h -> Js.indexOf h "==" = 0 ->
        getOSLevelEntries lines c = Return ([], c))
  /\ (forall l, lines !! c = Some l ->
        Js.indexOf l "==" <> 0 -> Js.indexOf l "--" <> 0 ->
        getOSLevelEntries lines c
        = Throw ("expected oslevel prefix of " +:+ dquote +:+ "--" +:+ dquote
                 +:+ " in:" +:+ l)).
Proof.
  unfold getOSLevelEntries. split; [| split].
  - intros H. apply oslevels_loop_none. exact H.
  - intros h H Hh. rewrite (oslevels_loop_some lines _ c h [] H).
    apply Z.eqb_eq in Hh. rewrite Hh. reflexivity.
  - intros l H Heq Hdash. rewrite (oslevels_loop_some lines _ c l [] H).
    apply Z.eqb_neq in Heq. apply Z.eqb_neq in Hdash.
    rewrite Heq. unfold osLevelOf. rewrite Hdash. reflexivity.
Qed.

Lemma X4_first_line_of_section_witness :
  getOSLevelEntries ["== Devices =="] 1%nat = Return ([], 1%nat)
  /\ getOSLevelEntries ["== Devices =="; "== Device Pairs =="] 1%nat = Return ([], 1%nat)
  /\ getOSLevelEntries ["== Devices =="; iphone4s_line] 1%nat
     = Throw ("expected oslevel prefix of " +:+ dquote +:+ "--" +:+ dquote
              +:+ " in:" +:+ iphone4s_line).
Proof.
  split; [| split].
  - apply (X4_first_line_of_section ["== Devices =="] 1%nat). reflexivity.
  - apply (X4_first_line_of_section ["== Devices =="; "== Device Pairs =="] 1%nat)
      with (h := "== Device Pairs =="); [reflexivity | vm_compute; reflexivity].
  - apply (X4_first_line_of_section ["== Devices =="; iphone4s_line] 1%nat);
      [reflexivity | vm_compute; discriminate | vm_compute; discriminate].
Defined.

(** ** Groups of entries *)

(** The devices found so far are only extended. *)
Lemma scan_view_acc (ls : list string) :
  forall cur results,
    scan_view cur results ls =
    match scan_view cur [] ls with
    | Return (found, rem) => Return (results ++ found, rem)
    | Throw msg => Throw msg
    | OutOfFuel => OutOfFuel
    end.
Proof.
  induction ls as [|l ls IH]; intros cur results.
  - cbn. rewrite app_nil_r. reflexivity.
  - scan_first cur l Hh.
    + destruct (Js.indexOf l "==" =? 0); [rewrite app_nil_r; reflexivity |].
      destruct (osLevelOf l); [apply IH | reflexivity | reflexivity].
    + destruct (Js.indexOf l "unavailable" =? -1); [| apply IH].
      destruct (createDevice oslevel l) as [device | |]; [| reflexivity | reflexivity].
      rewrite (IH _ (results ++ [device])), (IH _ ([] ++ [device])).
      destruct (scan_view (Some oslevel) [] ls) as [[found rem] | |];
        [| reflexivity | reflexivity].
      rewrite <- app_assoc. reflexivity.
    + destruct (Js.indexOf l "==" =? 0); [rewrite app_nil_r; reflexivity |].
      destruct (osLevelOf l); [apply IH | reflexivity | reflexivity].
Qed.

(** After lines that were read to their end, a header is read as if
    it were the first line. *)
Lemma scan_view_app_header (hdr : string) (rest g1 : list string) :
  isHeader hdr = true ->
  forall cur results results1,
    scan_view cur results g1 = Return (results1, []) ->
    scan_view cur results (g1 ++ hdr :: rest) = scan_view None results1 (hdr :: rest).
Proof.
  intros Hhdr. induction g1 as [|l g1 IH]; intros cur results results1.
  - intros H. cbn [scan_view] in H. injection H as ->. cbn [app].
    rewrite !scan_view_header by (right; exact Hhdr). reflexivity.
  - change ((l :: g1) ++ hdr :: rest) with (l :: (g1 ++ hdr :: rest)).
    scan_first cur l Hh.
    + destruct (Js.indexOf l "==" =? 0); [discriminate |].
      destruct (osLevelOf l); [apply IH | discriminate | discriminate].
    + destruct (Js.indexOf l "unavailable" =? -1); [| apply IH].
      destruct (createDevice oslevel l); [apply IH | discriminate | discriminate].
    + destruct (Js.indexOf l "==" =? 0); [discriminate |].
      destruct (osLevelOf l); [apply IH | discriminate | discriminate].
Qed.

Lemma scan_view_group (oslevel : string) (entries : list string) :
  Forall (fun l => isHeader l = false) entries ->
  forall (ds results : list DeviceJson),
    Forall2 (fun line d => createDevice oslevel line = Return d)
      (filter (fun l => Js.indexOf l "unavailable" = -1) entries) ds ->
    scan_view (Some oslevel) results entries = Return (results ++ ds, []).
Proof.
  intros Hentries. induction Hentries as [|l entries Hl _ IH]; intros ds results Hds.
  - rewrite filter_nil in Hds. apply Forall2_nil_inv_l in Hds. subst ds.
    cbn. rewrite app_nil_r. reflexivity.
  - rewrite (scan_view_entry oslevel) by exact Hl.
    destruct (Z.eqb_spec (Js.indexOf l "unavailable") (-1)) as [Hun | Hun].
    + rewrite filter_cons_True in Hds by exact Hun.
      apply Forall2_cons_inv_l in Hds. destruct Hds as (d & ds' & Hd & Hds' & ->).
      rewrite Hd. rewrite (IH ds' (results ++ [d]) Hds').
      rewrite <- app_assoc. reflexivity.
    + rewrite filter_cons_False in Hds by exact Hun. exact (IH ds results Hds).
Qed.

Lemma osLevelOf_of_stream (hdr oslevel : string) :
  nextValueAsOSLevel [hdr] 0%nat = Return (oslevel, 1%nat) ->
  osLevelOf hdr = Return oslevel.
Proof.
  rewrite (nextValueAsOSLevel_some [hdr] 0%nat hdr eq_refl). unfold lift.
  destruct (osLevelOf hdr); [intros [= ->]; reflexivity | discriminate | discriminate].
Qed.

(** X6: one group.  For an OS-level header followed by lines that are no
    headers, [getOSLevelEntries] reads all of them and returns, in the
    order of the lines, the devices that [createDevice] makes with the
    header's OS level from the lines that do not contain [unavailable]. *)
Theorem X6_one_group (hdr oslevel : string) (entries : list string)
    (ds : list DeviceJson) :
  Js.indexOf hdr "==" <> 0 ->
  nextValueAsOSLevel [hdr] 0%nat = Return (oslevel, 1%nat) ->
  Forall (fun l => isHeader l = false) entries ->
  Forall2 (fun line d => createDevice oslevel line = Return d)
    (filter (fun l => Js.indexOf l "unavailable" = -1) entries) ds ->
  getOSLevelEntries (hdr :: entries) 0%nat = Return (ds, S (length entries)).
Proof.
  intros Heq Hos Hentries Hds. rewrite stream_view by lia. rewrite drop_0.
  rewrite scan_view_header by (left; reflexivity).
  apply Z.eqb_neq in Heq. rewrite Heq.
  rewrite (osLevelOf_of_stream hdr oslevel Hos).
  rewrite (scan_view_group oslevel entries Hentries ds [] Hds).
  cbn [at_cursor app]. unfold cursor_of. cbn [length]. rewrite Nat.sub_0_r.
  reflexivity.
Qed.

Lemma X6_one_group_witness :
  getOSLevelEntries ("-- iOS 9.1 --" :: [unavailable_line; iphone4s_line]) 0%nat
  = Return ([iphone4s_json], 3%nat).
Proof.
  apply (X6_one_group "-- iOS 9.1 --" "iOS 9.1" [unavailable_line; iphone4s_line]
           [iphone4s_json]).
  - vm_compute. discriminate.
  - vm_compute. reflexivity.
  - repeat constructor.
  - rewrite filter_cons_False by (vm_compute; discriminate).
    rewrite filter_cons_True by (vm_compute; reflexivity).
    rewrite filter_nil. constructor; [vm_compute; reflexivity | constructor].
Defined.

(** X7: groups compose.  When [getOSLevelEntries] reads the lines [g1] to
    their end without error, and the lines [g2] begin with a header, then
    on [g1 ++ g2] it returns the devices of [g1] followed by those of [g2],
    with the cursor of [g2] moved by the length of [g1], or throws what it
    throws on [g2]. *)
Theorem X7_groups_compose (g1 : list string) (hdr : string) (rest : list string)
    (r1 : list DeviceJson) :
  isHeader hdr = true ->
  getOSLevelEntries g1 0%nat = Return (r1, length g1) ->
  getOSLevelEntries (g1 ++ hdr :: rest) 0%nat =
  match getOSLevelEntries (hdr :: rest) 0%nat with
  | Return (r2, n2) => Return (r1 ++ r2, (length g1 + n2)%nat)
  | Throw msg => Throw msg
  | OutOfFuel => OutOfFuel
  end.
Proof.
  intros Hhdr Hg1. rewrite !stream_view in * by lia. rewrite !drop_0 in *.
  destruct (scan_view None [] g1) as [[results1 rem1] | |] eqn:H1;
    [| discriminate | discriminate].
  cbn [at_cursor] in Hg1. injection Hg1 as -> Hcur.
  assert (rem1 = []) as ->.
  { pose proof (suffix_length _ _ (scan_view_suffix _ _ _ _ _ H1)) as Hlen.
    unfold cursor_of in Hcur. destruct rem1 as [|x rem1]; [reflexivity |].
    cbn [length] in *. lia. }
  rewrite (scan_view_app_header hdr rest g1 Hhdr _ _ _ H1).
  rewrite scan_view_acc.
  destruct (scan_view None [] (hdr :: rest)) as [[r2 rem2] | |] eqn:H2;
    [| reflexivity | reflexivity].
  cbn [at_cursor]. unfold cursor_of.
  pose proof (suffix_length _ _ (scan_view_suffix _ _ _ _ _ H2)) as Hlen.
  rewrite length_app. do 2 f_equal. lia.
Qed.

Lemma X7_groups_compose_witness :
  getOSLevelEntries (["-- iOS 8.4 --"; unavailable_line]
                       ++ "-- iOS 9.1 --" :: [iphone4s_line; "== Device Pairs =="]) 0%nat
  = Return ([] ++ [iphone4s_json], (2 + 2)%nat).
Proof.
  rewrite (X7_groups_compose ["-- iOS 8.4 --"; unavailable_line] "-- iOS 9.1 --"
             [iphone4s_line; "== Device Pairs =="] []);
    [vm_compute; reflexivity | vm_compute; reflexivity | vm_compute; reflexivity].
Defined.

(** ** What the parser returns and what it throws *)

Lemma createDevice_return_inv (oslevel line : string) (d : DeviceJson) :
  createDevice oslevel line = Return d ->
  Js.indexOf line "unavailable" = -1
  /\ 10 <= Js.length (identifier d)
  /\ identifier d = Js.slice line (Js.indexOf line "(" + 1) (Js.indexOf line ")")
  /\ platform d = "ios" /\ simulator d = true /\ OS d = oslevel
  /\ tag d = "ios-simulator," +:+ destination d.
Proof.
  unfold createDevice.
  destruct (Z.eqb_spec (Js.indexOf line "unavailable") (-1)) as [Hun | _];
    [| discriminate]. cbn [negb].
  destruct (Js.indexOf line "(" =? -1); [discriminate |].
  destruct (Js.indexOf line ")" =? -1); [discriminate |].
  destruct (Z.ltb_spec
    (Js.length (Js.slice line (Js.indexOf line "(" + 1) (Js.indexOf line ")"))) 10)
    as [_ | Hlen]; [discriminate |].
  intros [= <-]. cbn. repeat split; try assumption; reflexivity.
Qed.

Lemma createDevice_throw_inv (oslevel line msg : string) :
  Js.indexOf line "unavailable" = -1 ->
  createDevice oslevel line = Throw msg ->
  msg = "createDevice: could not find open paren in: " +:+ oslevel +:+ ":" +:+ line
  \/ msg = "createDevice: could not find close paren in: " +:+ oslevel +:+ ":" +:+ line
  \/ msg = "createDevice: could not find valid identifier in:" +:+ oslevel +:+ ":" +:+ line.
Proof.
  intros Hun. unfold createDevice. rewrite Hun. cbn [Z.eqb negb].
  destruct (Js.indexOf line "(" =? -1); [intros [= <-]; left; reflexivity |].
  destruct (Js.indexOf line ")" =? -1); [intros [= <-]; right; left; reflexivity |].
  destruct (Js.length _ <? 10); [intros [= <-]; right; right; reflexivity | discriminate].
Qed.

Lemma createDevice_throw_malformed (oslevel line msg : string) :
  createDevice oslevel line = Throw msg ->
  Js.indexOf line "unavailable" <> -1 \/ malformed line.
Proof.
  unfold createDevice, malformed.
  destruct (Z.eqb_spec (Js.indexOf line "unavailable") (-1)) as [_ | Hun];
    [| intros _; left; exact Hun]. cbn [negb].
  destruct (Z.eqb_spec (Js.indexOf line "(") (-1)) as [Hopen | _];
    [intros _; right; left; exact Hopen |].
  destruct (Z.eqb_spec (Js.indexOf line ")") (-1)) as [Hclose | _];
    [intros _; right; right; left; exact Hclose |].
  destruct (Z.ltb_spec
    (Js.length (Js.slice line (Js.indexOf line "(" + 1) (Js.indexOf line ")"))) 10)
    as [Hlen | _]; [intros _; right; right; right; exact Hlen | discriminate].
Qed.

Lemma isHeader_cases (l : string) :
  isHeader l = true ->
  (Js.indexOf l "--" =? 0) = true \/ (Js.indexOf l "==" =? 0) = true.
Proof.
  unfold isHeader. intros H. apply orb_true_iff in H.
  rewrite !indexOf_zero_prefix.
  destruct H as [H | H]; apply bool_decide_eq_true_1 in H;
    [left | right]; apply slice_match_prefix; exact H.
Qed.

(** The header test of the inner loop agrees with the prefix tests of
    [nextValueAsOSLevel] and [peekIsDoubleEquals]. *)
Lemma isHeader_prefix_tests (l : string) :
  isHeader l = (Js.indexOf l "--" =? 0) || (Js.indexOf l "==" =? 0).
Proof.
  destruct (isHeader l) eqn:Hh.
  - symmetry. apply orb_true_iff. exact (isHeader_cases l Hh).
  - rewrite (not_header_not_double_dash l Hh), (not_header_not_double_equals l Hh).
    reflexivity.
Qed.

Lemma scan_view_provenance_os (ls : list string) :
  forall cur results results' rem,
    scan_view cur results ls = Return (results', rem) ->
    forall d, d ∈ results' ->
      d ∈ results \/
      exists line, line ∈ ls /\ isHeader line = false
        /\ createDevice (OS d) line = Return d
        /\ (cur = Some (OS d) \/ exists hdr, hdr ∈ ls /\ osLevelOf hdr = Return (OS d)).
Proof.
  induction ls as [|l ls IH]; intros cur results results' rem.
  - cbn. intros [= <- _] d Hd. left. exact Hd.
  - assert (Hlift : forall (cur' : option string) (results1 : list DeviceJson)
                            (d : DeviceJson),
      (d ∈ results1 \/
       exists line, line ∈ ls /\ isHeader line = false
         /\ createDevice (OS d) line = Return d
         /\ (cur' = Some (OS d) \/ exists hdr, hdr ∈ ls /\ osLevelOf hdr = Return (OS d))) ->
      (cur' = Some (OS d) ->
       cur = Some (OS d) \/ exists hdr, hdr ∈ l :: ls /\ osLevelOf hdr = Return (OS d)) ->
      d ∈ results1 \/
      exists line, line ∈ l :: ls /\ isHeader line = false
        /\ createDevice (OS d) line = Return d
        /\ (cur = Some (OS d) \/ exists hdr, hdr ∈ l :: ls /\ osLevelOf hdr = Return (OS d))).
    { intros cur' results1 d [Hin | (line & Hin & Hh & Hc & Hos)] Hcur; [left; exact Hin |].
      right. exists line. split; [right; exact Hin |]. split; [exact Hh |].
      split; [exact Hc |]. destruct Hos as [Hos | (hdr & Hhdr & Hos)]; [exact (Hcur Hos) |].
      right. exists hdr. split; [right; exact Hhdr | exact Hos]. }
    assert (Hheader : forall oslevel,
      osLevelOf l = Return oslevel ->
      scan_view (Some oslevel) results ls = Return (results', rem) ->
      forall d, d ∈ results' ->
      d ∈ results \/
      exists line, line ∈ l :: ls /\ isHeader line = false
        /\ createDevice (OS d) line = Return d
        /\ (cur = Some (OS d) \/ exists hdr, hdr ∈ l :: ls /\ osLevelOf hdr = Return (OS d))).
    { intros oslevel Hos H d Hd. apply (Hlift (Some oslevel) results d (IH _ _ _ _ H d Hd)).
      intros [= ->]. right. exists l. split; [left | exact Hos]. }
    scan_first cur l Hh.
    + destruct (Js.indexOf l "==" =? 0); [intros [= <- _] d Hd; left; exact Hd |].
      destruct (osLevelOf l) as [os | |] eqn:Hos; [| discriminate | discriminate].
      exact (Hheader os eq_refl).
    + destruct (Z.eqb_spec (Js.indexOf l "unavailable") (-1)) as [Hun | _].
      * destruct (createDevice oslevel l) as [device | |] eqn:Hc; [| discriminate | discriminate].
        intros H d Hd.
        destruct (Hlift (Some oslevel) (results ++ [device]) d (IH _ _ _ _ H d Hd))
          as [Hin | Hex]; [intros E; left; exact E | | right; exact Hex].
        apply elem_of_app in Hin. destruct Hin as [Hin | Hin]; [left; exact Hin |].
        apply list_elem_of_singleton in Hin. subst d.
        destruct (createDevice_return_inv _ _ _ Hc) as (_ & _ & _ & _ & _ & HOS & _).
        right. exists l. split; [left |]. split; [exact Hh |].
        rewrite HOS. split; [exact Hc | left; reflexivity].
      * intros H d Hd.
        apply (Hlift (Some oslevel) results d (IH _ _ _ _ H d Hd)).
        intros E; left; exact E.
    + destruct (Js.indexOf l "==" =? 0); [intros [= <- _] d Hd; left; exact Hd |].
      destruct (osLevelOf l) as [os | |] eqn:Hos; [| discriminate | discriminate].
      exact (Hheader os eq_refl).
Qed.

Lemma stream_of_osLevelOf (hdr oslevel : string) :
  osLevelOf hdr = Return oslevel ->
  nextValueAsOSLevel [hdr] 0%nat = Return (oslevel, 1%nat).
Proof.
  intros H. rewrite (nextValueAsOSLevel_some [hdr] 0%nat hdr eq_refl).
  unfold lift. rewrite H. reflexivity.
Qed.

(** X8: every device of a successful parse has platform [ios], the
    simulator flag, an identifier of at least 10 characters and a tag that
    is [ios-simulator,] followed by its destination; it was made by
    [createDevice] from a line of the listing that is no header, with an OS
    level that [nextValueAsOSLevel] reads from a line of the listing. *)
Theorem X8_parsed_device_invariant (lines : list string) (results : list DeviceJson) :
  getSimulatedDevicesFromLines lines = Return results ->
  forall d, d ∈ results ->
    platform d = "ios" /\ simulator d = true
    /\ 10 <= Js.length (identifier d)
    /\ tag d = "ios-simulator," +:+ destination d
    /\ (exists line, line ∈ lines /\ isHeader line = false
          /\ createDevice (OS d) line = Return d)
    /\ (exists hdr, hdr ∈ lines
          /\ nextValueAsOSLevel [hdr] 0%nat = Return (OS d, 1%nat)).
Proof.
  rewrite getSimulatedDevicesFromLines_view. unfold parse_view, parse_view_rem.
  destruct (advance_view "== Device Types ==" lines) as [rem1 |] eqn:H1; [| discriminate].
  destruct (advance_view "== Devices ==" rem1) as [rem2 |] eqn:H2; [| discriminate].
  destruct (scan_view None [] rem2) as [[results' rem] | |] eqn:Hs; [| discriminate | discriminate].
  intros [= ->] d Hd.
  assert (Hsub : forall x, x ∈ rem2 -> x ∈ lines).
  { apply advance_view_suffix in H1. apply advance_view_suffix in H2.
    destruct H1 as [k1 ->]. destruct H2 as [k2 ->]. intros x Hx.
    apply elem_of_app. right. apply elem_of_app. right. exact Hx. }
  destruct (scan_view_provenance_os _ _ _ _ _ Hs d Hd)
    as [Hin | (line & Hin & Hh & Hc & Hos)]; [apply elem_of_nil in Hin; contradiction |].
  destruct (createDevice_return_inv _ _ _ Hc) as (_ & Hlen & _ & Hp & Hsim & _ & Htag).
  repeat split; try assumption.
  - exists line. split; [apply Hsub; exact Hin | split; assumption].
  - destruct Hos as [Hos | (hdr & Hhdr & Hos)]; [discriminate Hos |].
    exists hdr. split; [apply Hsub; exact Hhdr | apply stream_of_osLevelOf; exact Hos].
Qed.

Lemma X8_parsed_device_invariant_witness :
  platform iphone4s_json = "ios" /\ simulator iphone4s_json = true
  /\ 10 <= Js.length (identifier iphone4s_json)
  /\ tag iphone4s_json = "ios-simulator," +:+ destination iphone4s_json
  /\ (exists line,
        line ∈ ["== Device Types =="; "== Devices =="; "-- iOS 9.1 --"; iphone4s_line]
        /\ isHeader line = false
        /\ createDevice (OS iphone4s_json) line = Return iphone4s_json)
  /\ (exists hdr,
        hdr ∈ ["== Device Types =="; "== Devices =="; "-- iOS 9.1 --"; iphone4s_line]
        /\ nextValueAsOSLevel [hdr] 0%nat = Return (OS iphone4s_json, 1%nat)).
Proof.
  apply (X8_parsed_device_invariant
           ["== Device Types =="; "== Devices =="; "-- iOS 9.1 --"; iphone4s_line]
           [iphone4s_json]); [vm_compute; reflexivity | left].
Defined.

Lemma scan_view_throw (ls : list string) :
  forall cur results msg,
    scan_view cur results ls = Throw msg ->
    (cur = None /\ exists l rest, ls = l :: rest /\ isHeader l = false
       /\ msg = "expected oslevel prefix of " +:+ dquote +:+ "--" +:+ dquote
                +:+ " in:" +:+ l)
    \/ (exists oslevel line, line ∈ ls /\ isHeader line = false
          /\ Js.indexOf line "unavailable" = -1
          /\ createDevice oslevel line = Throw msg).
Proof.
  induction ls as [|l ls IH]; intros cur results msg; [discriminate |].
  assert (Hrest : forall oslevel results1,
    scan_view (Some oslevel) results1 ls = Throw msg ->
    exists oslevel line, line ∈ l :: ls /\ isHeader line = false
      /\ Js.indexOf line "unavailable" = -1
      /\ createDevice oslevel line = Throw msg).
  { intros os results1 H.
    destruct (IH _ _ _ H) as [[E _] | (os' & line & Hin & Hh & Hun & Hc)]; [discriminate E |].
    exists os', line. split; [right; exact Hin | repeat split; assumption]. }
  scan_first cur l Hh.
  - destruct (Js.indexOf l "==" =? 0) eqn:Heq; [discriminate |].
    destruct (isHeader_cases l Hh) as [Hdash | Hq]; [| congruence].
    unfold osLevelOf. rewrite Hdash. cbn [negb].
    intros H. right. exact (Hrest _ _ H).
  - destruct (Z.eqb_spec (Js.indexOf l "unavailable") (-1)) as [Hun | _].
    + destruct (createDevice oslevel l) as [device | m |] eqn:Hc; [| | discriminate].
      * intros H. right. exact (Hrest _ _ H).
      * intros [= ->]. right. exists oslevel, l.
        split; [left | repeat split; assumption].
    + intros H. right. exact (Hrest _ _ H).
  - destruct (Js.indexOf l "==" =? 0) eqn:Heq; [discriminate |].
    unfold osLevelOf. destruct (Js.indexOf l "--" =? 0) eqn:Hdash; cbn [negb].
    + intros H. right. exact (Hrest _ _ H).
    + intros [= <-]. left. split; [reflexivity |]. exists l, ls.
      split; [reflexivity |]. split; [| reflexivity].
      rewrite isHeader_prefix_tests, Hdash, Heq. reflexivity.
Qed.

Lemma parser_errors (lines : list string) (msg : string) :
  getSimulatedDevicesFromLines lines = Throw msg ->
  msg = "unexpected end while advancingTillMatch:== Device Types =="
  \/ msg = "unexpected end while advancingTillMatch:== Devices =="
  \/ (exists l, l ∈ lines /\ isHeader l = false
        /\ msg = "expected oslevel prefix of " +:+ dquote +:+ "--" +:+ dquote
                 +:+ " in:" +:+ l)
  \/ (exists oslevel line, line ∈ lines /\ isHeader line = false
        /\ Js.indexOf line "unavailable" = -1 /\ malformed line
        /\ (msg = "createDevice: could not find open paren in: "
                  +:+ oslevel +:+ ":" +:+ line
            \/ msg = "createDevice: could not find close paren in: "
                     +:+ oslevel +:+ ":" +:+ line
            \/ msg = "createDevice: could not find valid identifier in:"
                     +:+ oslevel +:+ ":" +:+ line)).
Proof.
  rewrite getSimulatedDevicesFromLines_view. unfold parse_view, parse_view_rem.
  destruct (advance_view "== Device Types ==" lines) as [rem1 |] eqn:H1;
    [| intros [= <-]; left; reflexivity].
  destruct (advance_view "== Devices ==" rem1) as [rem2 |] eqn:H2;
    [| intros [= <-]; right; left; reflexivity].
  assert (Hsub : forall x, x ∈ rem2 -> x ∈ lines).
  { apply advance_view_suffix in H1. apply advance_view_suffix in H2.
    destruct H1 as [k1 ->]. destruct H2 as [k2 ->]. intros x Hx.
    apply elem_of_app. right. apply elem_of_app. right. exact Hx. }
  destruct (scan_view None [] rem2) as [[results rem] | m |] eqn:Hs;
    [discriminate | | discriminate].
  intros [= <-]. right. right.
  destruct (scan_view_throw _ _ _ _ Hs)
    as [(_ & l & rest & -> & Hh & ->) | (os & line & Hin & Hh & Hun & Hc)].
  - left. exists l. split; [apply Hsub; left | split; [exact Hh | reflexivity]].
  - right. exists os, line. split; [apply Hsub; exact Hin |].
    split; [exact Hh |]. split; [exact Hun |].
    split; [| exact (createDevice_throw_inv os line m Hun Hc)].
    destruct (createDevice_throw_malformed os line m Hc) as [H | H];
      [contradiction | exact H].
Qed.

(** X9: the errors of the parser.  When [getSimulatedDevicesFromLines]
    throws, the message is one of the two end-of-stream messages of the
    header searches, or [expected oslevel prefix ...] followed by a line of
    the listing that is no header, or one of the three messages of
    [createDevice] about a line of the listing that is no header, does not
    contain [unavailable] and is malformed. *)
Theorem X9_parser_errors (lines : list string) (msg : string) :
  getSimulatedDevicesFromLines lines = Throw msg ->
  msg = "unexpected end while advancingTillMatch:== Device Types =="
  \/ msg = "unexpected end while advancingTillMatch:== Devices =="
  \/ (exists l, l ∈ lines /\ isHeader l = false
        /\ msg = "expected oslevel prefix of " +:+ dquote +:+ "--" +:+ dquote
                 +:+ " in:" +:+ l)
  \/ (exists oslevel line, line ∈ lines /\ isHeader line = false
        /\ Js.indexOf line "unavailable" = -1 /\ malformed line
        /\ (msg = "createDevice: could not find open paren in: "
                  +:+ oslevel +:+ ":" +:+ line
            \/ msg = "createDevice: could not find close paren in: "
                     +:+ oslevel +:+ ":" +:+ line
            \/ msg = "createDevice: could not find valid identifier in:"
                     +:+ oslevel +:+ ":" +:+ line)).
Proof. exact (parser_errors lines msg). Qed.

Lemma X9_parser_errors_witness :
  "createDevice: could not find close paren in: iOS 9.1:" +:+ unclosed_line
  = "unexpected end while advancingTillMatch:== Device Types =="
  \/ "createDevice: could not find close paren in: iOS 9.1:" +:+ unclosed_line
     = "unexpected end while advancingTillMatch:== Devices =="
  \/ (exists l,
        l ∈ ["== Device Types =="; "== Devices =="; "-- iOS 9.1 --"; unclosed_line]
        /\ isHeader l = false
        /\ "createDevice: could not find close paren in: iOS 9.1:" +:+ unclosed_line
           = "expected oslevel prefix of " +:+ dquote +:+ "--" +:+ dquote +:+ " in:" +:+ l)
  \/ (exists oslevel line,
        line ∈ ["== Device Types =="; "== Devices =="; "-- iOS 9.1 --"; unclosed_line]
        /\ isHeader line = false
        /\ Js.indexOf line "unavailable" = -1 /\ malformed line
        /\ ("createDevice: could not find close paren in: iOS 9.1:" +:+ unclosed_line
            = "createDevice: could not find open paren in: " +:+ oslevel +:+ ":" +:+ line
            \/ "createDevice: could not find close paren in: iOS 9.1:" +:+ unclosed_line
               = "createDevice: could not find close paren in: " +:+ oslevel +:+ ":" +:+ line
            \/ "createDevice: could not find close paren in: iOS 9.1:" +:+ unclosed_line
               = "createDevice: could not find valid identifier in:"
                 +:+ oslevel +:+ ":" +:+ line)).
Proof.
  apply (X9_parser_errors
           ["== Device Types =="; "== Devices =="; "-- iOS 9.1 --"; unclosed_line]).
  vm_compute. reflexivity.
Defined.

Lemma message_neq_fed (oslevel line oslevel' line' msg : string) :
  msg = "createDevice: could not find open paren in: " +:+ oslevel +:+ ":" +:+ line
  \/ msg = "createDevice: could not find close paren in: " +:+ oslevel +:+ ":" +:+ line
  \/ msg = "createDevice: could not find valid identifier in:" +:+ oslevel +:+ ":" +:+ line ->
  msg <> "createDevice-fed an unavailable device:" +:+ oslevel' +:+ ":" +:+ line'
  /\ msg <> "unexpected end during nextValue()"
  /\ msg <> "TypeError: Cannot read property of undefined".
Proof.
  intros [-> | [-> | ->]]; repeat split; intros H; cbn in H; discriminate H.
Qed.

(** X10: error paths that the parser never takes.  Whatever the listing,
    [getSimulatedDevicesFromLines] throws neither the error of
    [createDevice] about an unavailable device (the lines that contain
    [unavailable] are filtered before), nor the end-of-stream error of
    [nextValue] (each call is guarded by a look-ahead), nor the error of
    calling a method on the [undefined] that [peek] returns at the end of
    the lines. *)
Theorem X10_dead_error_paths (lines : list string) :
  (forall oslevel line : string,
      getSimulatedDevicesFromLines lines
      <> Throw ("createDevice-fed an unavailable device:" +:+ oslevel +:+ ":" +:+ line))
  /\ getSimulatedDevicesFromLines lines <> Throw "unexpected end during nextValue()"
  /\ getSimulatedDevicesFromLines lines
     <> Throw "TypeError: Cannot read property of undefined".
Proof.
  assert (H : forall msg, getSimulatedDevicesFromLines lines = Throw msg ->
    (forall oslevel line,
        msg <> "createDevice-fed an unavailable device:" +:+ oslevel +:+ ":" +:+ line)
    /\ msg <> "unexpected end during nextValue()"
    /\ msg <> "TypeError: Cannot read property of undefined").
  { intros msg Hmsg.
    destruct (parser_errors lines msg Hmsg)
      as [-> | [-> | [(l & _ & _ & ->) | (os & line & _ & _ & _ & _ & Hkind)]]].
    - repeat split; [intros os line H | intros H | intros H]; cbn in H; discriminate H.
    - repeat split; [intros os line H | intros H | intros H]; cbn in H; discriminate H.
    - repeat split; [intros os line H | intros H | intros H]; cbn in H; discriminate H.
    - split; [intros os' line' | ];
        destruct (message_neq_fed os line "" "" msg Hkind) as (_ & H2 & H3);
        [exact (proj1 (message_neq_fed os line os' line' msg Hkind)) | split; assumption]. }
  split; [| split].
  - intros os line E. exact (proj1 (H _ E) os line eq_refl).
  - intros E. exact (proj1 (proj2 (H _ E)) eq_refl).
  - intros E. exact (proj2 (proj2 (H _ E)) eq_refl).
Qed.

(** ** The methods of the line stream *)

(** X11: at the end of the lines.  With the cursor at or past the last
    line, [hasMore], [peekIsHeader] and [peekHasNextLineEntry] answer
    [false], [next] answers [done] any number of times, and none of them
    moves the cursor; [nextValue] and [nextValueAsOSLevel] throw
    [unexpected end during nextValue()], [advanceTillMatch] throws its
    end-of-stream error, and [peekIsDoubleEquals], which does not test
    [hasMore], throws on the [undefined] line. *)
Theorem X11_stream_at_end (lines : list string) (c : nat) :
  (length lines <= c)%nat ->
  hasMore lines c = Return (false, c)
  /\ next lines c = Return ({| value := None; done := true |}, c)
  /\ peek lines c = Return (None, c)
  /\ peekIsHeader lines c = Return (false, c)
  /\ peekHasNextLineEntry lines c = Return (false, c)
  /\ nextValue lines c = Throw "unexpected end during nextValue()"
  /\ nextValueAsOSLevel lines c = Throw "unexpected end during nextValue()"
  /\ (forall line, advanceTillMatch lines line c
                   = Throw ("unexpected end while advancingTillMatch:" +:+ line))
  /\ (exists msg, peekIsDoubleEquals lines c = Throw msg).
Proof.
  intros Hc. assert (Hl : lines !! c = None) by (apply lookup_ge_None; exact Hc).
  split; [exact (hasMore_none lines c Hl) |].
  split; [exact (next_none lines c Hl) |].
  split; [unfold peek; rewrite Hl; reflexivity |].
  split; [unfold peekIsHeader, bind; rewrite (hasMore_none lines c Hl); reflexivity |].
  split; [exact (peekHasNextLineEntry_none lines c Hl) |].
  split; [exact (nextValue_none lines c Hl) |].
  split; [unfold nextValueAsOSLevel, bind; rewrite (nextValue_none lines c Hl); reflexivity |].
  split.
  - intros line. unfold advanceTillMatch, advanceTillMatch_fuel, bind.
    rewrite (advanceTillMatch_loop_none lines _ c line Hl). reflexivity.
  - unfold peekIsDoubleEquals, bind, peek. rewrite Hl. cbn. eauto.
Qed.

Lemma X11_stream_at_end_witness :
  hasMore ["== Devices =="] 1%nat = Return (false, 1%nat)
  /\ next ["== Devices =="] 1%nat = Return ({| value := None; done := true |}, 1%nat)
  /\ peek ["== Devices =="] 1%nat = Return (None, 1%nat)
  /\ peekIsHeader ["== Devices =="] 1%nat = Return (false, 1%nat)
  /\ peekHasNextLineEntry ["== Devices =="] 1%nat = Return (false, 1%nat)
  /\ nextValue ["== Devices =="] 1%nat = Throw "unexpected end during nextValue()"
  /\ nextValueAsOSLevel ["== Devices =="] 1%nat = Throw "unexpected end during nextValue()"
  /\ (forall line, advanceTillMatch ["== Devices =="] line 1%nat
                   = Throw ("unexpected end while advancingTillMatch:" +:+ line))
  /\ (exists msg, peekIsDoubleEquals ["== Devices =="] 1%nat = Throw msg).
Proof. apply (X11_stream_at_end ["== Devices =="] 1%nat). simpl. lia. Defined.

(** X12: look-ahead does not consume.  Whatever the cursor, [hasMore],
    [peek], [peekIsHeader], [peekIsDoubleEquals] and [peekHasNextLineEntry]
    leave it where it is when they return; [nextValue] and
    [nextValueAsOSLevel] return only with a line under the cursor and move
    it by exactly one; and [peekHasNextLineEntry] answers [true] exactly
    when there is a line under the cursor that starts neither with [--]
    nor with [==]. *)
Theorem X12_lookahead_does_not_consume (lines : list string) (c : nat) :
  (forall b c', hasMore lines c = Return (b, c') -> c' = c)
  /\ (forall v c', peek lines c = Return (v, c') -> c' = c)
  /\ (forall b c', peekIsHeader lines c = Return (b, c') -> c' = c)
  /\ (forall b c', peekIsDoubleEquals lines c = Return (b, c') -> c' = c)
  /\ (forall b c', peekHasNextLineEntry lines c = Return (b, c') -> c' = c)
  /\ (forall v c', nextValue lines c = Return (v, c') ->
        c' = S c /\ v = lines !! c /\ (c < length lines)%nat)
  /\ (forall os c', nextValueAsOSLevel lines c = Return (os, c') ->
        c' = S c /\ (c < length lines)%nat)
  /\ (peekHasNextLineEntry lines c = Return (true, c) <->
      exists l, lines !! c = Some l
        /\ String.prefix "--" l = false /\ String.prefix "==" l = false).
Proof.
  destruct (lines !! c) as [l |] eqn:Hl.
  - pose proof (lookup_lt_Some _ _ _ Hl) as Hlt.
    rewrite (hasMore_some lines c l Hl), (peekIsDoubleEquals_some lines c l Hl),
      (peekHasNextLineEntry_some lines c l Hl), (nextValue_some lines c l Hl),
      (nextValueAsOSLevel_some lines c l Hl).
    assert (Hpeek : peek lines c = Return (Some l, c)) by (unfold peek; rewrite Hl; reflexivity).
    assert (HpeekH : peekIsHeader lines c = Return (isHeader l, c)).
    { unfold peekIsHeader, bind. rewrite (hasMore_some lines c l Hl). cbv beta iota.
      rewrite Hpeek. reflexivity. }
    rewrite Hpeek, HpeekH.
    repeat split; try (intros ? ? [= _ <-]; reflexivity).
    + injection H as _ <-. reflexivity.
    + injection H as <- _. reflexivity.
    + exact Hlt.
    + unfold lift in H. destruct (osLevelOf l); [| discriminate | discriminate].
      injection H as _ <-. reflexivity.
    + exact Hlt.
    + intros [= Hh]. exists l. split; [reflexivity |].
      apply negb_true_iff in Hh. rewrite isHeader_prefix_tests in Hh.
      apply orb_false_iff in Hh. rewrite !indexOf_zero_prefix in Hh. exact Hh.
    + intros (l' & [= <-] & Hd & He). f_equal. f_equal.
      apply negb_true_iff. rewrite isHeader_prefix_tests, !indexOf_zero_prefix, Hd, He.
      reflexivity.
  - rewrite (hasMore_none lines c Hl), (peekHasNextLineEntry_none lines c Hl),
      (nextValue_none lines c Hl).
    assert (Hpeek : peek lines c = Return (None, c)) by (unfold peek; rewrite Hl; reflexivity).
    assert (HpeekH : peekIsHeader lines c = Return (false, c))
      by (unfold peekIsHeader, bind; rewrite (hasMore_none lines c Hl); reflexivity).
    assert (HpeekE : peekIsDoubleEquals lines c
                     = Throw "TypeError: Cannot read property of undefined")
      by (unfold peekIsDoubleEquals, bind; rewrite Hpeek; reflexivity).
    assert (Hos : nextValueAsOSLevel lines c = Throw "unexpected end during nextValue()")
      by (unfold nextValueAsOSLevel, bind; rewrite (nextValue_none lines c Hl); reflexivity).
    rewrite Hpeek, HpeekH, HpeekE, Hos.
    repeat split; try (intros ? ? [= _ <-]; reflexivity); try discriminate.
    intros (l & E & _). discriminate E.
Qed.

Lemma X12_lookahead_does_not_consume_witness :
  peekHasNextLineEntry ["-- iOS 9.1 --"; iphone4s_line] 1%nat = Return (true, 1%nat).
Proof.
  apply (X12_lookahead_does_not_consume ["-- iOS 9.1 --"; iphone4s_line] 1%nat).
  exists iphone4s_line. split; [reflexivity | split; reflexivity].
Defined.

(** ** OS-level headers *)

Lemma substring_app_l (a b : string) :
  String.substring 0 (String.length a) (a +:+ b) = a.
Proof.
  induction a as [|c a IH]; [destruct b; reflexivity |].
  change (String c a +:+ b) with (String c (a +:+ b)). cbn. rewrite IH. reflexivity.
Qed.

Lemma prefix_head_ne (a c : ascii) (p s : string) :
  a <> c -> String.prefix (String a p) (String c s) = false.
Proof.
  intros Hne. simpl. destruct (ascii_dec a c) as [E | _]; [contradiction | reflexivity].
Qed.

Lemma scan_two_dashes (rest label : string) :
  Js.indexOf label "-" = -1 ->
  forall pos, Js.scan "--" (label +:+ "--" +:+ rest) pos = pos + Js.length label.
Proof.
  rewrite indexOf_unfold. induction label as [|c label IH]; intros Hno pos.
  - change ("" +:+ "--" +:+ rest) with (String "-" (String "-" rest)).
    rewrite scan_cons. change (Js.length "") with 0.
    replace (String.prefix "--" (String "-" (String "-" rest))) with true
      by (cbn; destruct rest; reflexivity).
    lia.
  - rewrite scan_cons, prefix_char in Hno.
    case_bool_decide as Hc; [lia |].
    apply (scan_none_shift _ _ _ 0) in Hno; [| lia | lia].
    change (String c label +:+ "--" +:+ rest) with (String c (label +:+ "--" +:+ rest)).
    rewrite scan_cons.
    replace (String.prefix "--" (String c (label +:+ "--" +:+ rest))) with false.
    + rewrite (IH Hno), length_String. lia.
    + symmetry. apply prefix_head_ne. exact Hc.
Qed.

(** X13: an OS-level header with closing dashes.  For a line made of
    [--], a label without any dash, [--] and anything after,
    [nextValueAsOSLevel] returns the label, trimmed, and moves the cursor by
    one. *)
Theorem X13_oslevel_of_terminated_header (lines : list string) (c : nat)
    (label rest : string) :
  lines !! c = Some ("--" +:+ label +:+ "--" +:+ rest) ->
  Js.indexOf label "-" = -1 ->
  nextValueAsOSLevel lines c = Return (Js.trim label, S c).
Proof.
  intros Hl Hno. rewrite (nextValueAsOSLevel_some lines c _ Hl). unfold lift, osLevelOf.
  set (tail := label +:+ "--" +:+ rest).
  change ("--" +:+ tail) with (String "-" (String "-" tail)).
  replace (Js.indexOf (String "-" (String "-" tail)) "--" =? 0) with true
    by (rewrite indexOf_zero_prefix; cbn; destruct tail; reflexivity).
  cbn [negb].
  assert (Hlen : Js.length tail = Js.length label + 2 + Js.length rest).
  { unfold tail. rewrite !length_append. change (Js.length "--") with 2. lia. }
  pose proof (length_nonneg label) as Hlabel. pose proof (length_nonneg rest) as Hrest.
  assert (Hend : Js.indexOfFrom (String "-" (String "-" tail)) "--" 2 = 2 + Js.length label).
  { unfold Js.indexOfFrom. rewrite !length_String.
    replace (Z.min (Z.max 2 0) (1 + (1 + Js.length tail))) with 2 by lia.
    change (Z.to_nat 2) with 2%nat. cbn [Js.drop].
    unfold tail. apply scan_two_dashes. exact Hno. }
  rewrite Hend. do 2 f_equal.
  unfold Js.slice, Js.clampIndex. rewrite !length_String.
  destruct (Z.ltb_spec 2 0) as [? | _]; [lia |].
  destruct (Z.ltb_spec (2 + Js.length label) 0) as [? | _]; [lia |].
  replace (Z.min 2 (1 + (1 + Js.length tail))) with 2 by lia.
  replace (Z.min (2 + Js.length label) (1 + (1 + Js.length tail)))
    with (2 + Js.length label) by lia.
  destruct (Z.ltb_spec 2 (2 + Js.length label)) as [Hpos | Hzero].
  - replace (Z.to_nat (2 + Js.length label - 2)) with (String.length label)
      by (unfold Js.length; lia).
    change (Z.to_nat 2) with 2%nat. cbn [String.substring].
    unfold tail. rewrite substring_app_l. reflexivity.
  - destruct label; [reflexivity |]. rewrite length_String in Hzero.
    pose proof (length_nonneg label). lia.
Qed.

Lemma X13_oslevel_of_terminated_header_witness :
  nextValueAsOSLevel ["== Devices =="; "--" +:+ " iOS 9.1 " +:+ "--" +:+ " (beta)"] 1%nat
  = Return (Js.trim " iOS 9.1 ", 2%nat).
Proof.
  apply (X13_oslevel_of_terminated_header
           ["== Devices =="; "--" +:+ " iOS 9.1 " +:+ "--" +:+ " (beta)"] 1%nat
           " iOS 9.1 " " (beta)"); [reflexivity | vm_compute; reflexivity].
Defined.

(** ** The identifier check of [createDevice] *)

Lemma scan_upper (pat s : string) :
  forall pos, 0 <= pos -> Js.scan pat s pos <= pos + Js.length s.
Proof.
  induction s as [|c s IH]; intros pos Hpos.
  - rewrite scan_nil. change (Js.length "") with 0.
    destruct (String.prefix pat ""); lia.
  - rewrite scan_cons, length_String. pose proof (length_nonneg s).
    destruct (String.prefix pat (String c s)); [lia |].
    specialize (IH (pos + 1) ltac:(lia)). lia.
Qed.

Lemma indexOf_bounds (s pat : string) :
  Js.indexOf s pat <> -1 -> 0 <= Js.indexOf s pat <= Js.length s.
Proof.
  rewrite indexOf_unfold. intros H.
  pose proof (scan_upper pat s 0 ltac:(lia)). destruct (scan_range pat s 0); lia.
Qed.

Lemma substring_length (s : string) :
  forall n m, (n + m <= String.length s)%nat ->
    String.length (String.substring n m s) = m.
Proof.
  induction s as [|c s IH]; intros n m H.
  - cbn in H. assert (n = 0%nat) as -> by lia. assert (m = 0%nat) as -> by lia.
    reflexivity.
  - destruct n as [|n].
    + destruct m as [|m]; [reflexivity |]. cbn in H. cbn. rewrite IH by lia. reflexivity.
    + cbn in H. cbn. apply IH. lia.
Qed.

(** The length of [s.slice(a, b)] for indices inside the string. *)
Lemma slice_length (s : string) (a b : Z) :
  0 <= a -> 0 <= b <= Js.length s ->
  Js.length (Js.slice s a b) = Z.max 0 (b - a).
Proof.
  intros Ha Hb. unfold Js.slice, Js.clampIndex.
  destruct (Z.ltb_spec a 0) as [? | _]; [lia |].
  destruct (Z.ltb_spec b 0) as [? | _]; [lia |].
  replace (Z.min b (Js.length s)) with b by lia.
  destruct (Z.ltb_spec (Z.min a (Js.length s)) b) as [Hlt | Hge].
  - replace (Z.min a (Js.length s)) with a in * by lia.
    unfold Js.length at 1. rewrite substring_length by (unfold Js.length in *; lia).
    lia.
  - change (Js.length "") with 0. lia.
Qed.

(** X14: the identifier check by positions.  For a line without
    [unavailable] in which both parentheses occur, the identifier has
    [close - open - 1] characters when the first [)] stands after the first
    [(]; [createDevice] returns exactly when the first [)] stands at least
    11 positions after the first [(], and throws [could not find valid
    identifier] otherwise, in particular when the [)] comes first. *)
Theorem X14_identifier_by_positions (oslevel line : string) :
  Js.indexOf line "unavailable" = -1 ->
  Js.indexOf line "(" <> -1 ->
  Js.indexOf line ")" <> -1 ->
  (Js.indexOf line ")" < Js.indexOf line "(" + 11 ->
     createDevice oslevel line
     = Throw ("createDevice: could not find valid identifier in:"
              +:+ oslevel +:+ ":" +:+ line))
  /\ (Js.indexOf line "(" + 11 <= Js.indexOf line ")" ->
     exists d, createDevice oslevel line = Return d
       /\ Js.length (identifier d) = Js.indexOf line ")" - Js.indexOf line "(" - 1).
Proof.
  intros Hun Hopen Hclose.
  pose proof (indexOf_bounds line "(" Hopen) as Ho.
  pose proof (indexOf_bounds line ")" Hclose) as Hc.
  pose proof (slice_length line (Js.indexOf line "(" + 1) (Js.indexOf line ")")
                ltac:(lia) Hc) as Hlen.
  unfold createDevice. rewrite Hun. cbn [Z.eqb negb].
  destruct (Z.eqb_spec (Js.indexOf line "(") (-1)) as [? | _]; [contradiction |].
  destruct (Z.eqb_spec (Js.indexOf line ")") (-1)) as [? | _]; [contradiction |].
  split; intros Hpos.
  - destruct (Z.ltb_spec
      (Js.length (Js.slice line (Js.indexOf line "(" + 1) (Js.indexOf line ")"))) 10)
      as [_ | Hge]; [reflexivity | lia].
  - destruct (Z.ltb_spec
      (Js.length (Js.slice line (Js.indexOf line "(" + 1) (Js.indexOf line ")"))) 10)
      as [Hlt | _]; [lia |].
    eexists. split; [reflexivity |]. cbn [identifier]. lia.
Qed.

Lemma X14_identifier_by_positions_witness :
  createDevice "iOS 9.1" ") iPhone 4s (05686243-BA24-44CE-94D9-D6823BF96E46"
  = Throw ("createDevice: could not find valid identifier in:" +:+ "iOS 9.1" +:+ ":"
           +:+ ") iPhone 4s (05686243-BA24-44CE-94D9-D6823BF96E46")
  /\ exists d, createDevice "iOS 9.1" iphone4s_line = Return d
       /\ Js.length (identifier d)
          = Js.indexOf iphone4s_line ")" - Js.indexOf iphone4s_line "(" - 1.
Proof.
  split.
  - apply (X14_identifier_by_positions "iOS 9.1"
             ") iPhone 4s (05686243-BA24-44CE-94D9-D6823BF96E46");
      [vm_compute; reflexivity | vm_compute; discriminate | vm_compute; discriminate
      | vm_compute; reflexivity].
  - apply (X14_identifier_by_positions "iOS 9.1" iphone4s_line);
      [vm_compute; reflexivity | vm_compute; discriminate | vm_compute; discriminate
      | vm_compute; discriminate].
Defined.

(** ** The registry: the map and the list *)

Lemma register_sound (self : DeviceManager) (json : DeviceJson) :
  (forall t d, devicesByTag self !! t = Some d -> d ∈ devices self /\ Device.tag d = t) ->
  forall t d, devicesByTag (register self json) !! t = Some d ->
    d ∈ devices (register self json) /\ Device.tag d = t.
Proof.
  intros Hself t d. unfold register. cbn [devicesByTag devices].
  destruct (decide (Device.tag (Device.new json) = t)) as [<- | Hne].
  - rewrite lookup_insert_eq. intros [= <-].
    split; [apply elem_of_app; right; left | reflexivity].
  - rewrite lookup_insert_ne by exact Hne. intros H.
    destruct (Hself t d H) as [Hin Htag].
    split; [apply elem_of_app; left; exact Hin | exact Htag].
Qed.

Lemma registered_sound (l : list DeviceJson) :
  forall self,
    (forall t d, devicesByTag self !! t = Some d -> d ∈ devices self /\ Device.tag d = t) ->
    forall t d, devicesByTag (foldl register self l) !! t = Some d ->
      d ∈ devices (foldl register self l) /\ Device.tag d = t.
Proof.
  induction l as [|json l IH]; intros self Hself; [exact Hself |].
  cbn [foldl]. apply IH. apply register_sound. exact Hself.
Qed.

Lemma registered_size_nodup (l : list DeviceJson) :
  forall self,
    NoDup (tag <$> l) ->
    (forall json, json ∈ l -> devicesByTag self !! tag json = None) ->
    size (devicesByTag (foldl register self l))
    = (size (devicesByTag self) + length l)%nat.
Proof.
  induction l as [|json l IH]; intros self Hnodup Hfresh; cbn [foldl length]; [lia |].
  rewrite fmap_cons in Hnodup. apply NoDup_cons in Hnodup. destruct Hnodup as [Hnotin Hnodup].
  rewrite IH; [| exact Hnodup |].
  - unfold register. cbn [devicesByTag]. rewrite Device_new_tag.
    rewrite map_size_insert_None by (apply Hfresh; left). lia.
  - intros x Hx. rewrite register_lookup_ne; [apply Hfresh; right; exact Hx |].
    intros E. apply Hnotin. rewrite E. apply list_elem_of_fmap. exists x.
    split; [reflexivity | exact Hx].
Qed.

(** X16: the map and the list of a registry agree.  Every device that
    [findByTag] returns is in [devices] and carries the tag asked for; and
    for every device in [devices], [findByTag] on its tag returns a device
    with that tag. *)
Theorem X16_findByTag_and_devices (config_devices : option (list DeviceJson))
    (simctlData : string) (simulatedDevices : list DeviceJson) (manager : DeviceManager) :
  getSimulatedDevices simctlData = Return simulatedDevices ->
  newDeviceManager config_devices (Return simctlData) = Return manager ->
  (forall (t : string) (d : Device.t),
      findByTag manager t = Some d -> d ∈ devices manager /\ Device.tag d = t)
  /\ (forall d : Device.t,
      d ∈ devices manager ->
      exists d', findByTag manager (Device.tag d) = Some d'
        /\ d' ∈ devices manager /\ Device.tag d' = Device.tag d).
Proof.
  intros Hsim Hnew. rewrite (newDeviceManager_built _ _ _ _ Hsim Hnew).
  set (allDevices := default [] config_devices ++ simulatedDevices).
  assert (Hsound : forall t d,
    findByTag (foldl register {| devicesByTag := ∅; devices := [] |} allDevices) t = Some d ->
    d ∈ devices (foldl register {| devicesByTag := ∅; devices := [] |} allDevices)
    /\ Device.tag d = t).
  { intros t d H. apply registered_sound.
    - intros t' d' E. cbn [devicesByTag] in E. rewrite lookup_empty in E. discriminate E.
    - unfold findByTag in H. destruct (devicesByTag _ !! t); [exact H | discriminate H]. }
  split; [exact Hsound |].
  intros d Hd. rewrite registered_devices in Hd. cbn [devices app] in Hd.
  apply list_elem_of_fmap in Hd. destruct Hd as (json & -> & Hjson).
  rewrite Device_new_tag.
  destruct (registered_lookup_is_Some {| devicesByTag := ∅; devices := [] |}
              allDevices json Hjson) as [d' Hd'].
  exists d'. assert (Hfind :
    findByTag (foldl register {| devicesByTag := ∅; devices := [] |} allDevices) (tag json)
    = Some d') by (unfold findByTag; rewrite Hd'; reflexivity).
  split; [exact Hfind | exact (Hsound _ _ Hfind)].
Qed.

Lemma X16_findByTag_and_devices_witness :
  Device.new iphone4s_json ∈ devices sample_manager
  /\ Device.tag (Device.new iphone4s_json) = "ios-simulator,OS=9.1,name=iPhone 4s".
Proof.
  apply (X16_findByTag_and_devices (Some [configured_json]) listing_no_trailing_newline
           [iphone4s_json] sample_manager);
    [vm_compute; reflexivity | vm_compute; reflexivity | vm_compute; reflexivity].
Defined.

(** X17: a registry without shared tags.  When the configured and the
    discovered descriptors carry pairwise different tags, [findByTag] on
    the tag of any of them returns the device made from that descriptor,
    and the map has as many keys as the list has devices. *)
Theorem X17_distinct_tags (config_devices : option (list DeviceJson))
    (simctlData : string) (simulatedDevices : list DeviceJson) (manager : DeviceManager) :
  getSimulatedDevices simctlData = Return simulatedDevices ->
  newDeviceManager config_devices (Return simctlData) = Return manager ->
  NoDup (tag <$> (default [] config_devices ++ simulatedDevices)) ->
  (forall json, json ∈ default [] config_devices ++ simulatedDevices ->
     findByTag manager (tag json) = Some (Device.new json))
  /\ size (devicesByTag manager) = length (devices manager).
Proof.
  intros Hsim Hnew Hnodup. rewrite (newDeviceManager_built _ _ _ _ Hsim Hnew).
  set (allDevices := default [] config_devices ++ simulatedDevices) in *.
  split.
  - intros json Hin. destruct (list_elem_of_split _ _ Hin) as (before & after & Hsplit).
    rewrite Hsplit in Hnodup. rewrite fmap_app, fmap_cons in Hnodup.
    apply NoDup_app in Hnodup. destruct Hnodup as (_ & _ & Hnodup).
    apply NoDup_cons in Hnodup. destruct Hnodup as [Hnotin _].
    unfold findByTag. rewrite Hsplit. rewrite registered_lookup_last; [reflexivity |].
    intros x Hx E. apply Hnotin. rewrite <- E. apply list_elem_of_fmap.
    exists x. split; [reflexivity | exact Hx].
  - rewrite registered_size_nodup; [| exact Hnodup |].
    + rewrite registered_devices. cbn [devicesByTag devices app].
      rewrite map_size_empty, length_fmap. reflexivity.
    + intros json _. cbn [devicesByTag]. apply lookup_empty.
Qed.

Lemma X17_distinct_tags_witness :
  findByTag distinct_manager (tag nexus_json) = Some (Device.new nexus_json)
  /\ findByTag distinct_manager (tag iphone4s_json) = Some (Device.new iphone4s_json)
  /\ findByTag distinct_manager (tag iphone5_json) = Some (Device.new iphone5_json)
  /\ size (devicesByTag distinct_manager) = length (devices distinct_manager).
Proof.
  destruct (X17_distinct_tags (Some [nexus_json]) listing_two_devices
              [iphone4s_json; iphone5_json] distinct_manager)
    as [Hfind Hsize];
    [vm_compute; reflexivity | vm_compute; reflexivity | | ].
  - apply (bool_decide_unpack _). vm_compute. reflexivity.
  - split; [apply Hfind; left |].
    split; [apply Hfind; right; left |].
    split; [apply Hfind; right; right; left | exact Hsize].
Defined.

(** X18: no registry without a listing.  Whatever the configured devices,
    the constructor throws what [getSimctlData] throws and what the parser
    throws; in particular it throws the end-of-stream error of the first
    header search when no line of the text starts with
    [== Device Types ==], as for an empty text; it returns a registry
    exactly when the text parses. *)
Theorem X18_no_registry_without_listing (config_devices : option (list DeviceJson)) :
  (forall msg, newDeviceManager config_devices (Throw msg) = Throw msg)
  /\ (forall simctlData msg,
        getSimulatedDevices simctlData = Throw msg ->
        newDeviceManager config_devices (Return simctlData) = Throw msg)
  /\ (forall simctlData,
        Forall (fun v => String.prefix "== Device Types ==" v = false)
          (Js.split simctlData newline) ->
        newDeviceManager config_devices (Return simctlData)
        = Throw "unexpected end while advancingTillMatch:== Device Types ==")
  /\ (forall simctlData,
        (exists manager, newDeviceManager config_devices (Return simctlData) = Return manager)
        <-> (exists ds, getSimulatedDevices simctlData = Return ds)).
Proof.
  split; [reflexivity |]. split; [| split].
  - intros s msg H. unfold newDeviceManager. rewrite H. reflexivity.
  - intros s H. unfold newDeviceManager, getSimulatedDevices.
    rewrite getSimulatedDevicesFromLines_view. unfold parse_view, parse_view_rem.
    rewrite advance_view_none by exact H. reflexivity.
  - intros s. unfold newDeviceManager.
    destruct (getSimulatedDevices s) as [ds | msg |]; split.
    + intros _. eauto.
    + intros _. eauto.
    + intros [m H]. discriminate H.
    + intros [ds H]. discriminate H.
    + intros [m H]. discriminate H.
    + intros [ds H]. discriminate H.
Qed.

Lemma X18_no_registry_without_listing_witness :
  newDeviceManager (Some [configured_json]) (Return "")
  = Throw "unexpected end while advancingTillMatch:== Device Types ==".
Proof.
  apply (X18_no_registry_without_listing (Some [configured_json])).
  repeat constructor.
Defined.

(** ** The checkout task, whatever the command runner does *)

Lemma trimEnd_line (s : string) :
  Forall (fun c => Js.isWhiteSpace c = false) (String.list_ascii_of_string s) ->
  Js.trimEnd (s +:+ lf) = s.
Proof.
  induction s as [|c s IH]; intros H; [reflexivity |].
  cbn [String.list_ascii_of_string] in H. apply Forall_cons in H. destruct H as [Hc Hs].
  change (String c s +:+ lf) with (String c (s +:+ lf)).
  cbn [Js.trimEnd]. rewrite (IH Hs). destruct s; [rewrite Hc |]; reflexivity.
Qed.

Lemma trim_line (s : string) :
  Forall (fun c => Js.isWhiteSpace c = false) (String.list_ascii_of_string s) ->
  Js.trim (s +:+ lf) = s.
Proof.
  intros H. unfold Js.trim. destruct s as [|c s]; [reflexivity |].
  pose proof H as H'. cbn [String.list_ascii_of_string] in H'.
  apply Forall_cons in H'. destruct H' as [Hc _].
  change (String c s +:+ lf) with (String c (s +:+ lf)).
  cbn [Js.trimStart]. rewrite Hc.
  change (String c (s +:+ lf)) with (String c s +:+ lf). apply trimEnd_line. exact H.
Qed.

Section CheckoutOutcomes.

Import RepoCheckout.

Variable World : Type.
Variable exec : Command -> World -> Outcome * World.
Variable path_join : list string -> string.
Variable params : Params.
Variable context : Context.
Variable w : World.

Let context' : Context := setRoots path_join params context.
Let repoCmd : string := path_join [bin_dir context'; "repo"; "repo"].
Let c1 : Command := mkdirCommand (ctx_checkout_root context').
Let c2 : Command := initCommand params repoCmd (ctx_checkout_root context').
Let c3 : Command := syncCommand repoCmd (ctx_checkout_root context').
Let c4 : Command := revParseCommand (ctx_project_root context').
Let r1 : Outcome * World := exec c1 w.
Let r2 : Outcome * World := exec c2 r1.2.
Let r3 : Outcome * World := exec c3 r2.2.
Let r4 : Outcome * World := exec c4 r3.2.

(** The outcome of [execute] by the first command that fails. *)
Lemma execute_cases :
  execute World exec path_join params context w =
  match error r1.1 with
  | Some e => (Some e, {| world := r1.2; output := ∅; issued := [c1] |}, context')
  | None =>
      match error r2.1 with
      | Some e => (Some e, {| world := r2.2; output := ∅; issued := [c1; c2] |}, context')
      | None =>
          match error r3.1 with
          | Some e =>
              (Some e, {| world := r3.2; output := ∅; issued := [c1; c2; c3] |}, context')
          | None =>
              (None,
               {| world := r4.2;
                  output := foldl (fun out data => stdout data out) ∅ (stdout_lines r4.1);
                  issued := [c1; c2; c3; c4] |}, context')
          end
      end
  end.
Proof.
  rewrite execute_unfold. cbn [series].
  rewrite call_run. cbn [world output issued]. fold context' c1 r1.
  destruct (error r1.1); [reflexivity |].
  rewrite call_run. cbn [world output issued]. fold repoCmd c2 r2.
  destruct (error r2.1); [reflexivity |].
  rewrite call_run. cbn [world output issued]. fold c3 r3.
  destruct (error r3.1); [reflexivity |].
  rewrite call_run. cbn [world output issued]. fold c4 r4. reflexivity.
Qed.


(** X20: the revision recorded.  When mkdir, repo init and repo sync do
    not fail and git rev-parse prints one line made of 40 characters that
    are no white space and a newline, [output] is exactly the object with
    [version] set to these 40 characters. *)
Theorem X20_version_is_the_revision (rev : string) :
  error r1.1 = None -> error r2.1 = None -> error r3.1 = None ->
  stdout_lines r4.1 = [rev +:+ lf] ->
  String.length rev = 40%nat ->
  Forall (fun c => Js.isWhiteSpace c = false) (String.list_ascii_of_string rev) ->
  (execute World exec path_join params context w).1.1 = None
  /\ output (execute World exec path_join params context w).1.2 = {[ "version" := rev ]}.
Proof.
  intros H1 H2 H3 Hout Hlen Hrev. rewrite execute_cases, H1, H2, H3.
  cbn [fst snd output]. split; [reflexivity |].
  rewrite Hout. cbn [foldl]. unfold stdout.
  replace (Js.length (rev +:+ lf) =? 41) with true.
  - rewrite (trim_line rev Hrev). reflexivity.
  - symmetry. apply Z.eqb_eq. rewrite length_append. unfold Js.length. rewrite Hlen.
    reflexivity.
Qed.

End CheckoutOutcomes.


Lemma X20_version_is_the_revision_witness :
  (RepoCheckout.execute nat (CheckoutSamples.exec_fails_at 4)
     CheckoutSamples.path_join CheckoutSamples.params
     CheckoutSamples.context 0%nat).1.1 = None
  /\ RepoCheckout.output
       (RepoCheckout.execute nat (CheckoutSamples.exec_fails_at 4)
          CheckoutSamples.path_join CheckoutSamples.params
          CheckoutSamples.context 0%nat).1.2
     = {[ "version" := "0123456789abcdef0123456789abcdef01234567" ]}.
Proof.
  apply (X20_version_is_the_revision nat (CheckoutSamples.exec_fails_at 4)
           CheckoutSamples.path_join CheckoutSamples.params
           CheckoutSamples.context 0%nat "0123456789abcdef0123456789abcdef01234567");
    [vm_compute; reflexivity | vm_compute; reflexivity | vm_compute; reflexivity
    | vm_compute; reflexivity | reflexivity |].
  cbn [String.list_ascii_of_string]. repeat (constructor; [reflexivity |]). constructor.
Defined.

(** ** Indented lines *)

Lemma scan_shift (pat s : string) :
  forall p q, 0 <= p -> 0 <= q -> Js.scan pat s p <> -1 ->
    Js.scan pat s q = Js.scan pat s p + (q - p).
Proof.
  induction s as [|c s IH]; intros p q Hp Hq.
  - rewrite !scan_nil. destruct (String.prefix pat ""); [lia | contradiction].
  - rewrite !scan_cons. destruct (String.prefix pat (String c s)); [lia |].
    intros H. rewrite (IH (p + 1) (q + 1)) by (try lia; exact H). lia.
Qed.

Lemma indexOf_indent (a c : ascii) (p line : string) :
  a <> c ->
  Js.indexOf (String c line) (String a p)
  = if Js.indexOf line (String a p) =? -1 then -1
    else Js.indexOf line (String a p) + 1.
Proof.
  intros Hne. rewrite !indexOf_unfold, scan_cons, (prefix_head_ne a c p line Hne).
  destruct (Z.eqb_spec (Js.scan (String a p) line 0) (-1)) as [Hnone | Hsome].
  - apply (scan_none_shift _ _ 0); [lia | lia | exact Hnone].
  - rewrite (scan_shift _ _ 0 (0 + 1)) by (try lia; exact Hsome). lia.
Qed.

Lemma slice_indent (c : ascii) (s : string) (a b : Z) :
  0 <= a -> 0 <= b -> Js.slice (String c s) (a + 1) (b + 1) = Js.slice s a b.
Proof.
  intros Ha Hb. unfold Js.slice, Js.clampIndex. rewrite length_String.
  pose proof (length_nonneg s) as Hs.
  destruct (Z.ltb_spec (a + 1) 0) as [? | _]; [lia |].
  destruct (Z.ltb_spec (b + 1) 0) as [? | _]; [lia |].
  destruct (Z.ltb_spec a 0) as [? | _]; [lia |].
  destruct (Z.ltb_spec b 0) as [? | _]; [lia |].
  replace (Z.min (a + 1) (1 + Js.length s)) with (Z.min a (Js.length s) + 1) by lia.
  replace (Z.min (b + 1) (1 + Js.length s)) with (Z.min b (Js.length s) + 1) by lia.
  destruct (Z.ltb_spec (Z.min a (Js.length s)) (Z.min b (Js.length s))) as [Hlt | Hge].
  - destruct (Z.ltb_spec (Z.min a (Js.length s) + 1) (Z.min b (Js.length s) + 1))
      as [_ | ?]; [| lia].
    replace (Z.to_nat (Z.min a (Js.length s) + 1)) with (S (Z.to_nat (Z.min a (Js.length s))))
      by lia.
    replace (Z.min b (Js.length s) + 1 - (Z.min a (Js.length s) + 1))
      with (Z.min b (Js.length s) - Z.min a (Js.length s)) by lia.
    reflexivity.
  - destruct (Z.ltb_spec (Z.min a (Js.length s) + 1) (Z.min b (Js.length s) + 1))
      as [? | _]; [lia | reflexivity].
Qed.

Lemma slice_indent_start (c : ascii) (s : string) (b : Z) :
  0 <= b -> Js.slice (String c s) 0 (b + 1) = String c (Js.slice s 0 b).
Proof.
  intros Hb. unfold Js.slice, Js.clampIndex. rewrite length_String.
  pose proof (length_nonneg s) as Hs.
  destruct (Z.ltb_spec 0 0) as [? | _]; [lia |].
  destruct (Z.ltb_spec (b + 1) 0) as [? | _]; [lia |].
  destruct (Z.ltb_spec b 0) as [? | _]; [lia |].
  replace (Z.min 0 (1 + Js.length s)) with 0 by lia.
  replace (Z.min 0 (Js.length s)) with 0 by lia.
  replace (Z.min (b + 1) (1 + Js.length s)) with (Z.min b (Js.length s) + 1) by lia.
  destruct (Z.ltb_spec 0 (Z.min b (Js.length s) + 1)) as [_ | ?]; [| lia].
  replace (Z.to_nat (Z.min b (Js.length s) + 1 - 0))
    with (S (Z.to_nat (Z.min b (Js.length s)))) by lia.
  change (Z.to_nat 0) with 0%nat. cbn [String.substring]. f_equal.
  destruct (Z.ltb_spec 0 (Z.min b (Js.length s))) as [Hpos | Hzero].
  - rewrite Z.sub_0_r. reflexivity.
  - replace (Z.min b (Js.length s)) with 0 by lia. destruct s; reflexivity.
Qed.

Lemma whiteSpace_not (c : ascii) :
  Js.isWhiteSpace c = true ->
  "u"%char <> c /\ "("%char <> c /\ ")"%char <> c /\ "-"%char <> c /\ "="%char <> c.
Proof.
  intros H. repeat split; intros <-; vm_compute in H; discriminate H.
Qed.

Lemma createDevice_indent_char (oslevel : string) (c : ascii) (line : string)
    (d : DeviceJson) :
  Js.isWhiteSpace c = true ->
  createDevice oslevel line = Return d ->
  createDevice oslevel (String c line) = Return d.
Proof.
  intros Hc. destruct (whiteSpace_not c Hc) as (Hu & Ho & Hcl & _).
  unfold createDevice.
  rewrite (indexOf_indent "u" c "navailable" line Hu).
  rewrite (indexOf_indent "(" c "" line Ho), (indexOf_indent ")" c "" line Hcl).
  destruct (Z.eqb_spec (Js.indexOf line "unavailable") (-1)) as [_ | _];
    [| discriminate]. cbn [Z.eqb negb].
  destruct (Z.eqb_spec (Js.indexOf line "(") (-1)) as [_ | Hopen]; [discriminate |].
  destruct (Z.eqb_spec (Js.indexOf line ")") (-1)) as [_ | Hclose]; [discriminate |].
  pose proof (indexOf_bounds line "(" Hopen) as Hob.
  pose proof (indexOf_bounds line ")" Hclose) as Hcb.
  destruct (Z.eqb_spec (Js.indexOf line "(" + 1) (-1)) as [? | _]; [lia |].
  destruct (Z.eqb_spec (Js.indexOf line ")" + 1) (-1)) as [? | _]; [lia |].
  rewrite (slice_indent c line (Js.indexOf line "(" + 1) (Js.indexOf line ")"))
    by lia.
  rewrite (slice_indent_start c line (Js.indexOf line "(")) by lia.
  replace (Js.trim (String c (Js.slice line 0 (Js.indexOf line "("))))
    with (Js.trim (Js.slice line 0 (Js.indexOf line "(")))
    by (unfold Js.trim; cbn [Js.trimStart]; rewrite Hc; reflexivity).
  destruct (Js.length (Js.slice line (Js.indexOf line "(" + 1) (Js.indexOf line ")")) <? 10);
    [discriminate | intros H; exact H].
Qed.

(** X15: indentation.  White space in front of an entry line does not
    change the device that [createDevice] makes from it; in front of a
    header it does matter: a line that starts with white space is no
    header. *)
Theorem X15_indentation (oslevel indent line : string) (d : DeviceJson) :
  Forall (fun c => Js.isWhiteSpace c = true) (String.list_ascii_of_string indent) ->
  (createDevice oslevel line = Return d ->
   createDevice oslevel (indent +:+ line) = Return d)
  /\ (indent <> "" -> isHeader (indent +:+ line) = false).
Proof.
  intros Hindent. split.
  - intros Hd. induction indent as [|c indent IH]; [exact Hd |].
    cbn [String.list_ascii_of_string] in Hindent. apply Forall_cons in Hindent.
    destruct Hindent as [Hc Hrest].
    change (String c indent +:+ line) with (String c (indent +:+ line)).
    apply createDevice_indent_char; [exact Hc | exact (IH Hrest)].
  - intros Hne. destruct indent as [|c indent]; [contradiction |].
    cbn [String.list_ascii_of_string] in Hindent. apply Forall_cons in Hindent.
    destruct Hindent as [Hc _]. destruct (whiteSpace_not c Hc) as (_ & _ & _ & Hdash & Heq).
    change (String c indent +:+ line) with (String c (indent +:+ line)).
    rewrite isHeader_prefix_tests, !indexOf_zero_prefix.
    rewrite (prefix_head_ne "-" c "-" _ Hdash), (prefix_head_ne "=" c "=" _ Heq).
    reflexivity.
Qed.

Lemma X15_indentation_witness :
  createDevice "iOS 9.1" ("    " +:+ iphone4s_line) = Return iphone4s_json
  /\ isHeader ("    " +:+ "-- iOS 9.1 --") = false.
Proof.
  split.
  - apply (X15_indentation "iOS 9.1" "    " iphone4s_line iphone4s_json);
      [repeat constructor | vm_compute; reflexivity].
  - apply (X15_indentation "iOS 9.1" "    " "-- iOS 9.1 --" iphone4s_json);
      [repeat constructor | discriminate].
Defined.

(** ** A whole section *)

Lemma osLevelOf_header (hdr oslevel : string) :
  osLevelOf hdr = Return oslevel -> isHeader hdr = true.
Proof.
  unfold osLevelOf. destruct (Js.indexOf hdr "--" =? 0) eqn:E; [| discriminate].
  intros _. apply isHeader_double_dash. exact E.
Qed.

Lemma scan_view_section (tail : list string) :
  tail = [] \/ (exists h t, tail = h :: t /\ Js.indexOf h "==" = 0) ->
  forall (groups : list (string * string * list string)) (dss : list (list DeviceJson)),
    Forall2 (fun g ds =>
               Js.indexOf g.1.1 "==" <> 0
               /\ osLevelOf g.1.1 = Return g.1.2
               /\ Forall (fun l => isHeader l = false) g.2
               /\ Forall2 (fun line d => createDevice g.1.2 line = Return d)
                    (filter (fun l => Js.indexOf l "unavailable" = -1) g.2) ds)
      groups dss ->
    forall results,
      scan_view None results (concat (map (fun g => g.1.1 :: g.2) groups) ++ tail)
      = Return (results ++ concat dss, tail)
      /\ (concat (map (fun g => g.1.1 :: g.2) groups) ++ tail = []
          \/ exists h t, concat (map (fun g => g.1.1 :: g.2) groups) ++ tail = h :: t
               /\ isHeader h = true).
Proof.
  intros Htail groups dss H. induction H as [|g ds groups dss Hg _ IH]; intros results.
  - cbn [map concat app]. rewrite app_nil_r. split.
    + destruct Htail as [-> | (h & t & -> & Hh)]; [reflexivity |].
      rewrite scan_view_header by (left; reflexivity).
      apply Z.eqb_eq in Hh. rewrite Hh. reflexivity.
    + destruct Htail as [-> | (h & t & -> & Hh)]; [left; reflexivity |].
      right. exists h, t. split; [reflexivity |].
      apply isHeader_double_equals. apply Z.eqb_eq. exact Hh.
  - destruct Hg as (Heq & Hos & Hentries & Hds).
    cbn [map concat]. rewrite <- !app_assoc. cbn [app].
    set (R := concat (map (fun g => g.1.1 :: g.2) groups) ++ tail) in *.
    split; [| right; exists g.1.1, (g.2 ++ R); split;
                [reflexivity | exact (osLevelOf_header _ _ Hos)]].
    rewrite scan_view_header by (left; reflexivity).
    apply Z.eqb_neq in Heq. rewrite Heq, Hos.
    pose proof (scan_view_group g.1.2 g.2 Hentries ds results Hds) as Hgroup.
    destruct (IH (results ++ ds)) as [Hrest Hhead].
    rewrite <- app_assoc in Hrest. rewrite <- Hrest.
    destruct Hhead as [-> | (h & t & -> & Hh)].
    + rewrite app_nil_r. exact Hgroup.
    + exact (scan_view_app_header h t g.2 Hh _ _ _ Hgroup).
Qed.

(** X5: a whole section.  For any number of groups, each an OS-level
    header followed by lines that are no headers, followed by the end of
    the lines or by a line that starts with [==], [getOSLevelEntries]
    returns the devices of the groups one after the other, each made with
    the OS level of its own group's header from the lines without
    [unavailable], and stops in front of what follows the groups. *)
Theorem X5_whole_section (groups : list (string * string * list string))
    (dss : list (list DeviceJson)) (tail : list string) :
  Forall2 (fun g ds =>
             Js.indexOf g.1.1 "==" <> 0
             /\ nextValueAsOSLevel [g.1.1] 0%nat = Return (g.1.2, 1%nat)
             /\ Forall (fun l => isHeader l = false) g.2
             /\ Forall2 (fun line d => createDevice g.1.2 line = Return d)
                  (filter (fun l => Js.indexOf l "unavailable" = -1) g.2) ds)
    groups dss ->
  tail = [] \/ (exists h t, tail = h :: t /\ Js.indexOf h "==" = 0) ->
  getOSLevelEntries (concat (map (fun g => g.1.1 :: g.2) groups) ++ tail) 0%nat
  = Return (concat dss, length (concat (map (fun g => g.1.1 :: g.2) groups))).
Proof.
  intros Hgroups Htail. rewrite stream_view by lia. rewrite drop_0.
  assert (Hgroups' : Forall2 (fun g ds =>
             Js.indexOf g.1.1 "==" <> 0
             /\ osLevelOf g.1.1 = Return g.1.2
             /\ Forall (fun l => isHeader l = false) g.2
             /\ Forall2 (fun line d => createDevice g.1.2 line = Return d)
                  (filter (fun l => Js.indexOf l "unavailable" = -1) g.2) ds)
    groups dss).
  { eapply Forall2_impl; [exact Hgroups |]. intros g ds (H1 & H2 & H3 & H4).
    split; [exact H1 |]. split; [exact (osLevelOf_of_stream _ _ H2) |].
    split; assumption. }
  destruct (scan_view_section tail Htail groups dss Hgroups' []) as [-> _].
  cbn [at_cursor app]. unfold cursor_of. rewrite length_app. do 2 f_equal. lia.
Qed.

Lemma X5_whole_section_witness :
  getOSLevelEntries
    (concat (map (fun g : string * string * list string => g.1.1 :: g.2)
               [("-- iOS 8.4 --", "iOS 8.4", [unavailable_line]);
                ("-- iOS 9.1 --", "iOS 9.1", [iphone4s_line])])
       ++ ["== Device Pairs =="; iphone4s_line]) 0%nat
  = Return (concat [[]; [iphone4s_json]],
            length (concat (map (fun g : string * string * list string => g.1.1 :: g.2)
                              [("-- iOS 8.4 --", "iOS 8.4", [unavailable_line]);
                               ("-- iOS 9.1 --", "iOS 9.1", [iphone4s_line])]))).
Proof.
  apply (X5_whole_section
           [("-- iOS 8.4 --", "iOS 8.4", [unavailable_line]);
            ("-- iOS 9.1 --", "iOS 9.1", [iphone4s_line])]
           [[]; [iphone4s_json]] ["== Device Pairs =="; iphone4s_line]).
  - constructor; [| constructor; [| constructor]].
    + split; [vm_compute; discriminate |]. split; [vm_compute; reflexivity |].
      split; [repeat constructor |]. cbn [snd].
      rewrite filter_cons_False by (vm_compute; discriminate). rewrite filter_nil.
      constructor.
    + split; [vm_compute; discriminate |]. split; [vm_compute; reflexivity |].
      split; [repeat constructor |]. cbn [snd].
      rewrite filter_cons_True by (vm_compute; reflexivity). rewrite filter_nil.
      constructor; [vm_compute; reflexivity | constructor].
  - right. exists "== Device Pairs ==", [iphone4s_line].
    split; [reflexivity | vm_compute; reflexivity].
Defined.

Lemma X10_dead_error_paths_witness :
  (forall oslevel line : string,
      getSimulatedDevicesFromLines
        ["== Device Types =="; "== Devices =="; "-- iOS 9.1 --"; unavailable_line]
      <> Throw ("createDevice-fed an unavailable device:" +:+ oslevel +:+ ":" +:+ line))
  /\ getSimulatedDevicesFromLines
       ["== Device Types =="; "== Devices =="; "-- iOS 9.1 --"; unavailable_line]
     <> Throw "unexpected end during nextValue()"
  /\ getSimulatedDevicesFromLines
       ["== Device Types =="; "== Devices =="; "-- iOS 9.1 --"; unavailable_line]
     <> Throw "TypeError: Cannot read property of undefined".
Proof.
  exact (X10_dead_error_paths
           ["== Device Types =="; "== Devices =="; "-- iOS 9.1 --"; unavailable_line]).
Defined.
